(** * filterer.py: the guarded filter pipeline and the control-first loop

    A shallow embedding of [do_file] and of the file loop of [main] from
    [src/filterer.py].

    - Cells are IEEE binary64 numbers (Python's [float]); a missing cell is
      NaN, as pandas reads it.  Parsing of cell text is not modelled.
    - A [DataFrame] is a list of column names and a list of labelled rows;
      [read_csv] labels the rows 0, 1, 2, ... (pandas' RangeIndex).
    - numpy's [mean], [std] and [percentile] are parameters of the
      development; [percentile] may raise (numpy versions differ on empty
      input).
    - Python exceptions are values; the [try]/[except RuntimeError] blocks
      of [do_file] are modelled with the state reached when the exception
      was raised, because list appends made inside a [try] survive it.
    - Plotting, printing and the writing of .csv files are left out.  The
      scatter-plot block of [do_file] (lines 570-639) adds
      [output_data[5]] to a number and so raises [TypeError] when the final
      table is empty and the module's [brownian_speed_threshold] is 0.0;
      [do_file] below returns the summary in that case.
    - [float(...)] and [astype(float)] on a cell that holds text raise
      [ValueError] in Python; cells here are numbers, so that error has no
      counterpart.
    - [name_fixer.fix_names] is not among the sources: the name selection
      of [main] takes it as a parameter. *)

From Stdlib Require Import List String Bool Arith Lia PrimFloat.
From Stdlib Require Import FloatOps FloatAxioms SpecFloat.
Set Warnings "-inexact-float".
Import ListNotations.
Local Open Scope string_scope.
Local Open Scope list_scope.
Local Open Scope nat_scope.

(** ** Exceptions *)

Inductive exn : Type :=
| RuntimeError
| KeyError
| IndexError
| AssertionError
| ValueError
| FileNotFoundError.

Inductive result (A : Type) : Type :=
| Ok (a : A)
| Raise (e : exn).

Arguments Ok {A} a.
Arguments Raise {A} e.

Definition bind {A B : Type} (c : result A) (k : A -> result B) : result B :=
  match c with
  | Ok a => k a
  | Raise e => Raise e
  end.

Notation "x <- c ;; k" := (bind c (fun x => k))
  (at level 61, c at next level, right associativity).

(** [l[i]] on a Python list. *)
Definition py_index {A : Type} (l : list A) (i : nat) : result A :=
  match nth_error l i with
  | Some a => Ok a
  | None => Raise IndexError
  end.

Fixpoint map_result {A B : Type} (f : A -> result B) (l : list A) : result (list B) :=
  match l with
  | [] => Ok []
  | a :: l' => b <- f a ;; bs <- map_result f l' ;; Ok (b :: bs)
  end.

(** ** Tables *)

Definition Row : Type := (nat * list float)%type.

Record DataFrame : Type := mkDataFrame {
  columns : list string;
  rows : list Row
}.

Definition labels (df : DataFrame) : list nat := map fst (rows df).

Fixpoint index_of (name : string) (cols : list string) : option nat :=
  match cols with
  | [] => None
  | c :: cs => if String.eqb c name then Some 0 else option_map S (index_of name cs)
  end.

(** [row[1][name]]: a cell of an iterated row, by column name. *)
Definition series_get (cols : list string) (cells : list float) (name : string)
  : result float :=
  match index_of name cols with
  | None => Raise KeyError
  | Some i =>
      match nth_error cells i with
      | Some v => Ok v
      | None => Raise KeyError
      end
  end.

(** [csv[name].astype(float)]: a column, top to bottom. *)
Definition df_column (df : DataFrame) (name : string) : result (list float) :=
  match index_of name (columns df) with
  | None => Raise KeyError
  | Some _ => map_result (fun r : Row => series_get (columns df) (snd r) name) (rows df)
  end.

Definition mem_nat (n : nat) (l : list nat) : bool := existsb (Nat.eqb n) l.

(** [csv.drop(axis=0, inplace=True, labels=ls)]: every label must be present. *)
Definition drop_labels (ls : list nat) (df : DataFrame) : result DataFrame :=
  if forallb (fun l => mem_nat l (labels df)) ls
  then Ok (mkDataFrame (columns df)
             (filter (fun r : Row => negb (mem_nat (fst r) ls)) (rows df)))
  else Raise KeyError.

Fixpoint select {A : Type} (mask : list bool) (l : list A) : list A :=
  match mask, l with
  | b :: mask', x :: l' => if b then x :: select mask' l' else select mask' l'
  | _, _ => []
  end.

Definition keep_columns (keep : string -> bool) (df : DataFrame) : DataFrame :=
  let mask := map keep (columns df) in
  mkDataFrame (select mask (columns df))
    (map (fun r : Row => (fst r, select mask (snd r))) (rows df)).

Definition mem_string (s : string) (l : list string) : bool := existsb (String.eqb s) l.

(** [csv.drop(axis=1, inplace=True, labels=names)]. *)
Definition drop_columns (names : list string) (df : DataFrame) : result DataFrame :=
  if forallb (fun n => mem_string n (columns df)) names
  then Ok (keep_columns (fun c => negb (mem_string c names)) df)
  else Raise KeyError.

Fixpoint list_string_eqb (a b : list string) : bool :=
  match a, b with
  | [], [] => true
  | x :: a', y :: b' => String.eqb x y && list_string_eqb a' b'
  | _, _ => false
  end.

(** ** Settings and constants of the module *)

Definition col_names : list string :=
  ["TRACK_DISPLACEMENT"; "TRACK_MEAN_SPEED"; "TRACK_MEDIAN_SPEED";
   "TRACK_MEAN_QUALITY"; "TOTAL_DISTANCE_TRAVELED";
   "MEAN_STRAIGHT_LINE_SPEED"; "LINEARITY_OF_FORWARD_PROGRESSION"].

Definition extra_columns : list string :=
  ["INITIAL_TRACK_COUNT"; "FILTERED_TRACK_COUNT"; "STRAIGHT_LINE_SPEED_UM_PER_S"].

Record settings : Type := mkSettings {
  do_std_filter_flags : option (list bool);
  do_iqr_filter_flags : option (list bool);
  do_quality_percentile_filter : bool;
  quality_percentile_filter : float;
  conversion : float;
  do_speed_thresh : bool;
  brownian_multiplier : float;
  do_displacement_thresh : bool;
  do_linearity_thresh : bool;
  do_duration_thresh : bool;
  duration_threshold : float;
  do_speed_thresh_fallback : bool;
  brownian_speed_threshold_fallback : float
}.

(** ** The state of [do_file] between its [try] blocks *)

Definition DropRecord : Type := (nat * float * string)%type.

Record state : Type := mkState {
  csv : DataFrame;
  backup : DataFrame;
  dropped_row_indices : list DropRecord
}.

Definition set_csv (df : DataFrame) (st : state) : state :=
  mkState df (backup st) (dropped_row_indices st).

Definition take_backup (st : state) : state :=
  mkState (csv st) (csv st) (dropped_row_indices st).

Definition append_dropped (d : DropRecord) (st : state) : state :=
  mkState (csv st) (backup st) (dropped_row_indices st ++ [d]).

Inductive outcome : Type :=
| Normal (st : state)
| Raised (e : exn) (st : state).

Definition and_then (o : outcome) (k : state -> outcome) : outcome :=
  match o with
  | Normal st => k st
  | Raised e st => Raised e st
  end.

(** [for row in csv.iterrows(): body].  [iterrows] walks the index and the
    values it read when the loop started, so rows dropped by the body are
    still visited. *)
Fixpoint for_rows (body : Row -> state -> outcome) (entry : list Row) (st : state)
  : outcome :=
  match entry with
  | [] => Normal st
  | row :: rest => and_then (body row st) (for_rows body rest)
  end.

Definition drop_row (label : nat) (st : state) : outcome :=
  match drop_labels [label] (csv st) with
  | Ok df => Normal (set_csv df st)
  | Raise e => Raised e st
  end.

(** [dropped_row_indices.append([row[0], row[1]['MEAN_STRAIGHT_LINE_SPEED'], reason])]
    followed by [csv.drop(axis=0, inplace=True, labels=[row[0]])]. *)
Definition log_and_drop (cols : list string) (row : Row) (reason : string)
  (st : state) : outcome :=
  match series_get cols (snd row) "MEAN_STRAIGHT_LINE_SPEED" with
  | Ok s => drop_row (fst row) (append_dropped (fst row, s, reason) st)
  | Raise e => Raised e st
  end.

(** One turn of a row loop: the row is dropped when [test] holds on it;
    [reason] is the tag logged with the drop ([None]: nothing is logged, as
    in the null filtering). *)
Definition drop_body (test : list string -> Row -> result bool)
  (reason : option string) (cols : list string) (row : Row) (st : state) : outcome :=
  match test cols row with
  | Raise e => Raised e st
  | Ok true =>
      match reason with
      | Some r => log_and_drop cols row r st
      | None => drop_row (fst row) st
      end
  | Ok false => Normal st
  end.

(** The row loop: [for row in csv.iterrows(): if test: log, drop]; the
    rows read their cells through the columns the table has at loop entry. *)
Definition drop_where (test : list string -> Row -> result bool)
  (reason : option string) (st : state) : outcome :=
  for_rows (drop_body test reason (columns (csv st))) (rows (csv st)) st.

(** The rows a loop of [drop_where] drops, and what it logs for each. *)
Definition marked (test : list string -> Row -> result bool) (cols : list string)
  (r : Row) : bool :=
  match test cols r with
  | Ok true => true
  | _ => false
  end.

Definition drop_log (reason : option string) (cols : list string) (r : Row)
  : list DropRecord :=
  match reason, series_get cols (snd r) "MEAN_STRAIGHT_LINE_SPEED" with
  | Some rsn, Ok s => [(fst r, s, rsn)]
  | _, _ => []
  end.

Definition record_label (d : DropRecord) : nat := fst (fst d).

(** [if csv.shape[0] == 0: raise RuntimeError('Overfiltering Error')]. *)
Definition overfiltering_check (st : state) : outcome :=
  match rows (csv st) with
  | [] => Raised RuntimeError st
  | _ :: _ => Normal st
  end.

(** [try: block  except RuntimeError: csv = backup.copy(deep=True)]. *)
Definition try_revert (block : state -> outcome) (st : state) : outcome :=
  match block st with
  | Normal st' => Normal st'
  | Raised RuntimeError st' => Normal (set_csv (backup st') st')
  | Raised e st' => Raised e st'
  end.

(** ** Values returned by [do_file] *)

Inductive pyvalue : Type :=
| PyNone
| PyFloat (f : float)
| PyInt (n : nat).

Fixpoint float_of_nat (n : nat) : float :=
  match n with
  | O => 0%float
  | S n' => (float_of_nat n' + 1)%float
  end.

(** What numpy stores when a Python value is written into a float array. *)
Definition to_float (v : pyvalue) : float :=
  match v with
  | PyNone => nan
  | PyFloat f => f
  | PyInt n => float_of_nat n
  end.

Fixpoint list_set {A : Type} (i : nat) (a : A) (l : list A) : list A :=
  match l, i with
  | [], _ => []
  | _ :: l', O => a :: l'
  | x :: l', S i' => x :: list_set i' a l'
  end.

(** [float(row[1][name])] for the row being visited. *)
Definition cell (name : string) (cols : list string) (row : Row) : result float :=
  series_get cols (snd row) name.

(** The verdict of the column scan of the std and IQR stages on one row. *)
Inductive verdict : Type :=
| Keep
| BelowLower (i : nat)
| AboveUpper (i : nat).

Definition is_drop (v : verdict) : bool :=
  match v with
  | Keep => false
  | _ => true
  end.

(** The ordering check of the columns ("VITAL" in the source). *)
Fixpoint check_column_order (items : list string) (i : nat) : result unit :=
  match items with
  | [] => Ok tt
  | item :: rest =>
      if String.eqb item "TRACK_DURATION" then check_column_order rest i
      else
        c <- py_index col_names i ;;
        if String.eqb item c then check_column_order rest (S i)
        else Raise AssertionError
  end.

(** The second ordering check, made once the duration column is gone. *)
Fixpoint recheck_column_order (items : list string) (i : nat) : result unit :=
  match items with
  | [] => Ok tt
  | item :: rest =>
      c <- py_index col_names i ;;
      if String.eqb item c then recheck_column_order rest (S i)
      else Raise AssertionError
  end.

Section Filterer.

(** numpy, as imported by the module. *)
Variable mean : list float -> float.
Variable std : list float -> float.
Variable percentile : list float -> float -> result float.

(** The module's settings. *)
Variable cfg : settings.

(** What [pd.read_csv] finds under a file name: the header and the data
    lines, or the exception it raises. *)
Variable files : string -> result (list string * list (list float)).

Definition read_csv (name : string) : result DataFrame :=
  hb <- files name ;;
  Ok (mkDataFrame (fst hb) (combine (seq 0 (List.length (snd hb))) (snd hb))).

(** *** Row tests of the threshold stages *)

Definition is_null_duration (cols : list string) (row : Row) : result bool :=
  d <- cell "TRACK_DURATION" cols row ;;
  Ok (negb (d =? d)%float).

Definition fails_duration (cols : list string) (row : Row) : result bool :=
  d <- cell "TRACK_DURATION" cols row ;;
  Ok ((d <? duration_threshold cfg)%float || negb (d =? d)%float).

Definition below (name : string) (threshold : float) (cols : list string) (row : Row)
  : result bool :=
  v <- cell name cols row ;;
  Ok (v <? threshold)%float.

(** *** Per-column statistics of the std and IQR stages *)

(** [[stat(csv[col_name].astype(float)) if flags[i] else 0.0
      for i, col_name in enumerate(csv.columns)]]. *)
Fixpoint flagged_values (stat : list float -> float) (flags : list bool)
  (df : DataFrame) (i : nat) (cols : list string) : result (list float) :=
  match cols with
  | [] => Ok []
  | col_name :: rest =>
      flag <- py_index flags i ;;
      v <- (if flag : bool then xs <- df_column df col_name ;; Ok (stat xs)
            else Ok 0%float) ;;
      vs <- flagged_values stat flags df (S i) rest ;;
      Ok (v :: vs)
  end.

(** The loop that fills [iqr_values]. *)
Fixpoint iqr_values_from (flags : list bool) (df : DataFrame) (i : nat)
  (cols : list string) : result (list float) :=
  match cols with
  | [] => Ok []
  | col_name :: rest =>
      flag <- py_index flags i ;;
      v <- (if flag : bool then
              xs <- df_column df col_name ;;
              q1 <- percentile xs 25%float ;;
              q3 <- percentile xs 75%float ;;
              Ok (q3 - q1)%float
            else Ok 0%float) ;;
      vs <- iqr_values_from flags df (S i) rest ;;
      Ok (v :: vs)
  end.

(** The means of the IQR stage:
    [[mean(csv[col_name].astype(float)) if iqr_drop_flags[i] else 0.0
      for col_name in csv.columns]].
    The comprehension does not bind [i]: it reads the function's [i], which
    the loop over [enumerate(csv.columns)] just above left at the last
    column's position. *)
Definition iqr_mean_values (flags : list bool) (df : DataFrame) : result (list float) :=
  let i := List.length (columns df) - 1 in
  map_result
    (fun col_name =>
       flag <- py_index flags i ;;
       if flag : bool then xs <- df_column df col_name ;; Ok (mean xs)
       else Ok 0%float)
    (columns df).

(** The inner loop [for i, _ in enumerate(raw_list)] of both stages;
    [k] is 2 for the std stage and 1.5 for the IQR stage, [spreads] the
    std values or the IQR values.  [a > b] is [b < a]. *)
Fixpoint scan_row (k : float) (speed_threshold : float) (flags : list bool)
  (mean_values spreads : list float) (i : nat) (raw_list : list float)
  : result verdict :=
  match raw_list with
  | [] => Ok Keep
  | x :: rest =>
      m <- py_index mean_values i ;;
      s <- py_index spreads i ;;
      if (x <? m - k * s)%float then Ok (BelowLower i)
      else if (speed_threshold =? 0)%float then
        flag <- py_index flags i ;;
        if (flag : bool) && (m + k * s <? x)%float then Ok (AboveUpper i)
        else scan_row k speed_threshold flags mean_values spreads (S i) rest
      else scan_row k speed_threshold flags mean_values spreads (S i) rest
  end.

Definition scan_test (k : float) (speed_threshold : float) (flags : list bool)
  (mean_values spreads : list float) (cols : list string) (row : Row) : result bool :=
  v <- scan_row k speed_threshold flags mean_values spreads 0 (snd row) ;;
  Ok (is_drop v).

(** *** The stages: the bodies of the [try] blocks *)

Definition lift {A : Type} (c : result A) (st : state) (k : A -> outcome) : outcome :=
  match c with
  | Ok a => k a
  | Raise e => Raised e st
  end.

Definition null_filtering (st : state) : outcome :=
  drop_where is_null_duration None st.

Definition duration_filter (st : state) : outcome :=
  if do_duration_thresh cfg
  then drop_where fails_duration (Some "DURATION_THRESHOLD") st
  else Normal st.

Definition speed_filter (speed_threshold : float) (st : state) : outcome :=
  if do_speed_thresh cfg
  then drop_where (below "MEAN_STRAIGHT_LINE_SPEED" speed_threshold)
         (Some "SPEED_THRESHOLD") st
  else Normal st.

Definition displacement_filter (displacement_threshold : float) (st : state) : outcome :=
  if do_displacement_thresh cfg
  then drop_where (below "TRACK_DISPLACEMENT" displacement_threshold)
         (Some "DISPLACEMENT_THRESHOLD") st
  else Normal st.

Definition linearity_filter (linearity_threshold : float) (st : state) : outcome :=
  if do_linearity_thresh cfg
  then drop_where (below "LINEARITY_OF_FORWARD_PROGRESSION" linearity_threshold)
         (Some "LINEARITY_THRESHOLD") st
  else Normal st.

Definition quality_filter (st : state) : outcome :=
  if do_quality_percentile_filter cfg
  then
    lift (xs <- df_column (csv st) "TRACK_MEAN_QUALITY" ;;
          percentile xs (quality_percentile_filter cfg)) st
      (fun quality_percentile_threshold =>
         drop_where (below "TRACK_MEAN_QUALITY" quality_percentile_threshold)
           (Some "QUALITY_PERCENTILE") st)
  else Normal st.

Definition std_filter (speed_threshold : float) (std_drop_flags : option (list bool))
  (st : state) : outcome :=
  match std_drop_flags with
  | None => Normal st
  | Some flags =>
      lift (flagged_values std flags (csv st) 0 (columns (csv st))) st
        (fun std_values =>
           lift (flagged_values mean flags (csv st) 0 (columns (csv st))) st
             (fun mean_values =>
                drop_where
                  (scan_test 2%float speed_threshold flags mean_values std_values)
                  (Some "INTERNAL_STD_FILTERING") st))
  end.

Definition iqr_filter (speed_threshold : float) (iqr_drop_flags : option (list bool))
  (st : state) : outcome :=
  match iqr_drop_flags with
  | None => Normal st
  | Some flags =>
      if Nat.eqb (List.length flags) (List.length (columns (csv st))) then
        lift (iqr_values_from flags (csv st) 0 (columns (csv st))) st
          (fun iqr_values =>
             lift (iqr_mean_values flags (csv st)) st
               (fun mean_values =>
                  drop_where
                    (scan_test 1.5%float speed_threshold flags mean_values iqr_values)
                    (Some "INTERNAL_IQR_FILTERING") st))
      else Normal st
  end.

(** A [try] block that starts with [backup = csv.copy(deep=True)], runs a
    stage, and ends with the overfiltering test. *)
Definition guarded (stage : state -> outcome) (st : state) : outcome :=
  try_revert (fun st0 => and_then (stage (take_backup st0)) overfiltering_check) st.

(** The [try] block of the speed stage: it takes no backup of its own. *)
Definition guarded_without_backup (stage : state -> outcome) (st : state) : outcome :=
  try_revert (fun st0 => and_then (stage st0) overfiltering_check) st.

(** [csv.drop(axis=1, inplace=True, labels=['TRACK_DURATION'])], the assert
    on the column list and the second ordering check. *)
Definition drop_duration_column (st : state) : outcome :=
  lift (drop_columns ["TRACK_DURATION"] (csv st)) st
    (fun df =>
       let st' := set_csv df st in
       if list_string_eqb (columns df) col_names
       then lift (recheck_column_order (columns df) 0) st' (fun _ => Normal st')
       else Raised AssertionError st').

(** Lines 258-297 of [do_file]: the null filtering, the duration stage and
    the removal of the duration column. *)
Definition duration_part (st : state) : outcome :=
  and_then (null_filtering st) (fun st =>
  and_then (guarded duration_filter st) drop_duration_column).

(** Lines 299-498 of [do_file]: the six stages that follow. *)
Definition later_stages (displacement_threshold speed_threshold linearity_threshold : float)
  (std_drop_flags iqr_drop_flags : option (list bool)) (st : state) : outcome :=
  and_then (guarded_without_backup (speed_filter speed_threshold) st) (fun st =>
  and_then (guarded (displacement_filter displacement_threshold) st) (fun st =>
  and_then (guarded (linearity_filter linearity_threshold) st) (fun st =>
  and_then (guarded quality_filter st) (fun st =>
  and_then (guarded (std_filter speed_threshold std_drop_flags) st) (fun st =>
  guarded (iqr_filter speed_threshold iqr_drop_flags) st))))).

(** Lines 258-498 of [do_file]: from the null filtering to the IQR stage. *)
Definition filter_stages (displacement_threshold speed_threshold linearity_threshold : float)
  (std_drop_flags iqr_drop_flags : option (list bool)) (st : state) : outcome :=
  and_then (duration_part st)
    (later_stages displacement_threshold speed_threshold linearity_threshold
       std_drop_flags iqr_drop_flags).

(** *** Summary statistics *)

Definition summarize (initial_num_rows : nat) (df : DataFrame)
  : result (list pyvalue * list pyvalue) :=
  let final_num_rows := List.length (rows df) in
  stats <- map_result
             (fun item => xs <- df_column df item ;; Ok (mean xs, std xs))
             col_names ;;
  let output_data :=
    map (fun ms => PyFloat (fst ms)) stats
      ++ repeat (PyFloat 0%float) (List.length extra_columns) in
  let output_std := map (fun ms => PyFloat (snd ms)) stats in
  let output_data :=
    if Nat.eqb final_num_rows 0 then map (fun _ => PyNone) output_data else output_data in
  let output_data := list_set (List.length col_names) (PyInt initial_num_rows) output_data in
  let output_data := list_set (List.length col_names + 1) (PyInt final_num_rows) output_data in
  let speed_um :=
    match nth 5 output_data PyNone with
    | PyNone => PyNone
    | v => PyFloat (to_float v * conversion cfg)%float
    end in
  let output_data := list_set (List.length col_names + 2) speed_um output_data in
  Ok (output_data, output_std).

(** *** [do_file] *)

(** The table [do_file] filters: columns other than the seven names and
    [TRACK_DURATION] dropped, order checked, rows 0, 1, 2 dropped. *)
Definition load_table (csv0 : DataFrame) : result DataFrame :=
  let csv1 :=
    keep_columns
      (fun c => mem_string c col_names || String.eqb c "TRACK_DURATION") csv0 in
  _ <- check_column_order (columns csv1) 0 ;;
  drop_labels [0; 1; 2] csv1.

(** The final table and drop log of [do_file], with the initial row count. *)
Definition do_file_state (name : string)
  (displacement_threshold speed_threshold linearity_threshold : float)
  (std_drop_flags iqr_drop_flags : option (list bool))
  : result (option (nat * state)) :=
  match read_csv name with
  | Raise RuntimeError => Ok None
  | Raise e => Raise e
  | Ok csv0 =>
      csv2 <- load_table csv0 ;;
      let initial_num_rows := List.length (rows csv2) in
      match filter_stages displacement_threshold speed_threshold
              linearity_threshold std_drop_flags iqr_drop_flags
              (mkState csv2 csv2 []) with
      | Raised e _ => Raise e
      | Normal st => Ok (Some (initial_num_rows, st))
      end
  end.

Definition do_file (name : string)
  (displacement_threshold speed_threshold linearity_threshold : float)
  (std_drop_flags iqr_drop_flags : option (list bool))
  : result (list pyvalue * list pyvalue) :=
  r <- do_file_state name displacement_threshold speed_threshold
         linearity_threshold std_drop_flags iqr_drop_flags ;;
  match r with
  | None =>
      Ok (map (fun _ => PyNone) col_names ++ [PyNone; PyNone],
          map (fun _ => PyNone) col_names)
  | Some (initial_num_rows, st) => summarize initial_num_rows (csv st)
  end.

(** *** The file loop of [main] *)

Record thresholds : Type := mkThresholds {
  brownian_speed_threshold : float;
  brownian_displacement_threshold : float;
  brownian_linearity_threshold : float
}.

(** [array[i] = values]: numpy refuses a list of another length. *)
Definition assign_row (width : nat) (values : list pyvalue) : result (list float) :=
  if Nat.eqb (List.length values) width then Ok (map to_float values) else Raise ValueError.

Definition array_width : nat := List.length col_names + List.length extra_columns.
Definition std_array_width : nat := List.length col_names.

(** [array[i], std_array[i] = do_file(...)]. *)
Definition store (r : result (list pyvalue * list pyvalue))
  : result (list float * list float) :=
  out <- r ;;
  a <- assign_row array_width (fst out) ;;
  s <- assign_row std_array_width (snd out) ;;
  Ok (a, s).

(** The control branch with its [except RuntimeError]. *)
Definition control_rows (name : string) : result (list float * list float) :=
  match store (do_file name 0%float 0%float 0%float
                 (do_std_filter_flags cfg) (do_iqr_filter_flags cfg)) with
  | Raise RuntimeError => Ok (repeat nan array_width, repeat nan std_array_width)
  | r => r
  end.

Definition derive_thresholds (row0 : list float * list float) : thresholds :=
  mkThresholds
    (nth 5 (fst row0) 0 + brownian_multiplier cfg * nth 5 (snd row0) 0)%float
    (nth 0 (fst row0) 0%float)
    (nth 6 (fst row0) 0%float).

(** [for i, name in enumerate(names)]: the rows of [array] and [std_array]
    filled so far, in order; [g] holds the three module-level thresholds. *)
Fixpoint analyze_files (has_control : bool) (i : nat) (names : list string)
  (g : thresholds) : result (list (list float * list float)) :=
  match names with
  | [] => Ok []
  | name :: rest =>
      if Nat.eqb i 0 && has_control then
        row0 <- control_rows name ;;
        more <- analyze_files has_control (S i) rest (derive_thresholds row0) ;;
        Ok (row0 :: more)
      else
        row <- store (do_file name
                        (brownian_displacement_threshold g)
                        (brownian_speed_threshold g)
                        (brownian_linearity_threshold g)
                        (do_std_filter_flags cfg) (do_iqr_filter_flags cfg)) ;;
        let g' :=
          if Nat.eqb i 0 && do_speed_thresh_fallback cfg
          then mkThresholds (brownian_speed_threshold_fallback cfg)
                 (brownian_displacement_threshold g)
                 (brownian_linearity_threshold g)
          else g in
        more <- analyze_files has_control (S i) rest g' ;;
        Ok (row :: more)
  end.

(** The loop as [main] starts it: thresholds at their initial 0.0. *)
Definition main_loop (has_control : bool) (names : list string)
  : result (list (list float * list float)) :=
  analyze_files has_control 0 names (mkThresholds 0%float 0%float 0%float).

End Filterer.

(** ** The settings as the module ships them *)

Definition default_settings : settings :=
  {| do_std_filter_flags := None;
     do_iqr_filter_flags := None;
     do_quality_percentile_filter := false;
     quality_percentile_filter := 50%float;
     conversion := (4 * 0.32)%float;
     do_speed_thresh := true;
     brownian_multiplier := 0%float;
     do_displacement_thresh := false;
     do_linearity_thresh := false;
     do_duration_thresh := true;
     duration_threshold := 65%float;
     do_speed_thresh_fallback := false;
     brownian_speed_threshold_fallback := 0.042114570268546765%float |}.

(** ** numpy's statistics on small inputs

    Used to run the model on concrete tables: the arithmetic mean, the
    population standard deviation and the linearly interpolated percentile,
    computed in binary64. [np_percentile] raises on an empty input.
    They are not numpy bit for bit: [np_sum] adds from left to right where
    numpy adds pairwise, a pandas Series skips NaN in its mean, and numpy's
    percentile interpolates with its own lerp and returns NaN when the
    input holds one.  The general theorems take [mean], [std] and
    [percentile] as parameters. *)

Definition np_sum (xs : list float) : float := fold_left PrimFloat.add xs 0%float.

Definition np_mean (xs : list float) : float :=
  (np_sum xs / float_of_nat (List.length xs))%float.

Definition np_std (xs : list float) : float :=
  let m := np_mean xs in
  sqrt (np_mean (map (fun x => ((x - m) * (x - m))%float) xs)).

Fixpoint insert_sorted (x : float) (l : list float) : list float :=
  match l with
  | [] => [x]
  | y :: l' => if (x <=? y)%float then x :: l else y :: insert_sorted x l'
  end.

Definition np_sort (xs : list float) : list float := fold_right insert_sorted [] xs.

(** The largest [j <= k] with [j <= pos] (0 when there is none). *)
Fixpoint floor_index (pos : float) (k : nat) : nat :=
  match k with
  | O => O
  | S k' => if (float_of_nat k <=? pos)%float then k else floor_index pos k'
  end.

Definition np_percentile (xs : list float) (q : float) : result float :=
  match np_sort xs with
  | [] => Raise IndexError
  | (x0 :: _) as sorted =>
      let n := List.length sorted in
      let pos := (q / 100 * float_of_nat (n - 1))%float in
      let lo := floor_index pos (n - 1) in
      let hi := Nat.min (S lo) (n - 1) in
      let a := nth lo sorted x0 in
      let b := nth hi sorted x0 in
      Ok (a + (b - a) * (pos - float_of_nat lo))%float
  end.

(** ** Sample inputs

    A file is a header and its data lines.  The three lines under the
    header are TrackMate's descriptions of the columns; [do_file] drops
    them by label before it reads any number. *)

Definition header : list string := "TRACK_DURATION" :: col_names.

Definition description_line : list float := repeat nan 8.

(** One track: its duration, displacement, quality, straight-line speed and
    linearity; the three remaining columns hold 1. *)
Definition track (duration displacement quality speed linearity : float) : list float :=
  [duration; displacement; 1%float; 1%float; quality; 1%float; speed; linearity].

Definition tracks_file (tracks : list (list float)) : list (list float) :=
  description_line :: description_line :: description_line :: tracks.

(** A folder that holds one readable file. *)
Definition folder_with (name : string) (hdr : list string) (body : list (list float))
  (other : exn) (n : string) : result (list string * list (list float)) :=
  if String.eqb n name then Ok (hdr, body) else Raise other.

Definition settings_without_duration_thresh : settings :=
  {| do_std_filter_flags := None;
     do_iqr_filter_flags := None;
     do_quality_percentile_filter := false;
     quality_percentile_filter := 50%float;
     conversion := (4 * 0.32)%float;
     do_speed_thresh := true;
     brownian_multiplier := 0%float;
     do_displacement_thresh := false;
     do_linearity_thresh := false;
     do_duration_thresh := false;
     duration_threshold := 65%float;
     do_speed_thresh_fallback := false;
     brownian_speed_threshold_fallback := 0.042114570268546765%float |}.

(** Two tracks, the first with a missing duration. *)
Definition missing_duration_file : list (list float) :=
  tracks_file [track nan 1 1 5 1; track 100 1 1 2 1]%float.

Definition settings_with_quality_filter : settings :=
  {| do_std_filter_flags := None;
     do_iqr_filter_flags := None;
     do_quality_percentile_filter := true;
     quality_percentile_filter := 50%float;
     conversion := (4 * 0.32)%float;
     do_speed_thresh := true;
     brownian_multiplier := 0%float;
     do_displacement_thresh := false;
     do_linearity_thresh := false;
     do_duration_thresh := true;
     duration_threshold := 65%float;
     do_speed_thresh_fallback := false;
     brownian_speed_threshold_fallback := 0.042114570268546765%float |}.

(** Four long tracks of quality 1, 2, 3 and 4. *)
Definition quality_file : list (list float) :=
  tracks_file [track 100 1 1 1 1; track 100 1 2 1 1;
               track 100 1 3 1 1; track 100 1 4 1 1]%float.

(** The same four tracks as [do_file] holds them when the quality stage
    starts: labels 3 to 6, the duration column gone. *)
Definition quality_table : DataFrame :=
  mkDataFrame col_names
    [(3, [1; 1; 1; 1; 1; 1; 1]%float); (4, [1; 1; 1; 2; 1; 1; 1]%float);
     (5, [1; 1; 1; 3; 1; 1; 1]%float); (6, [1; 1; 1; 4; 1; 1; 1]%float)].

Definition quality_state : state := mkState quality_table quality_table [].

(** Ten tracks as the std stage sees them; the last one's straight-line
    speed is far above the others'. *)
Definition outlier_table : DataFrame :=
  mkDataFrame col_names
    (combine (seq 3 10)
       (repeat [1; 1; 1; 1; 1; 1; 1]%float 9 ++ [[1; 1; 1; 1; 1; 100; 1]%float])).

Definition outlier_state : state := mkState outlier_table outlier_table [].

(** The std filter on [MEAN_STRAIGHT_LINE_SPEED] only. *)
Definition speed_flag_only : list bool :=
  [false; false; false; false; false; true; false].

(** A short fast track and a long slow one. *)
Definition short_fast_long_slow_file : list (list float) :=
  tracks_file [track 10 1 1 5 1; track 100 1 1 0.5 1]%float.

(** Two long tracks, the first with a negative displacement. *)
Definition negative_displacement_file : list (list float) :=
  tracks_file [track 100 (-1) 1 1 1; track 100 1 1 1 1]%float.

(** Two long tracks that differ in displacement only. *)
Definition uneven_displacement_file : list (list float) :=
  tracks_file [track 100 1 1 1 1; track 100 3 1 1 1]%float.

Definition no_flags : list bool := repeat false 7.

(** The IQR filter on [LINEARITY_OF_FORWARD_PROGRESSION] only. *)
Definition linearity_flag_only : list bool :=
  [false; false; false; false; false; false; true].

(** A file with no track at all. *)
Definition empty_file : list (list float) := tracks_file [].

(** A table with the seven columns and no [TRACK_DURATION]. *)
Definition no_duration_file : list (list float) :=
  [repeat nan 7; repeat nan 7; repeat nan 7;
   [1; 1; 1; 1; 1; 1; 1]%float; [2; 2; 2; 2; 2; 2; 2]%float].

(** A folder with a control file, a file [pd.read_csv] raises [e] on, and a
    third, readable file. *)
Definition folder_with_unreadable (e : exn) (n : string)
  : result (list string * list (list float)) :=
  if String.eqb n "0khz.csv" then Ok (header, quality_file)
  else if String.eqb n "1khz.csv" then Raise e
  else Ok (header, quality_file).

(** The same folder with a second file that lacks [TRACK_DURATION]. *)
Definition folder_with_no_duration (n : string)
  : result (list string * list (list float)) :=
  if String.eqb n "0khz.csv" then Ok (header, quality_file)
  else if String.eqb n "1khz.csv" then Ok (col_names, no_duration_file)
  else Ok (header, quality_file).

(** The two tracks the quality stage leaves of [quality_file], as a file. *)
Definition quality_file_filtered : list (list float) :=
  tracks_file [track 100 1 3 1 1; track 100 1 4 1 1]%float.

(** Two long tracks, a fast one and a slow one. *)
Definition two_speed_file : list (list float) :=
  tracks_file [track 100 1 1 5 1; track 100 1 1 0.5 1]%float.

(** ** Vocabulary of the statements *)

(** The state an outcome ends in. *)
Definition final (o : outcome) : state :=
  match o with
  | Normal st => st
  | Raised _ st => st
  end.

(** Every row of the table and of the backup, and every logged drop,
    carries a label of [L]. *)
Definition within (L : list nat) (st : state) : Prop :=
  incl (labels (csv st)) L
  /\ incl (labels (backup st)) L
  /\ incl (map record_label (dropped_row_indices st)) L.

Definition preserves (L : list nat) (f : state -> outcome) : Prop :=
  forall st, within L st -> within L (final (f st)).

(** What a guarded stage leaves of the rows [l] when its loop keeps the rows
    that satisfy [keep]: those rows, or all of [l] when none satisfies it. *)
Definition guard_rows (keep : Row -> bool) (l : list Row) : list Row :=
  match filter keep l with
  | [] => l
  | kept => kept
  end.

(** The rows a stage keeps: all of them when the stage is switched off. *)
Definition kept_by (flag : bool) (test : list string -> Row -> result bool)
  (cols : list string) (r : Row) : bool :=
  negb (flag && marked test cols r).

(** The test can be evaluated on every row of [l], and the logged cell can
    be read on every row it drops. *)
Definition readable (test : list string -> Row -> result bool) (cols : list string)
  (l : list Row) : Prop :=
  forall r, In r l ->
    (exists b, test cols r = Ok b) /\
    (marked test cols r = true ->
     exists s, series_get cols (snd r) "MEAN_STRAIGHT_LINE_SPEED" = Ok s).

Definition raises_only_key (test : list string -> Row -> result bool) : Prop :=
  forall cols r e, test cols r = Raise e -> e = KeyError.

(** ** The rest of [do_file] and [main] *)

(** [sub in s] on Python strings. *)
Fixpoint contains (sub s : string) : bool :=
  String.prefix sub s
  || match s with
     | EmptyString => false
     | String _ s' => contains sub s'
     end.

(** The label [do_file] returns when [return_label] is set (lines 641-664). *)
Definition label_of (name : string) : string :=
  if contains "800hz" name || contains "0.8khz" name then "800.0"
  else if contains "1khz" name then "1000.0"
  else if contains "25khz" name then "25000.0"
  else if contains "5khz" name then "5000.0"
  else if contains "10khz" name then "10000.0"
  else if contains "50khz" name then "50000.0"
  else if contains "100khz" name then "100000.0"
  else if contains "200khz" name then "200000.0"
  else if contains "0khz" name || contains "control" name then "0.0"
  else "".

(** The regular expressions of the module, in the order of the frequencies. *)
Definition patterns : list string :=
  ["(((?<![0-9])0 ?khz|control).*track|t(0 ?khz|control))";
   "((0.8 ?khz|800 ?hz).*track|t(0.8 ?khz|800 ?hz))";
   "(1 ?khz.*track|t1 ?khz)";
   "((?<![0-9])5 ?khz.*track|t5 ?khz)";
   "(10 ?khz.*track|t10 ?khz)";
   "(25 ?khz.*track|t25 ?khz)";
   "(50 ?khz.*track|t50 ?khz)";
   "(75 ?khz.*track|t75 ?khz)";
   "(100 ?khz.*track|t100 ?khz)";
   "(150 ?khz.*track|t150 ?khz)";
   "(200 ?khz.*track|t200 ?khz)";
   "(300 ?khz.*track|t300 ?khz)"].

Definition fallback_patterns : list string :=
  ["((?<![0-9])0 ?khz|[cC]ontrol)";
   "(0.8 ?khz|800 ?hz)";
   "1 ?khz";
   "(?<![0-9])5 ?khz";
   "10 ?khz";
   "25 ?khz";
   "50 ?khz";
   "75 ?khz";
   "100 ?khz";
   "150 ?khz";
   "200 ?khz";
   "300 ?khz"].

Definition is_some {A : Type} (o : option A) : bool :=
  match o with
  | Some _ => true
  | None => false
  end.

(** [[name for name in names if name is not None]]. *)
Fixpoint drop_none {A : Type} (l : list (option A)) : list A :=
  match l with
  | [] => []
  | Some a :: l' => a :: drop_none l'
  | None :: l' => drop_none l'
  end.

(** [has_control = names[0] is not None] and the removal of the missing
    files. *)
Definition found_files (found : list (option string)) : result (bool * list string) :=
  first <- py_index found 0 ;;
  Ok (is_some first, drop_none found).

Section Main.

Variable mean : list float -> float.
Variable std : list float -> float.
Variable percentile : list float -> float -> result float.
Variable cfg : settings.
Variable files : string -> result (list string * list (list float)).

(** [name_fixer.fix_names]: for each pattern the file of the folder that
    matches it, or [None]. *)
Variable fix_names : list string -> list (option string).

(** Lines 777-800 of [main]: the files to analyse and whether the first of
    them is the control. *)
Definition select_names : result (bool * list string) :=
  r <- found_files (fix_names patterns) ;;
  r <- (if Nat.eqb (List.length (snd r)) 0
        then found_files (fix_names fallback_patterns)
        else Ok r) ;;
  if Nat.eqb (List.length (snd r)) 0 then Raise RuntimeError else Ok r.

(** [main] up to the two arrays it writes out. *)
Definition main_arrays : result (list (list float * list float)) :=
  r <- select_names ;;
  main_loop mean std percentile cfg files (fst r) (snd r).

End Main.

(** A well-formed file and the folder that holds it. *)
Definition two_speed_folder : string -> result (list string * list (list float)) :=
  folder_with "1khz.csv" header two_speed_file FileNotFoundError.

(** Two long tracks under a displacement threshold of 2. *)
Definition low_displacement_table : DataFrame :=
  mkDataFrame col_names
    [(3, [1; 1; 1; 1; 1; 5; 1]%float); (4, [1.5; 1; 1; 1; 1; 7; 1]%float)].

Definition low_displacement_state : state :=
  mkState low_displacement_table low_displacement_table [].

(** A folder with a control file and one more file. *)
Definition control_folder (n : string) : result (list string * list (list float)) :=
  if String.eqb n "0khz.csv" then Ok (header, two_speed_file)
  else if String.eqb n "1khz.csv" then Ok (header, short_fast_long_slow_file)
  else Raise FileNotFoundError.

(** A loaded table with a track without duration, a long track and a short
    one. *)
Definition mixed_duration_table : DataFrame :=
  mkDataFrame header
    [(3, track nan 1 1 5 1); (4, track 100 1 1 0.5 1); (5, track 10 1 1 5 1)].

Definition mixed_duration_state : state :=
  mkState mixed_duration_table mixed_duration_table [].

(** Two tracks, the first with a negative displacement. *)
Definition negative_displacement_table : DataFrame :=
  mkDataFrame col_names
    [(3, [-1; 1; 1; 1; 1; 5; 1]%float); (4, [1; 1; 1; 1; 1; 7; 1]%float)].

Definition negative_displacement_state : state :=
  mkState negative_displacement_table negative_displacement_table [].

Definition settings_with_displacement_thresh : settings :=
  {| do_std_filter_flags := None;
     do_iqr_filter_flags := None;
     do_quality_percentile_filter := false;
     quality_percentile_filter := 50%float;
     conversion := (4 * 0.32)%float;
     do_speed_thresh := true;
     brownian_multiplier := 0%float;
     do_displacement_thresh := true;
     do_linearity_thresh := false;
     do_duration_thresh := true;
     duration_threshold := 65%float;
     do_speed_thresh_fallback := false;
     brownian_speed_threshold_fallback := 0.042114570268546765%float |}.

(** A folder in which only the patterns of 0 kHz and 1 kHz match. *)
Definition two_matches (pats : list string) : list (option string) :=
  match pats with
  | _ :: _ :: rest => Some "0khz.csv" :: Some "1khz.csv" :: map (fun _ => None) rest
  | _ => []
  end.

(** ** More vocabulary *)

(** What a stage may change: it keeps the backup and the columns and leaves
    some of the rows, in their order. *)
Definition same_frame (st st' : state) : Prop :=
  backup st' = backup st /\
  columns (csv st') = columns (csv st) /\
  exists keep, rows (csv st') = filter keep (rows (csv st)).

Definition framed (f : state -> outcome) : Prop :=
  forall st, same_frame st (final (f st)).

(** Every label of [L] is in the table or in the drop log, and in the
    backup or in the drop log. *)
Definition accounted (L : list nat) (st : state) : Prop :=
  forall l, In l L ->
    (In l (labels (csv st)) \/ In l (map record_label (dropped_row_indices st))) /\
    (In l (labels (backup st)) \/ In l (map record_label (dropped_row_indices st))).

Definition accounting (L : list nat) (f : state -> outcome) : Prop :=
  forall st, accounted L st -> accounted L (final (f st)).

(** Every row has one cell per column. *)
Definition rectangular (df : DataFrame) : Prop :=
  forall r, In r (rows df) -> List.length (snd r) = List.length (columns df).

(** [df'] has the columns of [df] and some of its rows, in their order. *)
Definition part_of (df' df : DataFrame) : Prop :=
  columns df' = columns df /\ exists keep, rows df' = filter keep (rows df).

(** The exception a step may end with is never a [RuntimeError]. *)
Definition no_runtime_error (f : state -> outcome) : Prop :=
  forall st e st', f st = Raised e st' -> e <> RuntimeError.

(** The row has a cell under zero. *)
Definition has_negative (cols : list string) (r : Row) : result bool :=
  Ok (existsb (fun x => (x <? 0)%float) (snd r)).

(** A table the stages can run on: unique labels, one cell per column in
    every row, and the seven columns among its columns. *)
Definition usable (df : DataFrame) : Prop :=
  NoDup (labels df) /\ rectangular df /\ incl col_names (columns df).

(** * Properties *)

(** ** Lists and labels *)

Lemma mem_nat_In (n : nat) (l : list nat) : mem_nat n l = true <-> In n l.
Proof.
  unfold mem_nat. rewrite existsb_exists. split.
  - intros [x [Hin Heq]]. apply Nat.eqb_eq in Heq. now subst.
  - intros Hin. exists n. split; [assumption | apply Nat.eqb_refl].
Qed.

Lemma mem_string_In (s : string) (l : list string) : mem_string s l = true <-> In s l.
Proof.
  unfold mem_string. rewrite existsb_exists. split.
  - intros [x [Hin Heq]]. apply String.eqb_eq in Heq. now subst.
  - intros Hin. exists s. split; [assumption | apply String.eqb_refl].
Qed.

Lemma filter_twice {A : Type} (f g : A -> bool) (l : list A) :
  filter f (filter g l) = filter (fun x => g x && f x) l.
Proof.
  induction l as [|a l IH]; simpl; [reflexivity|].
  destruct (g a); simpl; [destruct (f a)|]; now rewrite IH.
Qed.

Lemma filter_all {A : Type} (f : A -> bool) (l : list A) :
  (forall x, In x l -> f x = true) -> filter f l = l.
Proof.
  induction l as [|a l IH]; simpl; intros H; [reflexivity|].
  rewrite (H a (or_introl eq_refl)). f_equal. apply IH. intros x Hx. apply H. now right.
Qed.

Lemma filter_none {A : Type} (f : A -> bool) (l : list A) :
  (forall x, In x l -> f x = false) -> filter f l = [].
Proof.
  induction l as [|a l IH]; simpl; intros H; [reflexivity|].
  rewrite (H a (or_introl eq_refl)). apply IH. intros x Hx. apply H. now right.
Qed.

Lemma filter_nil_all_false {A : Type} (f : A -> bool) (l : list A) :
  filter f l = [] -> forall x, In x l -> f x = false.
Proof.
  intros H x Hx. destruct (f x) eqn:E; [|reflexivity].
  assert (Hin : In x (filter f l)) by (apply filter_In; auto).
  rewrite H in Hin. contradiction.
Qed.

Lemma NoDup_labels_filter (f : Row -> bool) (l : list Row) :
  NoDup (map fst l) -> NoDup (map fst (filter f l)).
Proof.
  induction l as [|a l IH]; simpl; intros H; [constructor|].
  inversion H as [|x xs Hn Hd]; subst.
  destruct (f a); simpl; auto. constructor; auto.
  intros Hin. apply Hn. apply in_map_iff in Hin. destruct Hin as [r [Hr Hin]].
  apply filter_In in Hin. apply in_map_iff. exists r. tauto.
Qed.

Lemma label_determines_row (l : list Row) (a b : Row) :
  NoDup (map fst l) -> In a l -> In b l -> fst a = fst b -> a = b.
Proof.
  induction l as [|x l IH]; simpl; intros Hnd Ha Hb Hab; [contradiction|].
  inversion Hnd as [|y ys Hn Hd]; subst.
  destruct Ha as [Ha|Ha], Hb as [Hb|Hb]; subst; auto.
  - exfalso. apply Hn. rewrite Hab. now apply in_map.
  - exfalso. apply Hn. rewrite <- Hab. now apply in_map.
Qed.

(** With unique labels, dropping the labels of the marked rows is filtering
    out the marked rows. *)
Lemma drop_marked_labels (marked : Row -> bool) (l : list Row) :
  NoDup (map fst l) ->
  filter (fun r => negb (mem_nat (fst r) (map fst (filter marked l)))) l
  = filter (fun r => negb (marked r)) l.
Proof.
  intros Hnd. apply filter_ext_in. intros r Hr. f_equal.
  destruct (marked r) eqn:Em.
  - apply mem_nat_In. apply in_map. apply filter_In. auto.
  - destruct (mem_nat (fst r) (map fst (filter marked l))) eqn:E; [|reflexivity].
    apply mem_nat_In in E. apply in_map_iff in E. destruct E as [r' [Hl Hin]].
    apply filter_In in Hin. destruct Hin as [Hin Hm].
    assert (r' = r) by (eapply label_determines_row; eauto).
    subst. congruence.
Qed.

(** ** Row loops *)

Lemma drop_row_normal (label : nat) (st st' : state) :
  drop_row label st = Normal st' ->
  st' = set_csv (mkDataFrame (columns (csv st))
                   (filter (fun r : Row => negb (mem_nat (fst r) [label])) (rows (csv st)))) st
  /\ In label (labels (csv st)).
Proof.
  unfold drop_row, drop_labels. simpl. rewrite andb_true_r.
  destruct (mem_nat label (labels (csv st))) eqn:E; intros H; inversion H.
  split; [reflexivity | now apply mem_nat_In].
Qed.

Lemma drop_row_present (label : nat) (st : state) :
  In label (labels (csv st)) ->
  drop_row label st
  = Normal (set_csv (mkDataFrame (columns (csv st))
                       (filter (fun r : Row => negb (mem_nat (fst r) [label])) (rows (csv st)))) st).
Proof.
  intros H. unfold drop_row, drop_labels. simpl. rewrite andb_true_r.
  apply mem_nat_In in H. now rewrite H.
Qed.

Section RowLoops.

Variable test : list string -> Row -> result bool.
Variable reason : option string.
Variable cols : list string.

Let dropped_labels (entry : list Row) : list nat :=
  map fst (filter (marked test cols) entry).

Lemma drop_body_normal (r : Row) (st st' : state) :
  drop_body test reason cols r st = Normal st' ->
  (exists b, test cols r = Ok b) /\
  columns (csv st') = columns (csv st) /\
  backup st' = backup st /\
  rows (csv st')
  = filter (fun x : Row => negb (mem_nat (fst x) (dropped_labels [r]))) (rows (csv st)) /\
  dropped_row_indices st'
  = dropped_row_indices st ++ flat_map (drop_log reason cols) (filter (marked test cols) [r]).
Proof.
  unfold drop_body, dropped_labels, marked, drop_log. simpl.
  destruct (test cols r) as [[|]|e] eqn:Et; simpl.
  - destruct reason as [rsn|].
    + unfold log_and_drop.
      destruct (series_get cols (snd r) "MEAN_STRAIGHT_LINE_SPEED") as [s|e] eqn:Es;
        [|discriminate].
      intros H. apply drop_row_normal in H. destruct H as [-> _]. simpl.
      repeat split; eauto.
    + intros H. apply drop_row_normal in H. destruct H as [-> _]. simpl.
      rewrite app_nil_r. repeat split; eauto.
  - intros H. inversion H; subst. rewrite app_nil_r.
    repeat split; eauto. symmetry. now apply filter_all.
  - discriminate.
Qed.

Lemma for_rows_drop_normal (entry : list Row) : forall st st',
  for_rows (drop_body test reason cols) entry st = Normal st' ->
  (forall r, In r entry -> exists b, test cols r = Ok b) /\
  columns (csv st') = columns (csv st) /\
  backup st' = backup st /\
  rows (csv st')
  = filter (fun x : Row => negb (mem_nat (fst x) (dropped_labels entry))) (rows (csv st)) /\
  dropped_row_indices st'
  = dropped_row_indices st ++ flat_map (drop_log reason cols) (filter (marked test cols) entry).
Proof.
  induction entry as [|r entry IH]; simpl; intros st st' H.
  - inversion H; subst. rewrite app_nil_r. repeat split; try tauto.
    symmetry. now apply filter_all.
  - destruct (drop_body test reason cols r st) as [st1|e st1] eqn:Eb; simpl in H;
      [|discriminate].
    apply drop_body_normal in Eb. destruct Eb as (Ht & Hc & Hb & Hr & Hd).
    apply IH in H. destruct H as (Ht' & Hc' & Hb' & Hr' & Hd').
    split; [intros x [<-|Hx]; auto|].
    split; [congruence|]. split; [congruence|]. split.
    + rewrite Hr', Hr, filter_twice. apply filter_ext. intros x.
      unfold dropped_labels. simpl.
      destruct (marked test cols r); simpl; [|reflexivity].
      now rewrite orb_false_r, negb_orb.
    + rewrite Hd', Hd. simpl in *.
      destruct (marked test cols r); simpl in *;
        rewrite ?app_nil_r, <- ?app_assoc; reflexivity.
Qed.

(** A loop over unique labels that are all present runs to its end when
    every test and every logged cell can be read. *)
Lemma for_rows_drop_total (entry : list Row) : forall st,
  NoDup (map fst entry) ->
  incl (map fst entry) (labels (csv st)) ->
  (forall r, In r entry -> exists b, test cols r = Ok b) ->
  (forall r rsn, In r entry -> marked test cols r = true -> reason = Some rsn ->
     exists s, series_get cols (snd r) "MEAN_STRAIGHT_LINE_SPEED" = Ok s) ->
  exists st', for_rows (drop_body test reason cols) entry st = Normal st'.
Proof.
  induction entry as [|r entry IH]; simpl; intros st Hnd Hin Ht Hs; [eauto|].
  inversion Hnd as [|x xs Hn Hd]; subst.
  assert (Hstep : exists st1, drop_body test reason cols r st = Normal st1
                    /\ incl (map fst entry) (labels (csv st1))).
  { destruct (Ht r (or_introl eq_refl)) as [b Hb].
    assert (Hkeep : incl (map fst entry)
              (labels (mkDataFrame (columns (csv st))
                 (filter (fun x : Row => negb (mem_nat (fst x) [fst r])) (rows (csv st)))))).
    { intros l Hl. unfold labels. simpl.
      assert (Hl' : In l (labels (csv st))) by (apply Hin; now right).
      apply in_map_iff in Hl'. destruct Hl' as [row [<- Hrow]].
      apply in_map. apply filter_In. split; [assumption|].
      simpl. rewrite orb_false_r. apply negb_true_iff. apply Nat.eqb_neq.
      intros Heq. apply Hn. now rewrite <- Heq. }
    unfold drop_body. rewrite Hb. destruct b.
    - assert (Hm : marked test cols r = true) by (unfold marked; now rewrite Hb).
      destruct reason as [rsn|] eqn:Er.
      + destruct (Hs r rsn (or_introl eq_refl) Hm eq_refl) as [s Hget].
        unfold log_and_drop. rewrite Hget.
        rewrite drop_row_present by (simpl; apply Hin; now left).
        eexists. split; [reflexivity | exact Hkeep].
      + rewrite drop_row_present by (apply Hin; now left).
        eexists. split; [reflexivity | exact Hkeep].
    - eexists. split; [reflexivity|]. intros l Hl. apply Hin. now right. }
  destruct Hstep as [st1 [Hb Hincl]]. rewrite Hb. simpl.
  apply IH; [assumption | assumption | |].
  - intros x Hx. apply Ht. now right.
  - intros x rsn Hx. apply Hs. now right.
Qed.

End RowLoops.

Lemma drop_where_normal (test : list string -> Row -> result bool)
  (reason : option string) (st st' : state) :
  drop_where test reason st = Normal st' ->
  (forall r, In r (rows (csv st)) -> exists b, test (columns (csv st)) r = Ok b) /\
  columns (csv st') = columns (csv st) /\
  backup st' = backup st /\
  rows (csv st')
  = filter (fun x : Row =>
              negb (mem_nat (fst x)
                      (map fst (filter (marked test (columns (csv st))) (rows (csv st))))))
      (rows (csv st)) /\
  dropped_row_indices st'
  = dropped_row_indices st
    ++ flat_map (drop_log reason (columns (csv st)))
         (filter (marked test (columns (csv st))) (rows (csv st))).
Proof. unfold drop_where. apply for_rows_drop_normal. Qed.

Lemma drop_where_rows (test : list string -> Row -> result bool)
  (reason : option string) (st st' : state) :
  NoDup (labels (csv st)) ->
  drop_where test reason st = Normal st' ->
  rows (csv st')
  = filter (fun r => negb (marked test (columns (csv st)) r)) (rows (csv st)).
Proof.
  intros Hnd H. apply drop_where_normal in H.
  destruct H as (_ & _ & _ & Hr & _). rewrite Hr. now apply drop_marked_labels.
Qed.

Lemma drop_where_total (test : list string -> Row -> result bool)
  (reason : option string) (st : state) :
  NoDup (labels (csv st)) ->
  (forall r, In r (rows (csv st)) -> exists b, test (columns (csv st)) r = Ok b) ->
  (forall r rsn, In r (rows (csv st)) ->
     marked test (columns (csv st)) r = true -> reason = Some rsn ->
     exists s, series_get (columns (csv st)) (snd r) "MEAN_STRAIGHT_LINE_SPEED" = Ok s) ->
  exists st', drop_where test reason st = Normal st'.
Proof.
  intros Hnd Ht Hs. unfold drop_where.
  apply for_rows_drop_total; auto. apply incl_refl.
Qed.

(** ** Labels never come back *)

Lemma within_set_csv (L : list nat) (df : DataFrame) (st : state) :
  incl (labels df) L -> within L st -> within L (set_csv df st).
Proof. intros H (_ & Hb & Hd). repeat split; assumption. Qed.

Lemma labels_filter_incl (f : Row -> bool) (l : list Row) :
  incl (map fst (filter f l)) (map fst l).
Proof.
  intros x Hx. apply in_map_iff in Hx. destruct Hx as [r [<- Hr]].
  apply filter_In in Hr. apply in_map. tauto.
Qed.

Lemma drop_row_within (L : list nat) (label : nat) : preserves L (drop_row label).
Proof.
  intros st Hw. unfold drop_row, drop_labels.
  destruct (forallb _ _); simpl; [|assumption].
  apply within_set_csv; [|assumption].
  unfold labels. simpl. eapply incl_tran; [apply labels_filter_incl | apply Hw].
Qed.

Lemma log_and_drop_within (L : list nat) (cols : list string) (r : Row) (rsn : string) :
  In (fst r) L -> preserves L (log_and_drop cols r rsn).
Proof.
  intros Hr st Hw. unfold log_and_drop.
  destruct (series_get cols (snd r) "MEAN_STRAIGHT_LINE_SPEED") as [s|e]; simpl;
    [|assumption].
  apply drop_row_within. destruct Hw as (Hc & Hb & Hd).
  repeat split; try assumption. simpl.
  rewrite map_app. apply incl_app; [assumption|].
  intros x [<-|[]]. exact Hr.
Qed.

Lemma drop_body_within (L : list nat) (test : list string -> Row -> result bool)
  (reason : option string) (cols : list string) (r : Row) :
  In (fst r) L -> preserves L (drop_body test reason cols r).
Proof.
  intros Hr st Hw. unfold drop_body.
  destruct (test cols r) as [[|]|e]; simpl; try assumption.
  destruct reason; [now apply log_and_drop_within | now apply drop_row_within].
Qed.

Lemma and_then_within (L : list nat) (o : outcome) (k : state -> outcome) :
  within L (final o) -> preserves L k -> within L (final (and_then o k)).
Proof. destruct o; simpl; auto. Qed.

Lemma for_rows_within (L : list nat) (body : Row -> state -> outcome) (entry : list Row) :
  (forall r, In r entry -> preserves L (body r)) -> preserves L (for_rows body entry).
Proof.
  induction entry as [|r entry IH]; simpl; intros Hb st Hw; [assumption|].
  apply and_then_within; [apply Hb; auto | apply IH; auto].
Qed.

Lemma drop_where_within (L : list nat) (test : list string -> Row -> result bool)
  (reason : option string) : preserves L (drop_where test reason).
Proof.
  intros st Hw. unfold drop_where. apply for_rows_within; [|assumption].
  intros r Hr. apply drop_body_within. destruct Hw as (Hc & _).
  apply Hc. unfold labels. now apply in_map.
Qed.

Lemma try_revert_within (L : list nat) (block : state -> outcome) :
  preserves L block -> preserves L (try_revert block).
Proof.
  intros Hb st Hw. unfold try_revert. specialize (Hb st Hw).
  destruct (block st) as [st'|e st']; simpl in *; [assumption|].
  destruct e; simpl; try assumption.
  apply within_set_csv; [apply Hb | assumption].
Qed.

Lemma overfiltering_check_within (L : list nat) : preserves L overfiltering_check.
Proof. intros st Hw. unfold overfiltering_check. now destruct (rows (csv st)). Qed.


Lemma lift_within {A : Type} (L : list nat) (c : result A) (st : state)
  (k : A -> outcome) :
  within L st -> (forall a, within L (final (k a))) -> within L (final (lift c st k)).
Proof. intros Hw Hk. unfold lift. destruct c; simpl; auto. Qed.

Lemma guarded_within_fresh (L : list nat) (stage : state -> outcome) (st : state) :
  preserves L stage ->
  incl (labels (csv st)) L ->
  incl (map record_label (dropped_row_indices st)) L ->
  within L (final (guarded stage st)).
Proof.
  intros Hs Hc Hd. unfold guarded, try_revert.
  assert (Hw : within L (final (and_then (stage (take_backup st)) overfiltering_check))).
  { apply and_then_within; [|apply overfiltering_check_within].
    apply Hs. repeat split; assumption. }
  destruct (and_then (stage (take_backup st)) overfiltering_check) as [st'|e st'];
    simpl in *; [assumption|].
  destruct e; simpl; try assumption.
  apply within_set_csv; [apply Hw | assumption].
Qed.

Lemma guarded_within (L : list nat) (stage : state -> outcome) :
  preserves L stage -> preserves L (guarded stage).
Proof. intros Hs st (Hc & _ & Hd). now apply guarded_within_fresh. Qed.

Lemma guarded_without_backup_within (L : list nat) (stage : state -> outcome) :
  preserves L stage -> preserves L (guarded_without_backup stage).
Proof.
  intros Hs. unfold guarded_without_backup. apply try_revert_within.
  intros st Hw. apply and_then_within; [now apply Hs | apply overfiltering_check_within].
Qed.

Lemma keep_columns_labels (keep : string -> bool) (df : DataFrame) :
  labels (keep_columns keep df) = labels df.
Proof.
  unfold labels, keep_columns. simpl. rewrite map_map. reflexivity.
Qed.

Lemma drop_columns_labels (names : list string) (df df' : DataFrame) :
  drop_columns names df = Ok df' -> labels df' = labels df.
Proof.
  unfold drop_columns. destruct (forallb _ _); intros H; inversion H.
  apply keep_columns_labels.
Qed.

Lemma drop_duration_column_within (L : list nat) : preserves L drop_duration_column.
Proof.
  intros st Hw. unfold drop_duration_column, lift.
  destruct (drop_columns ["TRACK_DURATION"] (csv st)) as [df|e] eqn:Ed; simpl;
    [|assumption].
  assert (Hw' : within L (set_csv df st)).
  { apply within_set_csv; [|assumption].
    rewrite (drop_columns_labels _ _ _ Ed). apply Hw. }
  destruct (list_string_eqb (columns df) col_names); simpl; [|assumption].
  destruct (recheck_column_order (columns df) 0); simpl; assumption.
Qed.

Section Pipeline.

Variable mean : list float -> float.
Variable std : list float -> float.
Variable percentile : list float -> float -> result float.
Variable cfg : settings.
Variable files : string -> result (list string * list (list float)).

Lemma duration_filter_within (L : list nat) : preserves L (duration_filter cfg).
Proof.
  intros st Hw. unfold duration_filter.
  destruct (do_duration_thresh cfg); [now apply drop_where_within | assumption].
Qed.

Lemma speed_filter_within (L : list nat) (t : float) : preserves L (speed_filter cfg t).
Proof.
  intros st Hw. unfold speed_filter.
  destruct (do_speed_thresh cfg); [now apply drop_where_within | assumption].
Qed.

Lemma displacement_filter_within (L : list nat) (t : float) :
  preserves L (displacement_filter cfg t).
Proof.
  intros st Hw. unfold displacement_filter.
  destruct (do_displacement_thresh cfg); [now apply drop_where_within | assumption].
Qed.

Lemma linearity_filter_within (L : list nat) (t : float) :
  preserves L (linearity_filter cfg t).
Proof.
  intros st Hw. unfold linearity_filter.
  destruct (do_linearity_thresh cfg); [now apply drop_where_within | assumption].
Qed.

Lemma quality_filter_within (L : list nat) : preserves L (quality_filter percentile cfg).
Proof.
  intros st Hw. unfold quality_filter.
  destruct (do_quality_percentile_filter cfg); [|assumption].
  apply lift_within; [assumption|]. intros a. now apply drop_where_within.
Qed.

Lemma std_filter_within (L : list nat) (t : float) (flags : option (list bool)) :
  preserves L (std_filter mean std t flags).
Proof.
  intros st Hw. unfold std_filter. destruct flags as [fl|]; [|assumption].
  apply lift_within; [assumption|]. intros a.
  apply lift_within; [assumption|]. intros b. now apply drop_where_within.
Qed.

Lemma iqr_filter_within (L : list nat) (t : float) (flags : option (list bool)) :
  preserves L (iqr_filter mean percentile t flags).
Proof.
  intros st Hw. unfold iqr_filter. destruct flags as [fl|]; [|assumption].
  destruct (Nat.eqb _ _); [|assumption].
  apply lift_within; [assumption|]. intros a.
  apply lift_within; [assumption|]. intros b. now apply drop_where_within.
Qed.

Lemma later_stages_within (L : list nat) (d s l : float) (sf iqf : option (list bool)) :
  preserves L (later_stages mean std percentile cfg d s l sf iqf).
Proof.
  intros st Hw. unfold later_stages.
  apply and_then_within;
    [apply guarded_without_backup_within; [apply speed_filter_within | assumption]|].
  intros st1 Hw1.
  apply and_then_within;
    [apply guarded_within; [apply displacement_filter_within | assumption]|].
  intros st2 Hw2.
  apply and_then_within;
    [apply guarded_within; [apply linearity_filter_within | assumption]|].
  intros st3 Hw3.
  apply and_then_within;
    [apply guarded_within; [apply quality_filter_within | assumption]|].
  intros st4 Hw4.
  apply and_then_within;
    [apply guarded_within; [apply std_filter_within | assumption]|].
  intros st5 Hw5.
  apply guarded_within; [apply iqr_filter_within | assumption].
Qed.

(** *** Reading and loading *)

Lemma combine_seq_labels {A : Type} (l : list A) (start : nat) :
  map fst (combine (seq start (List.length l)) l) = seq start (List.length l).
Proof.
  revert start. induction l as [|a l IH]; simpl; intros start; [reflexivity|].
  now rewrite IH.
Qed.

Lemma read_csv_labels (name : string) (csv0 : DataFrame) :
  read_csv files name = Ok csv0 -> NoDup (labels csv0).
Proof.
  unfold read_csv. destruct (files name) as [[hdr body]|e]; simpl; intros H; inversion H.
  unfold labels. simpl. rewrite combine_seq_labels. apply seq_NoDup.
Qed.

Lemma drop_labels_ok (ls : list nat) (df df' : DataFrame) :
  drop_labels ls df = Ok df' ->
  columns df' = columns df
  /\ rows df' = filter (fun r : Row => negb (mem_nat (fst r) ls)) (rows df).
Proof.
  unfold drop_labels. destruct (forallb _ _); intros H; inversion H. simpl. auto.
Qed.

Lemma load_table_labels (csv0 csv2 : DataFrame) :
  NoDup (labels csv0) -> load_table csv0 = Ok csv2 -> NoDup (labels csv2).
Proof.
  unfold load_table. intros Hnd.
  destruct (check_column_order _ _); simpl; [|discriminate].
  intros H. apply drop_labels_ok in H. destruct H as [_ Hr].
  unfold labels. rewrite Hr. apply NoDup_labels_filter.
  match goal with
  | |- NoDup (map fst (rows (keep_columns ?k ?d))) =>
      pose proof (keep_columns_labels k d) as Hk
  end.
  unfold labels in Hk. rewrite Hk. exact Hnd.
Qed.

(** What a completed run of [do_file_state] went through. *)
Lemma do_file_state_inv (name : string) (d s l : float) (sf iqf : option (list bool))
  (n : nat) (st : state) :
  do_file_state mean std percentile cfg files name d s l sf iqf = Ok (Some (n, st)) ->
  exists csv0 csv2,
    read_csv files name = Ok csv0 /\
    load_table csv0 = Ok csv2 /\
    NoDup (labels csv2) /\
    n = List.length (rows csv2) /\
    filter_stages mean std percentile cfg d s l sf iqf (mkState csv2 csv2 []) = Normal st.
Proof.
  unfold do_file_state. intros H.
  destruct (read_csv files name) as [csv0|e] eqn:Er; [|destruct e; discriminate].
  destruct (load_table csv0) as [csv2|e] eqn:El; simpl in H; [|discriminate].
  destruct (filter_stages _ _ _ _ _ _ _ _ _ _) as [st'|e st'] eqn:Ef; [|discriminate].
  inversion H; subst. exists csv0, csv2. repeat split; auto.
  eapply load_table_labels; eauto. eapply read_csv_labels; eauto.
Qed.

Lemma drop_log_none (cols : list string) (l : list Row) :
  flat_map (drop_log None cols) l = [].
Proof. induction l as [|r l IH]; simpl; auto. Qed.

(** The null filtering keeps exactly the rows whose duration is a number,
    logs nothing and leaves the backup alone. *)
Lemma null_filtering_normal (st st1 : state) :
  NoDup (labels (csv st)) ->
  null_filtering st = Normal st1 ->
  columns (csv st1) = columns (csv st) /\
  rows (csv st1)
  = filter (fun r => negb (marked is_null_duration (columns (csv st)) r)) (rows (csv st)) /\
  dropped_row_indices st1 = dropped_row_indices st /\
  backup st1 = backup st.
Proof.
  unfold null_filtering. intros Hnd H.
  pose proof (drop_where_rows _ _ _ _ Hnd H) as Hr.
  apply drop_where_normal in H. destruct H as (_ & Hc & Hb & _ & Hd).
  rewrite drop_log_none, app_nil_r in Hd. auto.
Qed.

Lemma marked_null_duration (cols : list string) (r : Row) (dur : float) :
  cell "TRACK_DURATION" cols r = Ok dur ->
  marked is_null_duration cols r = is_nan dur.
Proof.
  intros H. unfold marked, is_null_duration. rewrite H. simpl.
  unfold is_nan. now destruct (negb (dur =? dur)%float).
Qed.

(** C10: every row whose TRACK_DURATION cell is NaN is removed by the null
    filtering, which runs before the first [try] block and whatever the
    settings are (duration thresholding included); that removal logs no
    drop record, and no overfiltering guard brings such a row back: it is
    in neither the final table nor the drop log, so a table whose durations
    are all NaN ends empty.  The initial row count is taken before the
    removal and counts those rows. *)
Theorem null_duration_rows_removed_unguarded
  (name : string) (d s l : float) (sf iqf : option (list bool)) (n : nat) (st : state) :
  do_file_state mean std percentile cfg files name d s l sf iqf = Ok (Some (n, st)) ->
  exists csv0 csv2 st1,
    read_csv files name = Ok csv0 /\
    load_table csv0 = Ok csv2 /\
    n = List.length (rows csv2) /\
    null_filtering (mkState csv2 csv2 []) = Normal st1 /\
    rows (csv st1)
    = filter (fun r => negb (marked is_null_duration (columns csv2) r)) (rows csv2) /\
    dropped_row_indices st1 = [] /\
    (forall r dur,
        In r (rows csv2) ->
        cell "TRACK_DURATION" (columns csv2) r = Ok dur ->
        is_nan dur = true ->
        ~ In (fst r) (labels (csv st))
        /\ ~ In (fst r) (map record_label (dropped_row_indices st))) /\
    ((forall r, In r (rows csv2) ->
        exists dur, cell "TRACK_DURATION" (columns csv2) r = Ok dur /\ is_nan dur = true) ->
     rows (csv st) = []).
Proof.
  intros H. apply do_file_state_inv in H.
  destruct H as (csv0 & csv2 & Hread & Hload & Hnd & Hn & Hf).
  unfold filter_stages, duration_part in Hf.
  destruct (null_filtering (mkState csv2 csv2 [])) as [st1|e st1] eqn:En;
    cbn [and_then] in Hf; [|discriminate].
  destruct (null_filtering_normal (mkState csv2 csv2 []) st1 Hnd En)
    as (Hc1 & Hr1 & Hd1 & Hb1).
  simpl in Hc1, Hr1, Hd1.
  assert (Hw : within (labels (csv st1)) st).
  { change st with (final (Normal st)). rewrite <- Hf.
    apply and_then_within; [|apply later_stages_within].
    apply and_then_within; [|apply drop_duration_column_within].
    apply guarded_within_fresh.
    - apply duration_filter_within.
    - apply incl_refl.
    - rewrite Hd1. intros x []. }
  assert (Hgone : forall r dur, In r (rows csv2) ->
            cell "TRACK_DURATION" (columns csv2) r = Ok dur ->
            is_nan dur = true -> ~ In (fst r) (labels (csv st1))).
  { intros r dur Hr Hcell Hnan Hin. unfold labels in Hin. rewrite Hr1 in Hin.
    apply in_map_iff in Hin. destruct Hin as [r' [Hl Hin]].
    apply filter_In in Hin. destruct Hin as [Hin Hm].
    assert (r' = r) by (eapply label_determines_row; eauto). subst r'.
    rewrite (marked_null_duration _ _ _ Hcell), Hnan in Hm. discriminate. }
  destruct Hw as (Hcsv & _ & Hlog).
  exists csv0, csv2, st1. repeat split; auto.
  - intros Hin. eapply Hgone; eauto.
  - intros Hin. eapply Hgone; eauto.
  - intros Hall. destruct (rows (csv st)) as [|r rest] eqn:Er; [reflexivity|].
    exfalso.
    assert (Hin : In (fst r) (labels (csv st1))).
    { apply Hcsv. unfold labels. rewrite Er. now left. }
    unfold labels in Hin. apply in_map_iff in Hin. destruct Hin as [r' [Hl Hin]].
    rewrite Hr1 in Hin. apply filter_In in Hin. destruct Hin as [Hin Hm].
    destruct (Hall r' Hin) as [dur [Hcell Hnan]].
    rewrite (marked_null_duration _ _ _ Hcell), Hnan in Hm. discriminate.
Qed.

End Pipeline.

(** The theorem above at a two-track file whose first track has no
    duration, with duration thresholding switched off: the track (label 3)
    is counted, and is in neither the final table nor the drop log. *)
Lemma null_duration_rows_removed_unguarded_witness :
  exists n st,
    do_file_state np_mean np_std np_percentile settings_without_duration_thresh
      (folder_with "1khz.csv" header missing_duration_file FileNotFoundError)
      "1khz.csv" 0%float 0%float 0%float None None = Ok (Some (n, st))
    /\ n = 2
    /\ ~ In 3 (labels (csv st))
    /\ ~ In 3 (map record_label (dropped_row_indices st)).
Proof.
  eexists. eexists. split; [vm_compute; reflexivity|].
  destruct (null_duration_rows_removed_unguarded np_mean np_std np_percentile
              settings_without_duration_thresh
              (folder_with "1khz.csv" header missing_duration_file FileNotFoundError)
              "1khz.csv" 0%float 0%float 0%float None None 2 _ eq_refl)
    as (csv0 & csv2 & st1 & Hread & Hload & Hn & _ & _ & _ & Hgone & _).
  split; [reflexivity|].
  vm_compute in Hread. inversion Hread; subst csv0; clear Hread.
  vm_compute in Hload. inversion Hload; subst csv2; clear Hload.
  apply (Hgone (3, track nan 1 1 5 1) nan); [now left | reflexivity | reflexivity].
Defined.

(** ** What a stage keeps *)

(** A completed row loop over unique labels keeps exactly the rows its test
    answers [False] on. *)
Lemma drop_where_kept (test : list string -> Row -> result bool)
  (reason : option string) (st st' : state) :
  NoDup (labels (csv st)) ->
  drop_where test reason st = Normal st' ->
  forall r, In r (rows (csv st'))
            <-> In r (rows (csv st)) /\ test (columns (csv st)) r = Ok false.
Proof.
  intros Hnd H r. rewrite (drop_where_rows _ _ _ _ Hnd H).
  apply drop_where_normal in H. destruct H as (Ht & _).
  rewrite filter_In. split; intros [Hin Hm]; split; auto.
  - destruct (Ht r Hin) as [b Hb]. unfold marked in Hm. rewrite Hb in *.
    now destruct b.
  - unfold marked. now rewrite Hm.
Qed.

Lemma below_false (name : string) (threshold : float) (cols : list string) (r : Row) :
  below name threshold cols r = Ok false
  <-> exists v, cell name cols r = Ok v /\ (v <? threshold)%float = false.
Proof.
  unfold below. destruct (cell name cols r) as [v|e]; simpl; split.
  - intros H. inversion H. eauto.
  - intros [v' [Hv Hlt]]. inversion Hv; subst. now rewrite Hlt.
  - discriminate.
  - intros [v' [Hv _]]. discriminate.
Qed.

Lemma scan_test_false (k t : float) (flags : list bool)
  (mean_values spreads : list float) (cols : list string) (r : Row) :
  scan_test k t flags mean_values spreads cols r = Ok false
  <-> scan_row k t flags mean_values spreads 0 (snd r) = Ok Keep.
Proof.
  unfold scan_test.
  destruct (scan_row k t flags mean_values spreads 0 (snd r)) as [v|e]; simpl; split;
    try discriminate.
  - destruct v; simpl; intros H; now inversion H.
  - intros H. inversion H. reflexivity.
Qed.

Section StageEntry.

Variable mean : list float -> float.
Variable std : list float -> float.
Variable percentile : list float -> float -> result float.
Variable cfg : settings.

(** C6: in the quality-percentile, std and IQR stages the percentile
    threshold and the per-column mean, std and IQR values are computed once,
    from the table as it is when the stage starts; every row of that table
    is then kept or dropped by comparing it with those same values,
    whichever rows the loop has already dropped. *)
Theorem thresholds_fixed_at_stage_entry (st : state) :
  NoDup (labels (csv st)) ->
  (forall st',
      do_quality_percentile_filter cfg = true ->
      quality_filter percentile cfg st = Normal st' ->
      exists xs threshold,
        df_column (csv st) "TRACK_MEAN_QUALITY" = Ok xs /\
        percentile xs (quality_percentile_filter cfg) = Ok threshold /\
        forall r, In r (rows (csv st'))
                  <-> In r (rows (csv st))
                      /\ exists q, cell "TRACK_MEAN_QUALITY" (columns (csv st)) r = Ok q
                                   /\ (q <? threshold)%float = false) /\
  (forall speed_threshold flags st',
      std_filter mean std speed_threshold (Some flags) st = Normal st' ->
      exists std_values mean_values,
        flagged_values std flags (csv st) 0 (columns (csv st)) = Ok std_values /\
        flagged_values mean flags (csv st) 0 (columns (csv st)) = Ok mean_values /\
        forall r, In r (rows (csv st'))
                  <-> In r (rows (csv st))
                      /\ scan_row 2%float speed_threshold flags mean_values std_values
                           0 (snd r) = Ok Keep) /\
  (forall speed_threshold flags st',
      List.length flags = List.length (columns (csv st)) ->
      iqr_filter mean percentile speed_threshold (Some flags) st = Normal st' ->
      exists iqr_values mean_values,
        iqr_values_from percentile flags (csv st) 0 (columns (csv st)) = Ok iqr_values /\
        iqr_mean_values mean flags (csv st) = Ok mean_values /\
        forall r, In r (rows (csv st'))
                  <-> In r (rows (csv st))
                      /\ scan_row 1.5%float speed_threshold flags mean_values iqr_values
                           0 (snd r) = Ok Keep).
Proof.
  intros Hnd. split; [|split].
  - intros st' Hq H. unfold quality_filter in H. rewrite Hq in H. unfold lift in H.
    destruct (df_column (csv st) "TRACK_MEAN_QUALITY") as [xs|e]; simpl in H;
      [|discriminate].
    destruct (percentile xs (quality_percentile_filter cfg)) as [threshold|e] eqn:Ep;
      [|discriminate].
    exists xs, threshold. split; [reflexivity|]. split; [assumption|].
    intros r. rewrite (drop_where_kept _ _ _ _ Hnd H), below_false. reflexivity.
  - intros t flags st' H. unfold std_filter, lift in H.
    destruct (flagged_values std flags (csv st) 0 (columns (csv st))) as [sv|e];
      [|discriminate].
    destruct (flagged_values mean flags (csv st) 0 (columns (csv st))) as [mv|e];
      [|discriminate].
    exists sv, mv. split; [reflexivity|]. split; [reflexivity|].
    intros r. rewrite (drop_where_kept _ _ _ _ Hnd H), scan_test_false.
    reflexivity.
  - intros t flags st' Hlen H. unfold iqr_filter, lift in H.
    rewrite Hlen, Nat.eqb_refl in H.
    destruct (iqr_values_from percentile flags (csv st) 0 (columns (csv st))) as [iv|e];
      [|discriminate].
    destruct (iqr_mean_values mean flags (csv st)) as [mv|e]; [|discriminate].
    exists iv, mv. split; [reflexivity|]. split; [reflexivity|].
    intros r. rewrite (drop_where_kept _ _ _ _ Hnd H), scan_test_false.
    reflexivity.
Qed.

End StageEntry.

(** The theorem above at four tracks of quality 1, 2, 3, 4 and the 50th
    percentile: the threshold is 2.5 for every row, also for the rows
    visited after the first two were dropped. *)
Lemma thresholds_fixed_at_stage_entry_witness :
  NoDup (labels (csv quality_state)) /\
  exists st',
    quality_filter np_percentile settings_with_quality_filter quality_state = Normal st' /\
    labels (csv st') = [5; 6] /\
    exists xs threshold,
      df_column (csv quality_state) "TRACK_MEAN_QUALITY" = Ok xs /\
      np_percentile xs 50%float = Ok threshold /\
      forall r, In r (rows (csv st'))
                <-> In r (rows (csv quality_state))
                    /\ exists q, cell "TRACK_MEAN_QUALITY" col_names r = Ok q
                                 /\ (q <? threshold)%float = false.
Proof.
  assert (Hnd : NoDup (labels (csv quality_state))).
  { vm_compute. repeat constructor; simpl; intuition discriminate. }
  split; [exact Hnd|].
  eexists. split; [vm_compute; reflexivity|]. split; [reflexivity|].
  apply (proj1 (thresholds_fixed_at_stage_entry np_mean np_std np_percentile
                  settings_with_quality_filter quality_state Hnd));
    reflexivity.
Defined.

(** ** The column scan of the std and IQR stages *)

Lemma py_index_ok {A : Type} (l : list A) (i : nat) (a : A) :
  py_index l i = Ok a <-> nth_error l i = Some a.
Proof.
  unfold py_index. destruct (nth_error l i); split; intros H; inversion H; reflexivity.
Qed.

(** Away from the control condition the scan never ends in the upper-bound
    branch. *)
Lemma scan_row_no_upper (k t : float) (flags : list bool) (mean_values spreads : list float)
  (raw_list : list float) : forall i j,
  (t =? 0)%float = false ->
  scan_row k t flags mean_values spreads i raw_list <> Ok (AboveUpper j).
Proof.
  induction raw_list as [|x rest IH]; simpl; intros i j Ht; [discriminate|].
  destruct (py_index mean_values i) as [m|e]; simpl; [|discriminate].
  destruct (py_index spreads i) as [s|e]; simpl; [|discriminate].
  destruct (x <? m - k * s)%float; [discriminate|].
  rewrite Ht. now apply IH.
Qed.

(** A scan that ends in the lower-bound branch found a value under
    [mean - k * spread] in that column. *)
Lemma scan_row_below (k t : float) (flags : list bool) (mean_values spreads : list float)
  (raw_list : list float) : forall i j,
  scan_row k t flags mean_values spreads i raw_list = Ok (BelowLower j) ->
  i <= j /\
  exists x m s,
    nth_error raw_list (j - i) = Some x /\
    nth_error mean_values j = Some m /\
    nth_error spreads j = Some s /\
    (x <? m - k * s)%float = true.
Proof.
  induction raw_list as [|x rest IH]; simpl; intros i j H; [discriminate|].
  destruct (py_index mean_values i) as [m|e] eqn:Em; simpl in H; [|discriminate].
  destruct (py_index spreads i) as [s|e] eqn:Es; simpl in H; [|discriminate].
  destruct (x <? m - k * s)%float eqn:Elt.
  - inversion H; subst. split; [lia|]. rewrite Nat.sub_diag. simpl.
    apply py_index_ok in Em, Es. exists x, m, s. auto.
  - assert (Hrest : scan_row k t flags mean_values spreads (S i) rest = Ok (BelowLower j)).
    { destruct (t =? 0)%float; [|assumption].
      destruct (py_index flags i) as [flag|e]; simpl in H; [|discriminate].
      destruct (flag && (m + k * s <? x)%float); [discriminate | assumption]. }
    apply IH in Hrest. destruct Hrest as [Hle (x' & m' & s' & Hx & Hm & Hs & Hlt)].
    split; [lia|]. exists x', m', s'. repeat split; auto.
    replace (j - i) with (S (j - S i)) by lia. exact Hx.
Qed.

(** A row that a completed loop dropped is a row its test answered [True] on. *)
Lemma drop_where_dropped (test : list string -> Row -> result bool)
  (reason : option string) (st st' : state) (r : Row) :
  NoDup (labels (csv st)) ->
  drop_where test reason st = Normal st' ->
  In r (rows (csv st)) -> ~ In r (rows (csv st')) ->
  test (columns (csv st)) r = Ok true.
Proof.
  intros Hnd H Hin Hout.
  pose proof (drop_where_kept _ _ _ _ Hnd H r) as Hk.
  apply drop_where_normal in H. destruct H as (Ht & _).
  destruct (Ht r Hin) as [[|] Hb]; [assumption|].
  exfalso. apply Hout. apply Hk. auto.
Qed.

Lemma scan_test_true_below (k t : float) (flags : list bool)
  (mean_values spreads : list float) (cols : list string) (r : Row) :
  (t =? 0)%float = false ->
  scan_test k t flags mean_values spreads cols r = Ok true ->
  exists j x m s,
    nth_error (snd r) j = Some x /\
    nth_error mean_values j = Some m /\
    nth_error spreads j = Some s /\
    (x <? m - k * s)%float = true.
Proof.
  intros Ht H. unfold scan_test in H.
  destruct (scan_row k t flags mean_values spreads 0 (snd r)) as [v|e] eqn:Es;
    simpl in H; [|discriminate].
  destruct v as [|j|j]; simpl in H; [discriminate| |].
  - apply scan_row_below in Es. destruct Es as [_ (x & m & s & Hx & Hm & Hs & Hlt)].
    rewrite Nat.sub_0_r in Hx. exists j, x, m, s. auto.
  - exfalso. eapply scan_row_no_upper; eauto.
Qed.

Section ControlAsymmetry.

Variable mean : list float -> float.
Variable std : list float -> float.
Variable percentile : list float -> float -> result float.

(** C3: with a nonzero speed threshold (a treatment condition) the
    upper-bound branch of the std stage and of the IQR stage never fires:
    no row scan ends in it, and every row either stage drops has a value
    under the lower bound (mean - 2 std, resp. mean - 1.5 IQR) in some
    column.  The branch can fire only when the speed threshold equals 0. *)
Theorem upper_bound_branch_only_for_control (speed_threshold : float) :
  (speed_threshold =? 0)%float = false ->
  (forall k flags mean_values spreads i raw_list j,
      scan_row k speed_threshold flags mean_values spreads i raw_list
      <> Ok (AboveUpper j)) /\
  (forall flags st st' r,
      NoDup (labels (csv st)) ->
      std_filter mean std speed_threshold (Some flags) st = Normal st' ->
      In r (rows (csv st)) -> ~ In r (rows (csv st')) ->
      exists std_values mean_values,
        flagged_values std flags (csv st) 0 (columns (csv st)) = Ok std_values /\
        flagged_values mean flags (csv st) 0 (columns (csv st)) = Ok mean_values /\
        exists j x m s,
          nth_error (snd r) j = Some x /\
          nth_error mean_values j = Some m /\
          nth_error std_values j = Some s /\
          (x <? m - 2 * s)%float = true) /\
  (forall flags st st' r,
      NoDup (labels (csv st)) ->
      iqr_filter mean percentile speed_threshold (Some flags) st = Normal st' ->
      In r (rows (csv st)) -> ~ In r (rows (csv st')) ->
      exists iqr_values mean_values,
        iqr_values_from percentile flags (csv st) 0 (columns (csv st)) = Ok iqr_values /\
        iqr_mean_values mean flags (csv st) = Ok mean_values /\
        exists j x m s,
          nth_error (snd r) j = Some x /\
          nth_error mean_values j = Some m /\
          nth_error iqr_values j = Some s /\
          (x <? m - 1.5 * s)%float = true).
Proof.
  intros Ht. split; [|split].
  - intros. now apply scan_row_no_upper.
  - intros flags st st' r Hnd H Hin Hout. unfold std_filter, lift in H.
    destruct (flagged_values std flags (csv st) 0 (columns (csv st))) as [sv|e];
      [|discriminate].
    destruct (flagged_values mean flags (csv st) 0 (columns (csv st))) as [mv|e];
      [|discriminate].
    exists sv, mv. split; [reflexivity|]. split; [reflexivity|].
    eapply scan_test_true_below; [exact Ht|].
    eapply drop_where_dropped; eauto.
  - intros flags st st' r Hnd H Hin Hout. unfold iqr_filter, lift in H.
    destruct (Nat.eqb (List.length flags) (List.length (columns (csv st)))).
    + destruct (iqr_values_from percentile flags (csv st) 0 (columns (csv st)))
        as [iv|e]; [|discriminate].
      destruct (iqr_mean_values mean flags (csv st)) as [mv|e]; [|discriminate].
      exists iv, mv. split; [reflexivity|]. split; [reflexivity|].
      eapply scan_test_true_below; [exact Ht|].
      eapply drop_where_dropped; eauto.
    + inversion H; subst. contradiction.
Qed.

End ControlAsymmetry.

(** The theorem above at speed threshold 1, and the two conditions side by
    side on ten tracks of which the last is far above the mean: the
    treatment run keeps it, the control run drops it. *)
Lemma upper_bound_branch_only_for_control_witness :
  (1 =? 0)%float = false /\
  (forall k flags mean_values spreads i raw_list j,
      scan_row k 1%float flags mean_values spreads i raw_list <> Ok (AboveUpper j)) /\
  (exists st', std_filter np_mean np_std 1%float (Some speed_flag_only) outlier_state
               = Normal st'
               /\ labels (csv st') = seq 3 10) /\
  (exists st', std_filter np_mean np_std 0%float (Some speed_flag_only) outlier_state
               = Normal st'
               /\ labels (csv st') = seq 3 9).
Proof.
  split; [reflexivity|]. split.
  - exact (proj1 (upper_bound_branch_only_for_control np_mean np_std np_percentile
                    1%float eq_refl)).
  - split; eexists; (split; [vm_compute; reflexivity | reflexivity]).
Defined.

(** ** The file loop *)

Section ControlFirst.

Variable mean : list float -> float.
Variable std : list float -> float.
Variable percentile : list float -> float -> result float.
Variable cfg : settings.
Variable files : string -> result (list string * list (list float)).

(** Past position 0 the loop calls [do_file] with the thresholds it holds
    and never changes them. *)
Lemma analyze_files_after_first (has_control : bool) (names : list string) :
  forall i g,
    analyze_files mean std percentile cfg files has_control (S i) names g
    = map_result
        (fun name =>
           store (do_file mean std percentile cfg files name
                    (brownian_displacement_threshold g)
                    (brownian_speed_threshold g)
                    (brownian_linearity_threshold g)
                    (do_std_filter_flags cfg) (do_iqr_filter_flags cfg)))
        names.
Proof.
  induction names as [|name rest IH]; intros i g; simpl; [reflexivity|].
  rewrite IH. reflexivity.
Qed.

End ControlFirst.

(** ** The overfiltering guard of the speed stage *)

(** C1, at the speed stage.  A short fast track and a long slow one, speed
    threshold 1: the duration stage drops the short track and commits, the
    duration column is dropped, the speed stage then drops the last row.
    The guard fires, but the [try] block of the speed stage took no backup
    of its own: the table goes back to the snapshot taken before the
    duration stage, with the short track and the TRACK_DURATION column in
    it, not to the one-row table the speed stage started from. *)
Theorem speed_stage_reverts_to_pre_duration_snapshot :
  exists csv0 csv2 before emptied after,
    read_csv (folder_with "1khz.csv" header short_fast_long_slow_file FileNotFoundError)
      "1khz.csv" = Ok csv0 /\
    load_table csv0 = Ok csv2 /\
    duration_part default_settings (mkState csv2 csv2 []) = Normal before /\
    columns (csv before) = col_names /\
    labels (csv before) = [4] /\
    speed_filter default_settings 1%float before = Normal emptied /\
    rows (csv emptied) = [] /\
    guarded_without_backup (speed_filter default_settings 1%float) before = Normal after /\
    columns (csv after) = header /\
    labels (csv after) = [3; 4] /\
    csv after <> csv before.
Proof.
  do 5 eexists.
  split; [vm_compute; reflexivity|].
  split; [vm_compute; reflexivity|].
  split; [vm_compute; reflexivity|].
  split; [reflexivity|].
  split; [reflexivity|].
  split; [vm_compute; reflexivity|].
  split; [reflexivity|].
  split; [vm_compute; reflexivity|].
  split; [reflexivity|].
  split; [reflexivity|].
  intros H. apply (f_equal columns) in H. vm_compute in H. discriminate.
Qed.

(** ** Unflagged columns in the std and IQR stages *)

(** C2, at two failing inputs.  With every std flag off, a track with a
    negative displacement is dropped by the std stage: the lower-bound test
    runs on every column, against 0 - 2 * 0 where the column is not flagged.
    With the IQR filter flagged for the last column only, the means of all
    columns are computed (the comprehension reads the flag of the last
    column for each of them), so a track whose displacement is under the
    mean displacement is dropped by the IQR stage. *)
Theorem unflagged_columns_are_lower_bounded :
  (forall mean std percentile,
      exists st,
        do_file_state mean std percentile default_settings
          (folder_with "1khz.csv" header negative_displacement_file FileNotFoundError)
          "1khz.csv" 0%float 0.5%float 0%float (Some no_flags) None = Ok (Some (2, st)) /\
        labels (csv st) = [4] /\
        dropped_row_indices st = [(3, 1%float, "INTERNAL_STD_FILTERING")]) /\
  (exists st,
      do_file_state np_mean np_std np_percentile default_settings
        (folder_with "1khz.csv" header uneven_displacement_file FileNotFoundError)
        "1khz.csv" 0%float 0.5%float 0%float None (Some linearity_flag_only)
      = Ok (Some (2, st)) /\
      labels (csv st) = [4] /\
      dropped_row_indices st = [(3, 1%float, "INTERNAL_IQR_FILTERING")]).
Proof.
  split.
  - intros mean std percentile. eexists.
    split; [vm_compute; reflexivity|]. split; reflexivity.
  - eexists. split; [vm_compute; reflexivity|]. split; reflexivity.
Qed.

(** ** The summary of an empty table *)

(** C7, at a file without tracks: the means come back as [None], the row
    counts as 0 and 0, but each standard deviation is whatever [std] returns
    on the empty list (NaN for numpy), not [None]. *)
Theorem empty_table_std_is_not_none :
  (forall mean std percentile,
      do_file mean std percentile default_settings
        (folder_with "1khz.csv" header empty_file FileNotFoundError)
        "1khz.csv" 0%float 0.5%float 0%float None None
      = Ok ([PyNone; PyNone; PyNone; PyNone; PyNone; PyNone; PyNone;
             PyInt 0; PyInt 0; PyNone],
            repeat (PyFloat (std [])) 7)) /\
  is_nan (np_std []) = true.
Proof.
  split; [intros mean std percentile; vm_compute; reflexivity | reflexivity].
Qed.

(** ** A file that cannot be read or processed *)

(** C8, at a folder of three files whose second cannot be read, or lacks a
    column: the loop stops there with an exception and the third file is
    never analysed.  When [pd.read_csv] raises a [RuntimeError], [do_file]
    catches it and returns nine [None]s for a row of ten, which numpy
    refuses; any other exception leaves [do_file] and [main] as it is. *)
Theorem unreadable_file_aborts_the_loop :
  (forall e,
      main_loop np_mean np_std np_percentile default_settings
        (folder_with_unreadable e) true ["0khz.csv"; "1khz.csv"; "5khz.csv"]
      = Raise match e with RuntimeError => ValueError | _ => e end) /\
  main_loop np_mean np_std np_percentile default_settings
    folder_with_no_duration true ["0khz.csv"; "1khz.csv"; "5khz.csv"]
  = Raise KeyError.
Proof.
  split; [intros e; destruct e; vm_compute; reflexivity | vm_compute; reflexivity].
Qed.

(** ** A table without the duration column *)

Lemma select_map_filter {A : Type} (f : A -> bool) (l : list A) :
  select (map f l) l = filter f l.
Proof.
  induction l as [|a l IH]; simpl; [reflexivity|].
  destruct (f a); now rewrite IH.
Qed.

Lemma list_string_eqb_eq (a b : list string) : list_string_eqb a b = true <-> a = b.
Proof.
  revert b. induction a as [|x a IH]; destruct b as [|y b]; simpl; split;
    try discriminate; try reflexivity.
  - intros H. apply andb_true_iff in H. destruct H as [Hx Ha].
    apply String.eqb_eq in Hx. apply IH in Ha. now subst.
  - intros H. inversion H; subst. rewrite String.eqb_refl. simpl. now apply IH.
Qed.

(** C9, as the code has it: the seven columns without TRACK_DURATION, and
    duration thresholding switched off; [do_file] raises [KeyError]. *)
Lemma no_duration_column_raises_key_error :
  do_file np_mean np_std np_percentile settings_without_duration_thresh
    (folder_with "1khz.csv" col_names no_duration_file FileNotFoundError)
    "1khz.csv" 0%float 0%float 0%float None None
  = Raise KeyError.
Proof. vm_compute. reflexivity. Qed.

Section DurationRequired.

Variable mean : list float -> float.
Variable std : list float -> float.
Variable percentile : list float -> float -> result float.
Variable cfg : settings.
Variable files : string -> result (list string * list (list float)).

(** C9, amended: TRACK_DURATION is required.  On every table that holds
    the seven columns in their order and no TRACK_DURATION column, [do_file]
    raises [KeyError], whatever the settings and thresholds: the null
    filtering reads the column on the first row, and on a table without
    rows the column drop that follows the duration stage fails. *)
Theorem duration_column_is_required
  (name : string) (hdr : list string) (body : list (list float))
  (d s l : float) (sf iqf : option (list bool)) :
  files name = Ok (hdr, body) ->
  ~ In "TRACK_DURATION" hdr ->
  filter (fun c => mem_string c col_names) hdr = col_names ->
  do_file mean std percentile cfg files name d s l sf iqf = Raise KeyError.
Proof.
  intros Hfile Hno Hseven.
  unfold do_file, do_file_state, read_csv. rewrite Hfile. cbn [bind fst snd].
  unfold load_table.
  set (csv0 := mkDataFrame hdr (combine (seq 0 (List.length body)) body)).
  set (keep := fun c => mem_string c col_names || String.eqb c "TRACK_DURATION").
  assert (Hcols : columns (keep_columns keep csv0) = col_names).
  { unfold keep_columns. cbn [columns]. subst csv0. cbn [columns].
    rewrite select_map_filter, <- Hseven. apply filter_ext_in.
    intros c Hc. unfold keep.
    destruct (String.eqb c "TRACK_DURATION") eqn:E; [|apply orb_false_r].
    apply String.eqb_eq in E. subst c. contradiction. }
  rewrite Hcols. change (check_column_order col_names 0) with (Ok tt). cbn [bind].
  destruct (drop_labels [0; 1; 2] (keep_columns keep csv0)) as [csv2|e] eqn:Ed.
  - apply drop_labels_ok in Ed. destruct Ed as [Hc2 Hr2]. rewrite Hcols in Hc2.
    destruct csv2 as [cols2 rows2]. cbn [columns] in Hc2. subst cols2.
    cbn [bind]. unfold filter_stages, duration_part, null_filtering, drop_where.
    cbn [csv columns rows]. destruct rows2 as [|r rest].
    + cbn [for_rows and_then]. unfold guarded, try_revert, duration_filter, drop_where.
      cbn [take_backup csv columns rows for_rows].
      destruct (do_duration_thresh cfg); reflexivity.
    + reflexivity.
  - unfold drop_labels in Ed. destruct (forallb _ _); inversion Ed. reflexivity.
Qed.

End DurationRequired.

(** The theorem above at a five-line table without TRACK_DURATION. *)
Lemma duration_column_is_required_witness :
  folder_with "1khz.csv" col_names no_duration_file FileNotFoundError "1khz.csv"
  = Ok (col_names, no_duration_file) /\
  ~ In "TRACK_DURATION" col_names /\
  filter (fun c => mem_string c col_names) col_names = col_names /\
  do_file np_mean np_std np_percentile default_settings
    (folder_with "1khz.csv" col_names no_duration_file FileNotFoundError)
    "1khz.csv" 0%float 0.5%float 0%float None None
  = Raise KeyError.
Proof.
  assert (Hno : ~ In "TRACK_DURATION" col_names).
  { simpl. intuition discriminate. }
  split; [reflexivity|]. split; [exact Hno|]. split; [reflexivity|].
  exact (duration_column_is_required np_mean np_std np_percentile default_settings
           (folder_with "1khz.csv" col_names no_duration_file FileNotFoundError)
           "1khz.csv" col_names no_duration_file 0%float 0.5%float 0%float None None
           eq_refl Hno eq_refl).
Defined.

(** ** Guarded stages with a fixed threshold *)

Lemma guard_rows_incl (keep : Row -> bool) (l : list Row) : incl (guard_rows keep l) l.
Proof.
  unfold guard_rows. destruct (filter keep l) as [|x xs] eqn:E; [apply incl_refl|].
  rewrite <- E. intros r Hr. apply filter_In in Hr. tauto.
Qed.

Lemma guard_rows_labels (keep : Row -> bool) (l : list Row) :
  NoDup (map fst l) -> NoDup (map fst (guard_rows keep l)).
Proof.
  intros H. unfold guard_rows. destruct (filter keep l) as [|x xs] eqn:E; [assumption|].
  rewrite <- E. now apply NoDup_labels_filter.
Qed.

(** Below a guarded stage the stage changes nothing any more. *)
Lemma guard_rows_fixed (keep : Row -> bool) (l part : list Row) :
  incl part (guard_rows keep l) -> guard_rows keep part = part.
Proof.
  intros Hincl. unfold guard_rows in Hincl.
  destruct (filter keep l) as [|x xs] eqn:E.
  - unfold guard_rows. rewrite filter_none; [reflexivity|].
    intros r Hr. apply (filter_nil_all_false _ _ E). now apply Hincl.
  - unfold guard_rows. rewrite filter_all; [now destruct part|].
    intros r Hr. apply Hincl in Hr. rewrite <- E in Hr.
    apply filter_In in Hr. tauto.
Qed.

Lemma readable_incl (test : list string -> Row -> result bool) (cols : list string)
  (l part : list Row) :
  incl part l -> readable test cols l -> readable test cols part.
Proof. intros Hincl H r Hr. apply H. now apply Hincl. Qed.

Lemma series_get_raises_key (cols : list string) (cells : list float) (name : string)
  (e : exn) :
  series_get cols cells name = Raise e -> e = KeyError.
Proof.
  unfold series_get. destruct (index_of name cols) as [i|]; [|congruence].
  destruct (nth_error cells i); congruence.
Qed.

Lemma below_raises_only_key (name : string) (t : float) :
  raises_only_key (below name t).
Proof.
  intros cols r e. unfold below, cell.
  destruct (series_get cols (snd r) name) as [v|e'] eqn:E; simpl; [discriminate|].
  intros H. inversion H; subst. eapply series_get_raises_key; eauto.
Qed.

Section Guarded.

Variable test : list string -> Row -> result bool.
Variable rsn : string.
Hypothesis test_raises_only_key : raises_only_key test.

Lemma drop_body_raises_key (cols : list string) (r : Row) (st st' : state) (e : exn) :
  drop_body test (Some rsn) cols r st = Raised e st' -> e = KeyError.
Proof.
  unfold drop_body. destruct (test cols r) as [[|]|e'] eqn:Et.
  - unfold log_and_drop.
    destruct (series_get cols (snd r) "MEAN_STRAIGHT_LINE_SPEED") as [s|e'] eqn:Es.
    + unfold drop_row, drop_labels. destruct (forallb _ _); intros H; now inversion H.
    + intros H. inversion H; subst. eapply series_get_raises_key; eauto.
  - discriminate.
  - intros H. inversion H; subst. eapply test_raises_only_key; eauto.
Qed.

Lemma for_rows_raises_key (cols : list string) (entry : list Row) :
  forall st st' e,
    for_rows (drop_body test (Some rsn) cols) entry st = Raised e st' -> e = KeyError.
Proof.
  induction entry as [|r entry IH]; simpl; intros st st' e H; [discriminate|].
  destruct (drop_body test (Some rsn) cols r st) as [st1|e1 st1] eqn:Eb; simpl in H.
  - eapply IH; eauto.
  - inversion H; subst. eapply drop_body_raises_key; eauto.
Qed.

Lemma for_rows_logged (cols : list string) (entry : list Row) :
  forall st st',
    for_rows (drop_body test (Some rsn) cols) entry st = Normal st' ->
    forall r, In r entry -> marked test cols r = true ->
              exists s, series_get cols (snd r) "MEAN_STRAIGHT_LINE_SPEED" = Ok s.
Proof.
  induction entry as [|x entry IH]; simpl; intros st st' H r Hr Hm; [contradiction|].
  destruct (drop_body test (Some rsn) cols x st) as [st1|e1 st1] eqn:Eb; simpl in H;
    [|discriminate].
  destruct Hr as [->|Hr]; [|eapply IH; eauto].
  unfold drop_body in Eb. unfold marked in Hm.
  destruct (test cols r) as [[|]|e']; try discriminate.
  unfold log_and_drop in Eb.
  destruct (series_get cols (snd r) "MEAN_STRAIGHT_LINE_SPEED") as [s|e'];
    [eauto | discriminate].
Qed.

Variable flag : bool.
Variable stage : state -> outcome.
Hypothesis stage_eq :
  forall st, stage st = if flag then drop_where test (Some rsn) st else Normal st.

(** The stage itself, when it completes. *)
Lemma threshold_stage_normal (st st1 : state) :
  NoDup (labels (csv st)) ->
  stage st = Normal st1 ->
  csv st1 = mkDataFrame (columns (csv st))
              (filter (kept_by flag test (columns (csv st))) (rows (csv st))) /\
  backup st1 = backup st /\
  (flag = true -> readable test (columns (csv st)) (rows (csv st))).
Proof.
  intros Hnd H. rewrite stage_eq in H. unfold kept_by. destruct flag.
  - pose proof (drop_where_rows _ _ _ _ Hnd H) as Hr.
    pose proof (for_rows_logged _ _ _ _ H) as Hl.
    apply drop_where_normal in H. destruct H as (Ht & Hc & Hb & _ & _).
    split; [|split; [assumption|]].
    + destruct (csv st1) as [c1 r1]. simpl in *. now subst.
    + intros _ r Hin. split; [now apply Ht | now apply Hl].
  - inversion H; subst. split; [|split; [reflexivity | discriminate]].
    simpl. rewrite filter_all by reflexivity. now destruct (csv st1).
Qed.

Lemma threshold_stage_total (st : state) :
  NoDup (labels (csv st)) ->
  (flag = true -> readable test (columns (csv st)) (rows (csv st))) ->
  exists st1, stage st = Normal st1.
Proof.
  intros Hnd Hread. rewrite stage_eq. destruct flag; [|eauto].
  specialize (Hread eq_refl). apply drop_where_total; [assumption | |].
  - intros r Hr. now apply Hread.
  - intros r rsn' Hr Hm _. now apply Hread.
Qed.

Lemma threshold_stage_no_runtime_error (st st1 : state) :
  stage st <> Raised RuntimeError st1.
Proof.
  rewrite stage_eq. destruct flag; [|discriminate].
  intros H. unfold drop_where in H. apply for_rows_raises_key in H. discriminate.
Qed.

(** A [try] block that takes its own backup leaves [guard_rows] of the
    table it started from, and that table as the backup. *)
Lemma guarded_threshold_normal (st st' : state) :
  NoDup (labels (csv st)) ->
  guarded stage st = Normal st' ->
  csv st' = mkDataFrame (columns (csv st))
              (guard_rows (kept_by flag test (columns (csv st))) (rows (csv st))) /\
  backup st' = csv st /\
  (flag = true -> readable test (columns (csv st)) (rows (csv st))).
Proof.
  intros Hnd H. unfold guarded, try_revert in H.
  destruct (stage (take_backup st)) as [st1|e st1] eqn:Es; cbn [and_then] in H.
  - destruct (threshold_stage_normal (take_backup st) st1 Hnd Es) as (Hc & Hb & Hr).
    cbn [take_backup csv backup] in Hc, Hb, Hr.
    unfold overfiltering_check in H. unfold guard_rows.
    destruct (rows (csv st1)) as [|x xs] eqn:Erows.
    + inversion H; subst. cbn [set_csv csv backup]. rewrite Hb.
      rewrite Hc in Erows. cbn [rows] in Erows. rewrite Erows.
      split; [now destruct (csv st) | auto].
    + inversion H; subst. rewrite Hc in Erows. cbn [rows] in Erows. rewrite Erows.
      rewrite <- Erows. auto.
  - destruct e; try discriminate.
    exfalso. eapply threshold_stage_no_runtime_error; eauto.
Qed.

Lemma guarded_threshold_total (st : state) :
  NoDup (labels (csv st)) ->
  (flag = true -> readable test (columns (csv st)) (rows (csv st))) ->
  exists st', guarded stage st = Normal st'.
Proof.
  intros Hnd Hread.
  destruct (threshold_stage_total (take_backup st) Hnd Hread) as [st1 Hs].
  unfold guarded, try_revert. rewrite Hs. cbn [and_then]. unfold overfiltering_check.
  destruct (rows (csv st1)); eauto.
Qed.

(** The [try] block of the speed stage: the kept rows, or the backup it
    was handed when no row is kept. *)
Lemma guarded_without_backup_threshold_normal (st st' : state) :
  NoDup (labels (csv st)) ->
  guarded_without_backup stage st = Normal st' ->
  backup st' = backup st /\
  (flag = true -> readable test (columns (csv st)) (rows (csv st))) /\
  ((filter (kept_by flag test (columns (csv st))) (rows (csv st)) <> [] /\
    csv st' = mkDataFrame (columns (csv st))
                (filter (kept_by flag test (columns (csv st))) (rows (csv st))))
   \/ csv st' = backup st).
Proof.
  intros Hnd H. unfold guarded_without_backup, try_revert in H.
  destruct (stage st) as [st1|e st1] eqn:Es; cbn [and_then] in H.
  - destruct (threshold_stage_normal st st1 Hnd Es) as (Hc & Hb & Hr).
    unfold overfiltering_check in H.
    destruct (rows (csv st1)) as [|x xs] eqn:Erows.
    + inversion H; subst. cbn [set_csv csv backup]. rewrite Hb. auto.
    + inversion H; subst. split; [assumption|]. split; [assumption|]. left.
      split; [|assumption]. rewrite Hc in Erows. cbn [rows] in Erows.
      rewrite Erows. discriminate.
  - destruct e; try discriminate.
    exfalso. eapply threshold_stage_no_runtime_error; eauto.
Qed.

Lemma guarded_without_backup_threshold_total (st : state) :
  NoDup (labels (csv st)) ->
  (flag = true -> readable test (columns (csv st)) (rows (csv st))) ->
  exists st', guarded_without_backup stage st = Normal st'.
Proof.
  intros Hnd Hread.
  destruct (threshold_stage_total st Hnd Hread) as [st1 Hs].
  unfold guarded_without_backup, try_revert. rewrite Hs. cbn [and_then].
  unfold overfiltering_check. destruct (rows (csv st1)); eauto.
Qed.

End Guarded.

Lemma dataframe_eta (df : DataFrame) : mkDataFrame (columns df) (rows df) = df.
Proof. now destruct df. Qed.

Section GuardedAgain.

Variable test : list string -> Row -> result bool.
Variable rsn : string.
Hypothesis test_raises_only_key : raises_only_key test.
Variable flag : bool.
Variable stage : state -> outcome.
Hypothesis stage_eq :
  forall st, stage st = if flag then drop_where test (Some rsn) st else Normal st.

Lemma guarded_threshold_shape (st st' : state) :
  NoDup (labels (csv st)) ->
  guarded stage st = Normal st' ->
  columns (csv st') = columns (csv st) /\
  incl (rows (csv st')) (rows (csv st)) /\
  NoDup (labels (csv st')).
Proof.
  intros Hnd H.
  destruct (guarded_threshold_normal test rsn test_raises_only_key flag stage stage_eq
              st st' Hnd H) as (Hc & _ & _).
  rewrite Hc. cbn [columns rows]. split; [reflexivity|]. split.
  - apply guard_rows_incl.
  - unfold labels. cbn [rows]. now apply guard_rows_labels.
Qed.

(** Run again on a part of what it left, a guarded stage leaves that part
    as it is. *)
Lemma guarded_threshold_again (st st' s0 : state) :
  NoDup (labels (csv st)) ->
  guarded stage st = Normal st' ->
  NoDup (labels (csv s0)) ->
  columns (csv s0) = columns (csv st) ->
  incl (rows (csv s0)) (rows (csv st')) ->
  exists s1, guarded stage s0 = Normal s1 /\ csv s1 = csv s0.
Proof.
  intros Hnd H Hnd0 Hcols Hincl.
  destruct (guarded_threshold_normal test rsn test_raises_only_key flag stage stage_eq
              st st' Hnd H) as (Hc & _ & Hread).
  rewrite Hc in Hincl. cbn [rows] in Hincl.
  assert (Hread0 : flag = true -> readable test (columns (csv s0)) (rows (csv s0))).
  { intros Hf. rewrite Hcols. eapply readable_incl; [|now apply Hread].
    eapply incl_tran; [exact Hincl | apply guard_rows_incl]. }
  destruct (guarded_threshold_total test rsn flag stage stage_eq s0 Hnd0 Hread0)
    as [s1 Hs1].
  exists s1. split; [assumption|].
  destruct (guarded_threshold_normal test rsn test_raises_only_key flag stage stage_eq
              s0 s1 Hnd0 Hs1) as (Hc1 & _ & _).
  rewrite Hc1, Hcols, (guard_rows_fixed _ _ _ Hincl), <- Hcols.
  apply dataframe_eta.
Qed.

(** The same for the [try] block of the speed stage, when its first run
    did not fall back on the backup and its second run is handed the table
    itself as the backup. *)
Lemma guarded_without_backup_again (st st' s0 : state) :
  NoDup (labels (csv st)) ->
  guarded_without_backup stage st = Normal st' ->
  columns (csv st') <> columns (backup st) ->
  NoDup (labels (csv s0)) ->
  columns (csv s0) = columns (csv st) ->
  incl (rows (csv s0)) (rows (csv st')) ->
  backup s0 = csv s0 ->
  exists s1, guarded_without_backup stage s0 = Normal s1 /\ csv s1 = csv s0.
Proof.
  intros Hnd H Hcommitted Hnd0 Hcols Hincl Hbackup.
  destruct (guarded_without_backup_threshold_normal test rsn test_raises_only_key
              flag stage stage_eq st st' Hnd H) as (_ & Hread & [[_ Hc]|Hc]);
    [|rewrite Hc in Hcommitted; contradiction].
  rewrite Hc in Hincl. cbn [rows] in Hincl.
  assert (Hread0 : flag = true -> readable test (columns (csv s0)) (rows (csv s0))).
  { intros Hf. rewrite Hcols. eapply readable_incl; [|now apply Hread].
    intros r Hr. apply Hincl in Hr. apply filter_In in Hr. tauto. }
  destruct (guarded_without_backup_threshold_total test rsn flag stage stage_eq
              s0 Hnd0 Hread0) as [s1 Hs1].
  exists s1. split; [assumption|].
  destruct (guarded_without_backup_threshold_normal test rsn test_raises_only_key
              flag stage stage_eq s0 s1 Hnd0 Hs1) as (_ & _ & [[_ Hc1]|Hc1]);
    [|now rewrite Hc1].
  rewrite Hc1, Hcols, filter_all, <- Hcols; [apply dataframe_eta|].
  intros r Hr. apply Hincl in Hr. apply filter_In in Hr. tauto.
Qed.

Lemma guarded_without_backup_shape (st st' : state) :
  NoDup (labels (csv st)) ->
  guarded_without_backup stage st = Normal st' ->
  columns (csv st') <> columns (backup st) ->
  columns (csv st') = columns (csv st) /\
  incl (rows (csv st')) (rows (csv st)) /\
  NoDup (labels (csv st')).
Proof.
  intros Hnd H Hcommitted.
  destruct (guarded_without_backup_threshold_normal test rsn test_raises_only_key
              flag stage stage_eq st st' Hnd H) as (_ & _ & [[_ Hc]|Hc]);
    [|rewrite Hc in Hcommitted; contradiction].
  rewrite Hc. cbn [columns rows]. split; [reflexivity|]. split.
  - intros r Hr. apply filter_In in Hr. tauto.
  - unfold labels. cbn [rows]. now apply NoDup_labels_filter.
Qed.

End GuardedAgain.

(** ** Running the later stages again *)

Section Idempotence.

Variable mean : list float -> float.
Variable std : list float -> float.
Variable percentile : list float -> float -> result float.
Variable cfg : settings.
Variable files : string -> result (list string * list (list float)).

Hypothesis quality_filter_off : do_quality_percentile_filter cfg = false.

Variables d s l : float.

Let speed_stage := speed_filter cfg s.
Let displacement_stage := displacement_filter cfg d.
Let linearity_stage := linearity_filter cfg l.
Let quality_stage := quality_filter percentile cfg.
Let std_stage := std_filter mean std s None.
Let iqr_stage := iqr_filter mean percentile s None.

Let skipped (st : state) : outcome :=
  if false then drop_where (below "" 0%float) (Some "") st else Normal st.

Lemma quality_stage_skipped (st : state) : quality_stage st = skipped st.
Proof. unfold quality_stage, quality_filter. now rewrite quality_filter_off. Qed.

Lemma fails_duration_raises_only_key : raises_only_key (fails_duration cfg).
Proof.
  intros cols r e. unfold fails_duration, cell.
  destruct (series_get cols (snd r) "TRACK_DURATION") as [v|e'] eqn:E; simpl;
    [discriminate|].
  intros H. inversion H; subst. eapply series_get_raises_key; eauto.
Qed.

(** The later stages, run on a table they produced without falling back on
    the pre-duration backup, leave that table as it is. *)
Lemma later_stages_again (st0 st : state) :
  NoDup (labels (csv st0)) ->
  NoDup (labels (backup st0)) ->
  columns (backup st0) <> columns (csv st0) ->
  later_stages mean std percentile cfg d s l None None st0 = Normal st ->
  columns (csv st) = columns (csv st0) ->
  exists st2,
    later_stages mean std percentile cfg d s l None None (mkState (csv st) (csv st) [])
    = Normal st2
    /\ csv st2 = csv st.
Proof.
  intros Hnd0 Hndb Hdiff H Hcols. unfold later_stages in H.
  fold speed_stage displacement_stage linearity_stage quality_stage std_stage iqr_stage
    in H.
  destruct (guarded_without_backup speed_stage st0) as [sa|e sa] eqn:Ea;
    cbn [and_then] in H; [|discriminate].
  destruct (guarded displacement_stage sa) as [sb|e sb] eqn:Eb;
    cbn [and_then] in H; [|discriminate].
  destruct (guarded linearity_stage sb) as [sc|e sc] eqn:Ec;
    cbn [and_then] in H; [|discriminate].
  destruct (guarded quality_stage sc) as [sd|e sd] eqn:Ed;
    cbn [and_then] in H; [|discriminate].
  destruct (guarded std_stage sd) as [se|e se] eqn:Ee;
    cbn [and_then] in H; [|discriminate].
  rename H into Ef.
  (* the shape of the first run *)
  assert (Hnda : NoDup (labels (csv sa))).
  { destruct (guarded_without_backup_threshold_normal _ _ (below_raises_only_key _ s)
                (do_speed_thresh cfg) speed_stage (fun _ => eq_refl) st0 sa Hnd0 Ea)
      as (_ & _ & [[_ Hc]|Hc]); rewrite Hc; [|assumption].
    unfold labels. cbn [rows]. now apply NoDup_labels_filter. }
  destruct (guarded_threshold_shape _ _ (below_raises_only_key _ d)
              (do_displacement_thresh cfg) displacement_stage (fun _ => eq_refl)
              sa sb Hnda Eb) as (Hcb & Hib & Hndb').
  destruct (guarded_threshold_shape _ _ (below_raises_only_key _ l)
              (do_linearity_thresh cfg) linearity_stage (fun _ => eq_refl)
              sb sc Hndb' Ec) as (Hcc & Hic & Hndc).
  destruct (guarded_threshold_shape (below "" 0%float) "" (below_raises_only_key "" 0%float)
              false quality_stage quality_stage_skipped
              sc sd Hndc Ed) as (Hcd & Hid & Hndd).
  destruct (guarded_threshold_shape (below "" 0%float) "" (below_raises_only_key "" 0%float)
              false std_stage (fun _ => eq_refl)
              sd se Hndd Ee) as (Hce & Hie & Hnde).
  destruct (guarded_threshold_shape (below "" 0%float) "" (below_raises_only_key "" 0%float)
              false iqr_stage (fun _ => eq_refl)
              se st Hnde Ef) as (Hcf & Hif & Hndf).
  assert (Hcommitted : columns (csv sa) <> columns (backup st0)) by congruence.
  destruct (guarded_without_backup_shape _ _ (below_raises_only_key _ s)
              (do_speed_thresh cfg) speed_stage (fun _ => eq_refl)
              st0 sa Hnd0 Ea Hcommitted) as (Hca & Hia & _).
  (* the second run, stage by stage *)
  set (out := csv st) in *.
  assert (Hoe : incl (rows out) (rows (csv se))) by exact Hif.
  assert (Hod : incl (rows out) (rows (csv sd))) by (eapply incl_tran; eauto).
  assert (Hoc : incl (rows out) (rows (csv sc))) by (eapply incl_tran; eauto).
  assert (Hob : incl (rows out) (rows (csv sb))) by (eapply incl_tran; eauto).
  assert (Hoa : incl (rows out) (rows (csv sa))) by (eapply incl_tran; eauto).
  unfold later_stages.
  fold speed_stage displacement_stage linearity_stage quality_stage std_stage iqr_stage.
  destruct (guarded_without_backup_again _ _ (below_raises_only_key _ s)
              (do_speed_thresh cfg) speed_stage (fun _ => eq_refl)
              st0 sa (mkState out out []) Hnd0 Ea Hcommitted Hndf
              ltac:(cbn [csv]; congruence) Hoa eq_refl) as (s1 & E1 & C1).
  rewrite E1. cbn [and_then]. cbn [csv] in C1.
  destruct (guarded_threshold_again _ _ (below_raises_only_key _ d)
              (do_displacement_thresh cfg) displacement_stage (fun _ => eq_refl)
              sa sb s1 Hnda Eb ltac:(rewrite C1; exact Hndf)
              ltac:(rewrite C1; congruence) ltac:(rewrite C1; exact Hob))
    as (s2 & E2 & C2).
  rewrite E2. cbn [and_then]. rewrite C1 in C2.
  destruct (guarded_threshold_again _ _ (below_raises_only_key _ l)
              (do_linearity_thresh cfg) linearity_stage (fun _ => eq_refl)
              sb sc s2 Hndb' Ec ltac:(rewrite C2; exact Hndf)
              ltac:(rewrite C2; congruence) ltac:(rewrite C2; exact Hoc))
    as (s3 & E3 & C3).
  rewrite E3. cbn [and_then]. rewrite C2 in C3.
  destruct (guarded_threshold_again (below "" 0%float) "" (below_raises_only_key "" 0%float)
              false quality_stage quality_stage_skipped
              sc sd s3 Hndc Ed ltac:(rewrite C3; exact Hndf)
              ltac:(rewrite C3; congruence) ltac:(rewrite C3; exact Hod))
    as (s4 & E4 & C4).
  rewrite E4. cbn [and_then]. rewrite C3 in C4.
  destruct (guarded_threshold_again (below "" 0%float) "" (below_raises_only_key "" 0%float)
              false std_stage (fun _ => eq_refl)
              sd se s4 Hndd Ee ltac:(rewrite C4; exact Hndf)
              ltac:(rewrite C4; congruence) ltac:(rewrite C4; exact Hoe))
    as (s5 & E5 & C5).
  rewrite E5. cbn [and_then]. rewrite C4 in C5.
  destruct (guarded_threshold_again (below "" 0%float) "" (below_raises_only_key "" 0%float)
              false iqr_stage (fun _ => eq_refl)
              se st s5 Hnde Ef ltac:(rewrite C5; exact Hndf)
              ltac:(rewrite C5; congruence) ltac:(rewrite C5; apply incl_refl))
    as (s6 & E6 & C6).
  exists s6. split; [exact E6 | congruence].
Qed.

End Idempotence.

Section Rerun.

Variable mean : list float -> float.
Variable std : list float -> float.
Variable percentile : list float -> float -> result float.
Variable cfg : settings.
Variable files : string -> result (list string * list (list float)).

(** What the first part of [do_file] hands to the speed stage: a table with
    exactly the seven columns, and a backup that still has the duration
    column. *)
Lemma duration_part_normal (st0 stD : state) :
  NoDup (labels (csv st0)) ->
  duration_part cfg st0 = Normal stD ->
  columns (csv stD) = col_names /\
  NoDup (labels (csv stD)) /\
  NoDup (labels (backup stD)) /\
  In "TRACK_DURATION" (columns (backup stD)).
Proof.
  intros Hnd H. unfold duration_part in H.
  destruct (null_filtering st0) as [st1|e st1] eqn:En; cbn [and_then] in H;
    [|discriminate].
  destruct (null_filtering_normal st0 st1 Hnd En) as (_ & Hr1 & _ & _).
  assert (Hnd1 : NoDup (labels (csv st1))).
  { unfold labels. rewrite Hr1. now apply NoDup_labels_filter. }
  destruct (guarded (duration_filter cfg) st1) as [st2|e st2] eqn:Eg;
    cbn [and_then] in H; [|discriminate].
  destruct (guarded_threshold_normal _ _ (fails_duration_raises_only_key cfg)
              (do_duration_thresh cfg) (duration_filter cfg) (fun _ => eq_refl)
              st1 st2 Hnd1 Eg) as (Hc2 & Hb2 & _).
  unfold drop_duration_column, lift in H.
  destruct (drop_columns ["TRACK_DURATION"] (csv st2)) as [df|e] eqn:Ed; [|discriminate].
  destruct (list_string_eqb (columns df) col_names) eqn:El; [|discriminate].
  apply list_string_eqb_eq in El.
  destruct (recheck_column_order (columns df) 0); [|discriminate].
  inversion H; subst stD. cbn [set_csv csv backup].
  split; [assumption|]. split; [|split].
  - rewrite (drop_columns_labels _ _ _ Ed), Hc2. unfold labels. cbn [rows].
    now apply guard_rows_labels.
  - now rewrite Hb2.
  - rewrite Hb2. unfold drop_columns in Ed.
    destruct (forallb _ _) eqn:Ef; [|discriminate].
    cbn [forallb] in Ef. rewrite andb_true_r in Ef. apply mem_string_In in Ef.
    rewrite Hc2 in Ef. exact Ef.
Qed.

(** C5, amended.  With the quality-percentile filter off and no std or IQR
    flags, every threshold is a constant of the run.  If [do_file] completed
    and its speed stage did not fall back on the pre-duration backup (the
    table it produced has exactly the seven columns), then the stages that
    follow the duration stage, run again on that table with the same
    thresholds, leave it as it is. *)
Theorem fixed_threshold_stages_idempotent
  (name : string) (d s l : float) (n : nat) (st : state) :
  do_quality_percentile_filter cfg = false ->
  do_file_state mean std percentile cfg files name d s l None None = Ok (Some (n, st)) ->
  columns (csv st) = col_names ->
  exists st2,
    later_stages mean std percentile cfg d s l None None (mkState (csv st) (csv st) [])
    = Normal st2
    /\ csv st2 = csv st.
Proof.
  intros Hq H Hcols. apply do_file_state_inv in H.
  destruct H as (csv0 & csv2 & _ & _ & Hnd & _ & Hf).
  unfold filter_stages in Hf.
  destruct (duration_part cfg (mkState csv2 csv2 [])) as [stD|e stD] eqn:Ed;
    cbn [and_then] in Hf; [|discriminate].
  destruct (duration_part_normal (mkState csv2 csv2 []) stD Hnd Ed)
    as (HcD & HndD & HndB & Hdur).
  apply (later_stages_again mean std percentile cfg Hq d s l stD st); auto.
  - rewrite HcD. intros Heq. rewrite Heq in Hdur. simpl in Hdur. intuition discriminate.
  - congruence.
Qed.

End Rerun.

(** C5, as stated, fails.  Four long tracks of quality 1, 2, 3, 4 and the
    50th-percentile quality filter: the first run keeps the tracks of
    quality 3 and 4; on that table the threshold is 3.5, and a second run
    of the stages drops the track of quality 3.  The same happens when the
    two surviving tracks are handed to [do_file] as a file of their own. *)
Lemma quality_percentile_stage_not_idempotent :
  exists st st2 st3,
    do_file_state np_mean np_std np_percentile settings_with_quality_filter
      (folder_with "1khz.csv" header quality_file FileNotFoundError)
      "1khz.csv" 0%float 0.5%float 0%float None None = Ok (Some (4, st)) /\
    labels (csv st) = [5; 6] /\
    later_stages np_mean np_std np_percentile settings_with_quality_filter
      0%float 0.5%float 0%float None None (mkState (csv st) (csv st) []) = Normal st2 /\
    labels (csv st2) = [6] /\
    do_file_state np_mean np_std np_percentile settings_with_quality_filter
      (folder_with "1khz.csv" header quality_file_filtered FileNotFoundError)
      "1khz.csv" 0%float 0.5%float 0%float None None = Ok (Some (2, st3)) /\
    List.length (rows (csv st3)) = 1.
Proof.
  do 3 eexists.
  split; [vm_compute; reflexivity|].
  split; [reflexivity|].
  split; [vm_compute; reflexivity|].
  split; [reflexivity|].
  split; [vm_compute; reflexivity|].
  reflexivity.
Qed.

(** The amended statement at a file of a fast and a slow track, speed
    threshold 1: the first run keeps the fast track, the second run keeps
    it too. *)
Lemma fixed_threshold_stages_idempotent_witness :
  do_quality_percentile_filter default_settings = false /\
  exists n st,
    do_file_state np_mean np_std np_percentile default_settings
      (folder_with "1khz.csv" header two_speed_file FileNotFoundError)
      "1khz.csv" 0%float 1%float 0%float None None = Ok (Some (n, st)) /\
    columns (csv st) = col_names /\
    labels (csv st) = [3] /\
    exists st2,
      later_stages np_mean np_std np_percentile default_settings
        0%float 1%float 0%float None None (mkState (csv st) (csv st) []) = Normal st2
      /\ csv st2 = csv st.
Proof.
  split; [reflexivity|]. eexists. eexists.
  split; [vm_compute; reflexivity|]. split; [reflexivity|]. split; [reflexivity|].
  eapply (fixed_threshold_stages_idempotent np_mean np_std np_percentile default_settings
            (folder_with "1khz.csv" header two_speed_file FileNotFoundError)
            "1khz.csv" 0%float 1%float 0%float);
    [reflexivity | vm_compute; reflexivity | reflexivity].
Defined.

(** ** The guard of the six other stages *)

Lemma guarded_restores_entry_table (stage : state -> outcome) (st st1 : state) :
  stage (take_backup st) = Normal st1 ->
  backup st1 = csv st ->
  rows (csv st1) = [] ->
  guarded stage st = Normal (set_csv (csv st) st1).
Proof.
  intros Hs Hb Hr. unfold guarded, try_revert. rewrite Hs. cbn [and_then].
  unfold overfiltering_check. rewrite Hr. now rewrite Hb.
Qed.

Lemma drop_where_backup (test : list string -> Row -> result bool)
  (reason : option string) (st st1 : state) :
  drop_where test reason st = Normal st1 -> backup st1 = backup st.
Proof. intros H. apply drop_where_normal in H. tauto. Qed.

Section OtherStages.

Variable mean : list float -> float.
Variable std : list float -> float.
Variable percentile : list float -> float -> result float.
Variable cfg : settings.

(** Each stage whose [try] block starts with a backup is undone by its
    guard when it empties the table: the table is the one the stage
    started from. *)
Lemma guarded_stage_undone (stage : state -> outcome) (d s l : float)
  (sf iqf : option (list bool)) (st st1 : state) :
  In stage [duration_filter cfg; displacement_filter cfg d; linearity_filter cfg l;
            quality_filter percentile cfg; std_filter mean std s sf;
            iqr_filter mean percentile s iqf] ->
  stage (take_backup st) = Normal st1 ->
  rows (csv st1) = [] ->
  exists st', guarded stage st = Normal st' /\ csv st' = csv st.
Proof.
  intros Hin Hs Hr.
  assert (Hb : backup st1 = csv st).
  { change (csv st) with (backup (take_backup st)).
    revert Hs. generalize (take_backup st) as st0. intros st0 Hs.
    simpl in Hin. destruct Hin as [<-|[<-|[<-|[<-|[<-|[<-|[]]]]]]].
    - unfold duration_filter in Hs. destruct (do_duration_thresh cfg);
        [eapply drop_where_backup; eauto | now inversion Hs].
    - unfold displacement_filter in Hs. destruct (do_displacement_thresh cfg);
        [eapply drop_where_backup; eauto | now inversion Hs].
    - unfold linearity_filter in Hs. destruct (do_linearity_thresh cfg);
        [eapply drop_where_backup; eauto | now inversion Hs].
    - unfold quality_filter, lift in Hs. destruct (do_quality_percentile_filter cfg);
        [|now inversion Hs].
      destruct (bind _ _); [eapply drop_where_backup; eauto | discriminate].
    - unfold std_filter, lift in Hs. destruct sf as [flags|]; [|now inversion Hs].
      destruct (flagged_values std flags _ _ _); [|discriminate].
      destruct (flagged_values mean flags _ _ _); [|discriminate].
      eapply drop_where_backup; eauto.
    - unfold iqr_filter, lift in Hs. destruct iqf as [flags|]; [|now inversion Hs].
      destruct (Nat.eqb _ _); [|now inversion Hs].
      destruct (iqr_values_from _ _ _ _ _); [|discriminate].
      destruct (iqr_mean_values _ _ _); [|discriminate].
      eapply drop_where_backup; eauto. }
  exists (set_csv (csv st) st1).
  split; [apply guarded_restores_entry_table; assumption | reflexivity].
Qed.

End OtherStages.

(** ** What the thresholds are made of *)

Section ControlStatistics.

Variable mean : list float -> float.
Variable std : list float -> float.
Variable cfg : settings.

(** The entries of the summary that [main] turns into thresholds: on a
    table with rows, positions 0, 5 and 6 of [output_data] are the means of
    TRACK_DISPLACEMENT, MEAN_STRAIGHT_LINE_SPEED and
    LINEARITY_OF_FORWARD_PROGRESSION, and position 5 of [output_std] is the
    standard deviation of MEAN_STRAIGHT_LINE_SPEED. *)
Lemma summarize_threshold_entries (initial_num_rows : nat) (df : DataFrame)
  (output_data output_std : list pyvalue) :
  summarize mean std cfg initial_num_rows df = Ok (output_data, output_std) ->
  rows df <> [] ->
  exists displacements speeds linearities,
    df_column df "TRACK_DISPLACEMENT" = Ok displacements /\
    df_column df "MEAN_STRAIGHT_LINE_SPEED" = Ok speeds /\
    df_column df "LINEARITY_OF_FORWARD_PROGRESSION" = Ok linearities /\
    nth 0 output_data PyNone = PyFloat (mean displacements) /\
    nth 5 output_data PyNone = PyFloat (mean speeds) /\
    nth 6 output_data PyNone = PyFloat (mean linearities) /\
    nth 5 output_std PyNone = PyFloat (std speeds).
Proof.
  intros H Hrows. unfold summarize, col_names in H. cbn [map_result] in H.
  destruct (df_column df "TRACK_DISPLACEMENT") as [c0|e]; [|discriminate].
  destruct (df_column df "TRACK_MEAN_SPEED") as [c1|e]; [|discriminate].
  destruct (df_column df "TRACK_MEDIAN_SPEED") as [c2|e]; [|discriminate].
  destruct (df_column df "TRACK_MEAN_QUALITY") as [c3|e]; [|discriminate].
  destruct (df_column df "TOTAL_DISTANCE_TRAVELED") as [c4|e]; [|discriminate].
  destruct (df_column df "MEAN_STRAIGHT_LINE_SPEED") as [c5|e]; [|discriminate].
  destruct (df_column df "LINEARITY_OF_FORWARD_PROGRESSION") as [c6|e]; [|discriminate].
  destruct (rows df) as [|r rest]; [contradiction|].
  cbn in H. inversion H; subst.
  exists c0, c5, c6. repeat split; reflexivity.
Qed.

End ControlStatistics.

(** ** The flags in the column scan *)

(** Away from the control condition the scan of a row never reads the
    flags: they act only through the mean and spread values, which are 0
    for a column that is not flagged. *)
Lemma scan_row_ignores_flags (k t : float) (flags flags' : list bool)
  (mean_values spreads : list float) (raw_list : list float) : forall i,
  (t =? 0)%float = false ->
  scan_row k t flags mean_values spreads i raw_list
  = scan_row k t flags' mean_values spreads i raw_list.
Proof.
  induction raw_list as [|x rest IH]; simpl; intros i Ht; [reflexivity|].
  destruct (py_index mean_values i) as [m|e]; simpl; [|reflexivity].
  destruct (py_index spreads i) as [s|e]; simpl; [|reflexivity].
  destruct (x <? m - k * s)%float; [reflexivity|].
  rewrite Ht. now apply IH.
Qed.

(** * Further properties of [do_file] and [main] *)

(** ** What a stage leaves of the table *)

Lemma same_frame_refl (st : state) : same_frame st st.
Proof.
  repeat split. exists (fun _ => true). symmetry. now apply filter_all.
Qed.

Lemma same_frame_trans (a b c : state) :
  same_frame a b -> same_frame b c -> same_frame a c.
Proof.
  intros (Hb1 & Hc1 & k1 & Hr1) (Hb2 & Hc2 & k2 & Hr2).
  split; [congruence|]. split; [congruence|].
  exists (fun x => k1 x && k2 x). rewrite Hr2, Hr1. apply filter_twice.
Qed.

Lemma drop_row_framed (label : nat) : framed (drop_row label).
Proof.
  intros st. unfold drop_row, drop_labels.
  destruct (forallb _ _); simpl; [|apply same_frame_refl].
  repeat split. eexists. reflexivity.
Qed.

Lemma log_and_drop_framed (cols : list string) (r : Row) (rsn : string) :
  framed (log_and_drop cols r rsn).
Proof.
  intros st. unfold log_and_drop.
  destruct (series_get cols (snd r) "MEAN_STRAIGHT_LINE_SPEED") as [s|e]; simpl;
    [|apply same_frame_refl].
  apply (drop_row_framed (fst r) (append_dropped (fst r, s, rsn) st)).
Qed.

Lemma drop_body_framed (test : list string -> Row -> result bool)
  (reason : option string) (cols : list string) (r : Row) :
  framed (drop_body test reason cols r).
Proof.
  intros st. unfold drop_body.
  destruct (test cols r) as [[|]|e]; simpl; try apply same_frame_refl.
  destruct reason; [apply log_and_drop_framed | apply drop_row_framed].
Qed.

Lemma and_then_framed (st : state) (o : outcome) (k : state -> outcome) :
  same_frame st (final o) -> framed k -> same_frame st (final (and_then o k)).
Proof.
  destruct o as [st1|e st1]; simpl; intros H Hk; [|assumption].
  eapply same_frame_trans; [exact H | apply Hk].
Qed.

Lemma for_rows_framed (body : Row -> state -> outcome) (entry : list Row) :
  (forall r, framed (body r)) -> framed (for_rows body entry).
Proof.
  intros Hb. induction entry as [|r entry IH]; intros st; simpl;
    [apply same_frame_refl|].
  apply and_then_framed; [apply Hb | exact IH].
Qed.

Lemma drop_where_framed (test : list string -> Row -> result bool)
  (reason : option string) : framed (drop_where test reason).
Proof.
  intros st. unfold drop_where. apply for_rows_framed. intros r.
  apply drop_body_framed.
Qed.

Lemma lift_framed {A : Type} (c : result A) (st : state) (k : A -> outcome) :
  (forall a, same_frame st (final (k a))) -> same_frame st (final (lift c st k)).
Proof. intros Hk. unfold lift. destruct c; simpl; [apply Hk | apply same_frame_refl]. Qed.

Section Frames.

Variable mean : list float -> float.
Variable std : list float -> float.
Variable percentile : list float -> float -> result float.
Variable cfg : settings.

Lemma duration_filter_framed : framed (duration_filter cfg).
Proof.
  intros st. unfold duration_filter.
  destruct (do_duration_thresh cfg); [apply drop_where_framed | apply same_frame_refl].
Qed.

Lemma speed_filter_framed (t : float) : framed (speed_filter cfg t).
Proof.
  intros st. unfold speed_filter.
  destruct (do_speed_thresh cfg); [apply drop_where_framed | apply same_frame_refl].
Qed.

Lemma displacement_filter_framed (t : float) : framed (displacement_filter cfg t).
Proof.
  intros st. unfold displacement_filter.
  destruct (do_displacement_thresh cfg); [apply drop_where_framed | apply same_frame_refl].
Qed.

Lemma linearity_filter_framed (t : float) : framed (linearity_filter cfg t).
Proof.
  intros st. unfold linearity_filter.
  destruct (do_linearity_thresh cfg); [apply drop_where_framed | apply same_frame_refl].
Qed.

Lemma quality_filter_framed : framed (quality_filter percentile cfg).
Proof.
  intros st. unfold quality_filter.
  destruct (do_quality_percentile_filter cfg); [|apply same_frame_refl].
  apply lift_framed. intros a. apply drop_where_framed.
Qed.

Lemma std_filter_framed (t : float) (flags : option (list bool)) :
  framed (std_filter mean std t flags).
Proof.
  intros st. unfold std_filter. destruct flags as [fl|]; [|apply same_frame_refl].
  apply lift_framed. intros a. apply lift_framed. intros b. apply drop_where_framed.
Qed.

Lemma iqr_filter_framed (t : float) (flags : option (list bool)) :
  framed (iqr_filter mean percentile t flags).
Proof.
  intros st. unfold iqr_filter. destruct flags as [fl|]; [|apply same_frame_refl].
  destruct (Nat.eqb _ _); [|apply same_frame_refl].
  apply lift_framed. intros a. apply lift_framed. intros b. apply drop_where_framed.
Qed.

End Frames.

(** What a [try] block with its own backup returns, whatever the stage in
    it does. *)
Lemma guarded_framed_normal (stage : state -> outcome) (st st' : state) :
  framed stage ->
  guarded stage st = Normal st' ->
  backup st' = csv st /\
  columns (csv st') = columns (csv st) /\
  (exists keep, rows (csv st') = filter keep (rows (csv st))) /\
  (rows (csv st) <> [] -> rows (csv st') <> []).
Proof.
  intros Hf H. unfold guarded, try_revert in H.
  pose proof (Hf (take_backup st)) as (Hb & Hc & keep & Hr).
  cbn [take_backup backup csv] in Hb, Hc, Hr.
  assert (Hrevert : forall s1, backup s1 = csv st ->
            backup (set_csv (backup s1) s1) = csv st /\
            columns (csv (set_csv (backup s1) s1)) = columns (csv st) /\
            (exists keep0, rows (csv (set_csv (backup s1) s1))
                           = filter keep0 (rows (csv st))) /\
            (rows (csv st) <> [] -> rows (csv (set_csv (backup s1) s1)) <> [])).
  { intros s1 Hb1. cbn [set_csv csv backup]. rewrite Hb1.
    split; [reflexivity|]. split; [reflexivity|]. split; [|auto].
    exists (fun _ => true). symmetry. now apply filter_all. }
  destruct (stage (take_backup st)) as [s1|e s1]; cbn [and_then final] in *.
  - unfold overfiltering_check in H. destruct (rows (csv s1)) as [|x xs] eqn:Er.
    + inversion H; subst. now apply Hrevert.
    + inversion H; subst. split; [assumption|]. split; [assumption|].
      split; [exists keep; now rewrite Er|]. intros _. rewrite Er. discriminate.
  - destruct e; try discriminate. inversion H; subst. now apply Hrevert.
Qed.

(** The same for the [try] block of the speed stage, which may fall back
    on the backup it was handed. *)
Lemma guarded_without_backup_framed_normal (stage : state -> outcome) (st st' : state) :
  framed stage ->
  guarded_without_backup stage st = Normal st' ->
  backup st' = backup st /\
  ((columns (csv st') = columns (csv st) /\
    (exists keep, rows (csv st') = filter keep (rows (csv st))) /\
    rows (csv st') <> [])
   \/ csv st' = backup st).
Proof.
  intros Hf H. unfold guarded_without_backup, try_revert in H.
  pose proof (Hf st) as (Hb & Hc & keep & Hr).
  destruct (stage st) as [s1|e s1]; cbn [and_then final] in *.
  - unfold overfiltering_check in H. destruct (rows (csv s1)) as [|x xs] eqn:Er.
    + inversion H; subst. cbn [set_csv csv backup]. rewrite Hb. auto.
    + inversion H; subst. split; [assumption|]. left.
      split; [assumption|]. split; [exists keep; now rewrite Er|].
      rewrite Er. discriminate.
  - destruct e; try discriminate. inversion H; subst.
    cbn [set_csv csv backup]. rewrite Hb. auto.
Qed.

Lemma part_of_refl (df : DataFrame) : part_of df df.
Proof. split; [reflexivity|]. exists (fun _ => true). symmetry. now apply filter_all. Qed.

Lemma part_of_trans (a b c : DataFrame) : part_of a b -> part_of b c -> part_of a c.
Proof.
  intros (Hc1 & k1 & Hr1) (Hc2 & k2 & Hr2). split; [congruence|].
  exists (fun x => k2 x && k1 x). rewrite Hr1, Hr2. apply filter_twice.
Qed.

Lemma part_of_labels (a b : DataFrame) :
  part_of a b -> NoDup (labels b) -> NoDup (labels a) /\ incl (labels a) (labels b).
Proof.
  intros (_ & k & Hr) Hnd. unfold labels. rewrite Hr. split.
  - now apply NoDup_labels_filter.
  - apply labels_filter_incl.
Qed.

Lemma part_of_length (a b : DataFrame) :
  part_of a b -> List.length (rows a) <= List.length (rows b).
Proof. intros (_ & k & Hr). rewrite Hr. apply filter_length_le. Qed.

Section Shape.

Variable mean : list float -> float.
Variable std : list float -> float.
Variable percentile : list float -> float -> result float.
Variable cfg : settings.
Variable files : string -> result (list string * list (list float)).

(** X1: whatever the settings, each of the six [try] blocks that take
    their own backup returns a table with the columns of the table it
    started from and some of its rows, in their order and with their
    cells; it leaves that entry table as the backup, and it never returns
    an empty table when the entry table had rows. *)
Theorem guarded_stage_keeps_some_rows (stage : state -> outcome) (d s l : float)
  (sf iqf : option (list bool)) (st st' : state) :
  In stage [duration_filter cfg; displacement_filter cfg d; linearity_filter cfg l;
            quality_filter percentile cfg; std_filter mean std s sf;
            iqr_filter mean percentile s iqf] ->
  guarded stage st = Normal st' ->
  backup st' = csv st /\
  part_of (csv st') (csv st) /\
  (rows (csv st) <> [] -> rows (csv st') <> []).
Proof.
  intros Hin H.
  assert (Hf : framed stage).
  { simpl in Hin. destruct Hin as [<-|[<-|[<-|[<-|[<-|[<-|[]]]]]]].
    - apply duration_filter_framed.
    - apply displacement_filter_framed.
    - apply linearity_filter_framed.
    - apply quality_filter_framed.
    - apply std_filter_framed.
    - apply iqr_filter_framed. }
  destruct (guarded_framed_normal stage st st' Hf H) as (Hb & Hc & Hk & Hn).
  unfold part_of. auto.
Qed.

(** The five [try] blocks that follow the speed stage, together. *)
Lemma after_speed_shape (d s l : float) (sf iqf : option (list bool)) (sa st : state) :
  and_then (guarded (displacement_filter cfg d) sa) (fun st =>
  and_then (guarded (linearity_filter cfg l) st) (fun st =>
  and_then (guarded (quality_filter percentile cfg) st) (fun st =>
  and_then (guarded (std_filter mean std s sf) st) (fun st =>
  guarded (iqr_filter mean percentile s iqf) st)))) = Normal st ->
  part_of (csv st) (csv sa) /\ (rows (csv sa) <> [] -> rows (csv st) <> []).
Proof.
  intros H.
  destruct (guarded (displacement_filter cfg d) sa) as [sb|e sb] eqn:Eb;
    cbn [and_then] in H; [|discriminate].
  destruct (guarded (linearity_filter cfg l) sb) as [sc|e sc] eqn:Ec;
    cbn [and_then] in H; [|discriminate].
  destruct (guarded (quality_filter percentile cfg) sc) as [sd|e sd] eqn:Ed;
    cbn [and_then] in H; [|discriminate].
  destruct (guarded (std_filter mean std s sf) sd) as [se|e se] eqn:Ee;
    cbn [and_then] in H; [|discriminate].
  destruct (guarded_framed_normal _ _ _ (displacement_filter_framed cfg d) Eb)
    as (_ & Hcb & Hkb & Hnb).
  destruct (guarded_framed_normal _ _ _ (linearity_filter_framed cfg l) Ec)
    as (_ & Hcc & Hkc & Hnc).
  destruct (guarded_framed_normal _ _ _ (quality_filter_framed percentile cfg) Ed)
    as (_ & Hcd & Hkd & Hnd).
  destruct (guarded_framed_normal _ _ _ (std_filter_framed mean std s sf) Ee)
    as (_ & Hce & Hke & Hne).
  destruct (guarded_framed_normal _ _ _ (iqr_filter_framed mean percentile s iqf) H)
    as (_ & Hcf & Hkf & Hnf).
  split; [|intros Hs; apply Hnf, Hne, Hnd, Hnc, Hnb, Hs].
  apply part_of_trans with (csv se); [split; assumption|].
  apply part_of_trans with (csv sd); [split; assumption|].
  apply part_of_trans with (csv sc); [split; assumption|].
  apply part_of_trans with (csv sb); split; assumption.
Qed.

(** The six later stages: the table they return is a part of the table
    they were given, or of the backup when the speed stage fell back on it. *)
Lemma later_stages_shape (d s l : float) (sf iqf : option (list bool)) (st0 st : state) :
  later_stages mean std percentile cfg d s l sf iqf st0 = Normal st ->
  (part_of (csv st) (csv st0) /\ rows (csv st) <> [])
  \/ (part_of (csv st) (backup st0) /\ (rows (backup st0) <> [] -> rows (csv st) <> [])).
Proof.
  intros H. unfold later_stages in H.
  destruct (guarded_without_backup (speed_filter cfg s) st0) as [sa|e sa] eqn:Ea;
    cbn [and_then] in H; [|discriminate].
  apply after_speed_shape in H. destruct H as (Hp & Hn).
  destruct (guarded_without_backup_framed_normal _ _ _ (speed_filter_framed cfg s) Ea)
    as (_ & [(Hc & Hk & Hne)|Hrev]).
  - left. split; [|auto]. eapply part_of_trans; [exact Hp | split; assumption].
  - right. rewrite Hrev in Hp, Hn. auto.
Qed.

(** What [drop_duration_column] returns. *)
Lemma drop_duration_column_normal (st stD : state) :
  drop_duration_column st = Normal stD ->
  columns (csv stD) = col_names /\
  labels (csv stD) = labels (csv st) /\
  backup stD = backup st /\
  dropped_row_indices stD = dropped_row_indices st /\
  In "TRACK_DURATION" (columns (csv st)).
Proof.
  unfold drop_duration_column, lift. intros H.
  destruct (drop_columns ["TRACK_DURATION"] (csv st)) as [df|e] eqn:Ed; [|discriminate].
  destruct (list_string_eqb (columns df) col_names) eqn:El; [|discriminate].
  apply list_string_eqb_eq in El.
  destruct (recheck_column_order (columns df) 0); [|discriminate].
  inversion H; subst stD. cbn [set_csv csv backup dropped_row_indices].
  split; [assumption|]. split; [now apply (drop_columns_labels _ _ _ Ed)|].
  split; [reflexivity|]. split; [reflexivity|].
  unfold drop_columns in Ed. destruct (forallb _ _) eqn:Ef; [|discriminate].
  cbn [forallb] in Ef. rewrite andb_true_r in Ef. now apply mem_string_In.
Qed.

Lemma labels_nil (df : DataFrame) : labels df = [] <-> rows df = [].
Proof.
  unfold labels. split; intros H; [|now rewrite H].
  now destruct (rows df).
Qed.

(** The table [do_file] ends with, against the table the null filtering
    left: its labels are unique and among the labels of that table, it has
    rows whenever that table has, and it has the seven columns, or all the
    loaded columns when the speed stage fell back on the backup. *)
Lemma filter_stages_shape (d s l : float) (sf iqf : option (list bool)) (st0 st : state) :
  NoDup (labels (csv st0)) ->
  filter_stages mean std percentile cfg d s l sf iqf st0 = Normal st ->
  exists st1,
    null_filtering st0 = Normal st1 /\
    NoDup (labels (csv st)) /\
    incl (labels (csv st)) (labels (csv st1)) /\
    (rows (csv st1) <> [] -> rows (csv st) <> []) /\
    (columns (csv st) = col_names
     \/ (columns (csv st) = columns (csv st0) /\ In "TRACK_DURATION" (columns (csv st)))).
Proof.
  intros Hnd H. unfold filter_stages, duration_part in H.
  destruct (null_filtering st0) as [st1|e st1] eqn:En; cbn [and_then] in H;
    [|discriminate].
  destruct (null_filtering_normal st0 st1 Hnd En) as (Hc1 & Hr1 & _ & _).
  assert (Hnd1 : NoDup (labels (csv st1))).
  { unfold labels. rewrite Hr1. now apply NoDup_labels_filter. }
  destruct (guarded (duration_filter cfg) st1) as [st2|e st2] eqn:Eg;
    cbn [and_then] in H; [|discriminate].
  destruct (guarded_framed_normal _ _ _ (duration_filter_framed cfg) Eg)
    as (Hb2 & Hc2 & Hk2 & Hn2).
  destruct (part_of_labels (csv st2) (csv st1) (conj Hc2 Hk2) Hnd1) as (Hnd2 & Hi2).
  destruct (drop_duration_column st2) as [stD|e stD] eqn:Ed; cbn [and_then] in H;
    [|discriminate].
  destruct (drop_duration_column_normal st2 stD Ed) as (HcD & HlD & HbD & _ & Hdur).
  exists st1. split; [reflexivity|].
  destruct (later_stages_shape d s l sf iqf stD st H) as [(Hp & Hne)|(Hp & Hne)].
  - assert (HndD : NoDup (labels (csv stD))) by now rewrite HlD.
    destruct (part_of_labels _ _ Hp HndD) as (Hndf & Hif).
    split; [assumption|]. split; [|split; [auto|]].
    + rewrite HlD in Hif. eapply incl_tran; eauto.
    + left. destruct Hp as (Hc & _). congruence.
  - rewrite HbD, Hb2 in Hp, Hne.
    destruct (part_of_labels _ _ Hp Hnd1) as (Hndf & Hif).
    split; [assumption|]. split; [assumption|]. split; [assumption|].
    right. destruct Hp as (Hc & _). rewrite Hc. split; [congruence|].
    now rewrite <- Hc2.
Qed.

End Shape.

(** ** What [do_file] returns *)

Section Output.

Variable mean : list float -> float.
Variable std : list float -> float.
Variable percentile : list float -> float -> result float.
Variable cfg : settings.
Variable files : string -> result (list string * list (list float)).

(** The two ways [do_file] returns: the file could not be read (a
    [RuntimeError] of [pd.read_csv]), or the stages ran and the final table
    was summarized. *)
Lemma do_file_inv (name : string) (d s l : float) (sf iqf : option (list bool))
  (out : list pyvalue * list pyvalue) :
  do_file mean std percentile cfg files name d s l sf iqf = Ok out ->
  (files name = Raise RuntimeError /\
   out = (repeat PyNone 9, repeat PyNone 7))
  \/ exists n st,
       do_file_state mean std percentile cfg files name d s l sf iqf = Ok (Some (n, st)) /\
       summarize mean std cfg n (csv st) = Ok out.
Proof.
  unfold do_file. intros H.
  destruct (do_file_state mean std percentile cfg files name d s l sf iqf)
    as [[[n st]|]|e] eqn:Es; cbn [bind] in H; [| |discriminate].
  - right. eauto.
  - left. split; [|now inversion H].
    unfold do_file_state, read_csv in Es.
    destruct (files name) as [hb|e]; cbn [bind] in Es.
    + destruct (load_table _); cbn [bind] in Es; [|discriminate].
      destruct (filter_stages _ _ _ _ _ _ _ _ _ _); discriminate.
    + destruct e; try discriminate. reflexivity.
Qed.

Lemma summarize_shape (initial_num_rows : nat) (df : DataFrame)
  (output_data output_std : list pyvalue) :
  summarize mean std cfg initial_num_rows df = Ok (output_data, output_std) ->
  List.length output_data = 10 /\
  List.length output_std = 7 /\
  nth 7 output_data PyNone = PyInt initial_num_rows /\
  nth 8 output_data PyNone = PyInt (List.length (rows df)).
Proof.
  intros H. unfold summarize, col_names in H. cbn [map_result] in H.
  destruct (df_column df "TRACK_DISPLACEMENT") as [c0|e]; [|discriminate].
  destruct (df_column df "TRACK_MEAN_SPEED") as [c1|e]; [|discriminate].
  destruct (df_column df "TRACK_MEDIAN_SPEED") as [c2|e]; [|discriminate].
  destruct (df_column df "TRACK_MEAN_QUALITY") as [c3|e]; [|discriminate].
  destruct (df_column df "TOTAL_DISTANCE_TRAVELED") as [c4|e]; [|discriminate].
  destruct (df_column df "MEAN_STRAIGHT_LINE_SPEED") as [c5|e]; [|discriminate].
  destruct (df_column df "LINEARITY_OF_FORWARD_PROGRESSION") as [c6|e]; [|discriminate].
  cbn [bind] in H.
  destruct (Nat.eqb (List.length (rows df)) 0); cbn in H; inversion H; subst;
    repeat split; reflexivity.
Qed.

(** Where the labels of the final table come from. *)
Lemma final_labels (name : string) (d s l : float) (sf iqf : option (list bool))
  (n : nat) (st : state) :
  do_file_state mean std percentile cfg files name d s l sf iqf = Ok (Some (n, st)) ->
  exists csv0 csv2 st1,
    read_csv files name = Ok csv0 /\
    load_table csv0 = Ok csv2 /\
    n = List.length (rows csv2) /\
    NoDup (labels csv2) /\
    null_filtering (mkState csv2 csv2 []) = Normal st1 /\
    rows (csv st1)
    = filter (fun r => negb (marked is_null_duration (columns csv2) r)) (rows csv2) /\
    (forall r, In r (rows csv2) -> exists b, is_null_duration (columns csv2) r = Ok b) /\
    NoDup (labels (csv st)) /\
    incl (labels (csv st)) (labels (csv st1)) /\
    (rows (csv st1) <> [] -> rows (csv st) <> []) /\
    (columns (csv st) = col_names
     \/ (columns (csv st) = columns csv2 /\ In "TRACK_DURATION" (columns (csv st)))).
Proof.
  intros H. apply do_file_state_inv in H.
  destruct H as (csv0 & csv2 & Hread & Hload & Hnd & Hn & Hf).
  destruct (filter_stages_shape mean std percentile cfg d s l sf iqf
              (mkState csv2 csv2 []) st Hnd Hf) as (st1 & En & Hndf & Hi & Hne & Hc).
  destruct (null_filtering_normal (mkState csv2 csv2 []) st1 Hnd En) as (_ & Hr1 & _ & _).
  pose proof En as En'. unfold null_filtering in En'.
  apply drop_where_normal in En'. destruct En' as (Ht & _).
  exists csv0, csv2, st1. repeat split; auto.
Qed.

(** X2: when [do_file] returns, either [pd.read_csv] raised a
    [RuntimeError] and the result is nine [None]s and seven [None]s, or
    [output_data] has ten entries and [output_std] seven, position 7 of
    [output_data] holds the number of rows of the table as loaded (columns
    selected, rows 0, 1, 2 dropped), position 8 holds the number of rows of
    the table the stages end with, and the second number is at most the
    first. *)
Theorem do_file_counts (name : string) (d s l : float) (sf iqf : option (list bool))
  (output_data output_std : list pyvalue) :
  do_file mean std percentile cfg files name d s l sf iqf = Ok (output_data, output_std) ->
  (files name = Raise RuntimeError /\
   output_data = repeat PyNone 9 /\ output_std = repeat PyNone 7)
  \/ exists csv0 csv2 st,
       read_csv files name = Ok csv0 /\
       load_table csv0 = Ok csv2 /\
       do_file_state mean std percentile cfg files name d s l sf iqf
       = Ok (Some (List.length (rows csv2), st)) /\
       List.length output_data = 10 /\
       List.length output_std = 7 /\
       nth 7 output_data PyNone = PyInt (List.length (rows csv2)) /\
       nth 8 output_data PyNone = PyInt (List.length (rows (csv st))) /\
       List.length (rows (csv st)) <= List.length (rows csv2).
Proof.
  intros H. apply do_file_inv in H. destruct H as [[Hf Ho]|(n & st & Hs & Hsum)].
  - left. inversion Ho. auto.
  - right. apply summarize_shape in Hsum. destruct Hsum as (Hl1 & Hl2 & H7 & H8).
    pose proof Hs as Hfin. apply final_labels in Hfin.
    destruct Hfin as (csv0 & csv2 & st1 & Hread & Hload & Hn & _ & _ & Hr1 & _ & Hnd & Hi & _).
    subst n. exists csv0, csv2, st. repeat split; auto.
    assert (Hle : List.length (labels (csv st)) <= List.length (labels csv2)).
    { apply NoDup_incl_length; [exact Hnd|].
      eapply incl_tran; [exact Hi|]. unfold labels. rewrite Hr1.
      apply labels_filter_incl. }
    unfold labels in Hle. now rewrite !length_map in Hle.
Qed.

(** X3: the final table of [do_file] is empty exactly when every track of
    the file has a missing (NaN) duration: as soon as one track has a
    numeric duration, the overfiltering guards leave at least one row,
    whatever the thresholds, flags and settings. *)
Theorem final_table_empty_iff_no_duration (name : string) (d s l : float)
  (sf iqf : option (list bool)) (n : nat) (st : state) :
  do_file_state mean std percentile cfg files name d s l sf iqf = Ok (Some (n, st)) ->
  exists csv0 csv2,
    read_csv files name = Ok csv0 /\
    load_table csv0 = Ok csv2 /\
    (rows (csv st) = []
     <-> forall r, In r (rows csv2) ->
           exists dur, cell "TRACK_DURATION" (columns csv2) r = Ok dur
                       /\ is_nan dur = true).
Proof.
  intros H. apply final_labels in H.
  destruct H as (csv0 & csv2 & st1 & Hread & Hload & _ & Hnd & _ & Hr1 & Ht & _ & Hi & Hne & _).
  exists csv0, csv2. split; [assumption|]. split; [assumption|]. split.
  - intros Hempty r Hr.
    assert (H1 : rows (csv st1) = []).
    { destruct (rows (csv st1)) as [|x xs] eqn:E; [reflexivity|].
      exfalso. apply Hne; [discriminate | assumption]. }
    rewrite H1 in Hr1. symmetry in Hr1.
    pose proof (filter_nil_all_false _ _ Hr1 r Hr) as Hm. apply negb_false_iff in Hm.
    unfold marked, is_null_duration in Hm.
    destruct (cell "TRACK_DURATION" (columns csv2) r) as [dur|e]; cbn [bind] in Hm;
      [|discriminate].
    exists dur. split; [reflexivity|]. unfold is_nan.
    now destruct (negb (dur =? dur)%float).
  - intros Hall. apply labels_nil. apply incl_l_nil.
    assert (H1 : rows (csv st1) = []).
    { rewrite Hr1. apply filter_none. intros r Hr.
      destruct (Hall r Hr) as (dur & Hcell & Hnan).
      now rewrite (marked_null_duration _ _ _ Hcell), Hnan. }
    apply labels_nil in H1. now rewrite <- H1.
Qed.

End Output.

Lemma guarded_stage_keeps_some_rows_witness :
  exists st',
    guarded (quality_filter np_percentile settings_with_quality_filter) quality_state
    = Normal st'
    /\ backup st' = csv quality_state
    /\ part_of (csv st') (csv quality_state)
    /\ (rows (csv quality_state) <> [] -> rows (csv st') <> []).
Proof.
  eexists. split; [vm_compute; reflexivity|].
  apply (guarded_stage_keeps_some_rows np_mean np_std np_percentile
           settings_with_quality_filter
           (quality_filter np_percentile settings_with_quality_filter)
           0%float 0%float 0%float None None quality_state).
  - simpl. tauto.
  - vm_compute. reflexivity.
Defined.

Lemma do_file_counts_witness :
  exists output_data output_std csv0 csv2 st,
    do_file np_mean np_std np_percentile default_settings
      (folder_with "1khz.csv" header short_fast_long_slow_file FileNotFoundError)
      "1khz.csv" 0%float 0%float 0%float None None = Ok (output_data, output_std)
    /\ read_csv (folder_with "1khz.csv" header short_fast_long_slow_file FileNotFoundError)
         "1khz.csv" = Ok csv0
    /\ load_table csv0 = Ok csv2
    /\ List.length (rows csv2) = 2
    /\ List.length (rows (csv st)) = 1
    /\ nth 7 output_data PyNone = PyInt (List.length (rows csv2))
    /\ nth 8 output_data PyNone = PyInt (List.length (rows (csv st))).
Proof.
  destruct (do_file_counts np_mean np_std np_percentile default_settings
              (folder_with "1khz.csv" header short_fast_long_slow_file FileNotFoundError)
              "1khz.csv" 0%float 0%float 0%float None None
              [PyFloat 1; PyFloat 1; PyFloat 1; PyFloat 1; PyFloat 1;
               PyFloat 0.5; PyFloat 1; PyInt 2; PyInt 1;
               PyFloat (0.5 * (4 * 0.32))]%float
              (repeat (PyFloat 0%float) 7))
    as [[Hf _]|(csv0 & csv2 & st & Hread & Hload & Hst & _ & _ & H7 & H8 & _)].
  - vm_compute. reflexivity.
  - vm_compute in Hf. discriminate Hf.
  - eexists. eexists. exists csv0, csv2, st.
    split; [vm_compute; reflexivity|].
    split; [exact Hread|]. split; [exact Hload|].
    cbn [nth] in H7, H8. inversion H7. inversion H8. repeat split; auto.
Defined.

Lemma final_table_empty_iff_no_duration_witness :
  exists n st,
    do_file_state np_mean np_std np_percentile default_settings two_speed_folder
      "1khz.csv" 1%float 0%float 0%float None None = Ok (Some (n, st))
    /\ exists csv0 csv2,
         read_csv two_speed_folder "1khz.csv" = Ok csv0 /\
         load_table csv0 = Ok csv2 /\
         (rows (csv st) = []
          <-> forall r, In r (rows csv2) ->
                exists dur, cell "TRACK_DURATION" (columns csv2) r = Ok dur
                            /\ is_nan dur = true).
Proof.
  eexists. eexists. split; [vm_compute; reflexivity|].
  apply (final_table_empty_iff_no_duration np_mean np_std np_percentile default_settings
           two_speed_folder "1khz.csv" 1%float 0%float 0%float None None 2).
  vm_compute. reflexivity.
Defined.

(** ** Where the rows go *)

Lemma remaining_label (l label : nat) (rs : list Row) :
  In l (map fst rs) -> l <> label ->
  In l (map fst (filter (fun r : Row => negb (mem_nat (fst r) [label])) rs)).
Proof.
  intros H Hne. apply in_map_iff in H. destruct H as [r [Hf Hin]].
  apply in_map_iff. exists r. split; [assumption|]. apply filter_In.
  split; [assumption|]. unfold mem_nat. simpl. rewrite orb_false_r.
  apply negb_true_iff, Nat.eqb_neq. congruence.
Qed.

Lemma log_and_drop_accounting (L : list nat) (cols : list string) (r : Row)
  (rsn : string) : accounting L (log_and_drop cols r rsn).
Proof.
  intros st H. unfold log_and_drop.
  destruct (series_get cols (snd r) "MEAN_STRAIGHT_LINE_SPEED") as [s|e]; simpl;
    [|exact H].
  assert (Hlog : accounted L (append_dropped (fst r, s, rsn) st)).
  { intros l Hl. destruct (H l Hl) as [H1 H2]. cbn [append_dropped csv backup
      dropped_row_indices]. rewrite map_app, !in_app_iff. tauto. }
  unfold drop_row, drop_labels. cbn [append_dropped csv].
  destruct (forallb _ _); cbn [final]; [|exact Hlog].
  intros l Hl. destruct (H l Hl) as [H1 H2].
  cbn [set_csv append_dropped csv backup dropped_row_indices labels rows].
  rewrite map_app, !in_app_iff. cbn [map record_label fst In].
  destruct (Nat.eq_dec l (fst r)) as [->|Hne]; [tauto|].
  split; [|tauto]. destruct H1 as [H1|H1]; [|tauto].
  left. now apply remaining_label.
Qed.

Lemma and_then_accounting (L : list nat) (o : outcome) (k : state -> outcome) :
  accounted L (final o) -> accounting L k -> accounted L (final (and_then o k)).
Proof. destruct o as [st1|e st1]; simpl; intros H Hk; [now apply Hk | assumption]. Qed.

Lemma for_rows_accounting (L : list nat) (body : Row -> state -> outcome)
  (entry : list Row) :
  (forall r, accounting L (body r)) -> accounting L (for_rows body entry).
Proof.
  intros Hb. induction entry as [|r entry IH]; intros st H; simpl; [exact H|].
  apply and_then_accounting; [now apply Hb | exact IH].
Qed.

(** A row loop that logs its drops loses no label. *)
Lemma drop_where_accounting (L : list nat) (test : list string -> Row -> result bool)
  (rsn : string) : accounting L (drop_where test (Some rsn)).
Proof.
  intros st H. unfold drop_where. apply for_rows_accounting; [|exact H].
  intros r st1 H1. unfold drop_body.
  destruct (test (columns (csv st)) r) as [[|]|e]; simpl; try exact H1.
  now apply log_and_drop_accounting.
Qed.

Lemma lift_accounting {A : Type} (L : list nat) (c : result A) (st : state)
  (k : A -> outcome) :
  accounted L st -> (forall a, accounted L (final (k a))) ->
  accounted L (final (lift c st k)).
Proof. intros H Hk. unfold lift. destruct c; simpl; [apply Hk | exact H]. Qed.

Lemma try_revert_accounting (L : list nat) (block : state -> outcome) :
  accounting L block -> accounting L (try_revert block).
Proof.
  intros Hb st H. specialize (Hb st H). unfold try_revert.
  destruct (block st) as [s1|e s1]; simpl in *; [assumption|].
  destruct e; simpl; try assumption.
  intros l Hl. destruct (Hb l Hl) as [_ H2]. cbn [set_csv csv backup dropped_row_indices].
  tauto.
Qed.

Lemma overfiltering_check_accounting (L : list nat) : accounting L overfiltering_check.
Proof. intros st H. unfold overfiltering_check. now destruct (rows (csv st)). Qed.

Lemma guarded_accounting (L : list nat) (stage : state -> outcome) :
  accounting L stage -> accounting L (guarded stage).
Proof.
  intros Hs. unfold guarded. apply try_revert_accounting. intros st H.
  apply and_then_accounting; [|apply overfiltering_check_accounting].
  apply Hs. intros l Hl. destruct (H l Hl) as [H1 _].
  cbn [take_backup csv backup dropped_row_indices]. tauto.
Qed.

Lemma guarded_without_backup_accounting (L : list nat) (stage : state -> outcome) :
  accounting L stage -> accounting L (guarded_without_backup stage).
Proof.
  intros Hs. unfold guarded_without_backup. apply try_revert_accounting. intros st H.
  apply and_then_accounting; [now apply Hs | apply overfiltering_check_accounting].
Qed.

Lemma drop_duration_column_accounting (L : list nat) : accounting L drop_duration_column.
Proof.
  intros st H. unfold drop_duration_column, drop_columns.
  destruct (forallb _ _); cbn [lift final]; [|exact H].
  assert (H' : accounted L
                 (set_csv (keep_columns (fun c => negb (mem_string c ["TRACK_DURATION"]))
                             (csv st)) st)).
  { intros l Hl. destruct (H l Hl) as [H1 H2].
    cbn [set_csv csv backup dropped_row_indices]. rewrite keep_columns_labels. tauto. }
  destruct (list_string_eqb _ _); cbn [final]; [|exact H'].
  destruct (recheck_column_order _ _); cbn [lift final]; exact H'.
Qed.

Section Accounting.

Variable mean : list float -> float.
Variable std : list float -> float.
Variable percentile : list float -> float -> result float.
Variable cfg : settings.
Variable files : string -> result (list string * list (list float)).
Variable L : list nat.

Lemma duration_filter_accounting : accounting L (duration_filter cfg).
Proof.
  intros st H. unfold duration_filter.
  destruct (do_duration_thresh cfg); [now apply drop_where_accounting | exact H].
Qed.

Lemma speed_filter_accounting (t : float) : accounting L (speed_filter cfg t).
Proof.
  intros st H. unfold speed_filter.
  destruct (do_speed_thresh cfg); [now apply drop_where_accounting | exact H].
Qed.

Lemma displacement_filter_accounting (t : float) : accounting L (displacement_filter cfg t).
Proof.
  intros st H. unfold displacement_filter.
  destruct (do_displacement_thresh cfg); [now apply drop_where_accounting | exact H].
Qed.

Lemma linearity_filter_accounting (t : float) : accounting L (linearity_filter cfg t).
Proof.
  intros st H. unfold linearity_filter.
  destruct (do_linearity_thresh cfg); [now apply drop_where_accounting | exact H].
Qed.

Lemma quality_filter_accounting : accounting L (quality_filter percentile cfg).
Proof.
  intros st H. unfold quality_filter.
  destruct (do_quality_percentile_filter cfg); [|exact H].
  apply lift_accounting; [exact H|]. intros a. now apply drop_where_accounting.
Qed.

Lemma std_filter_accounting (t : float) (flags : option (list bool)) :
  accounting L (std_filter mean std t flags).
Proof.
  intros st H. unfold std_filter. destruct flags as [fl|]; [|exact H].
  apply lift_accounting; [exact H|]. intros a.
  apply lift_accounting; [exact H|]. intros b. now apply drop_where_accounting.
Qed.

Lemma iqr_filter_accounting (t : float) (flags : option (list bool)) :
  accounting L (iqr_filter mean percentile t flags).
Proof.
  intros st H. unfold iqr_filter. destruct flags as [fl|]; [|exact H].
  destruct (Nat.eqb _ _); [|exact H].
  apply lift_accounting; [exact H|]. intros a.
  apply lift_accounting; [exact H|]. intros b. now apply drop_where_accounting.
Qed.

Lemma later_stages_accounting (d s l : float) (sf iqf : option (list bool)) :
  accounting L (later_stages mean std percentile cfg d s l sf iqf).
Proof.
  intros st H. unfold later_stages.
  apply and_then_accounting;
    [apply guarded_without_backup_accounting;
       [apply speed_filter_accounting | exact H]|].
  intros st1 H1. apply and_then_accounting;
    [apply guarded_accounting; [apply displacement_filter_accounting | exact H1]|].
  intros st2 H2. apply and_then_accounting;
    [apply guarded_accounting; [apply linearity_filter_accounting | exact H2]|].
  intros st3 H3. apply and_then_accounting;
    [apply guarded_accounting; [apply quality_filter_accounting | exact H3]|].
  intros st4 H4. apply and_then_accounting;
    [apply guarded_accounting; [apply std_filter_accounting | exact H4]|].
  intros st5 H5. apply guarded_accounting; [apply iqr_filter_accounting | exact H5].
Qed.

(** From the duration stage on, no label is lost. *)
Lemma after_null_filtering_accounting (d s l : float) (sf iqf : option (list bool)) :
  accounting L (fun st =>
    and_then (and_then (guarded (duration_filter cfg) st) drop_duration_column)
      (later_stages mean std percentile cfg d s l sf iqf)).
Proof.
  intros st H. apply and_then_accounting; [|apply later_stages_accounting].
  apply and_then_accounting; [|apply drop_duration_column_accounting].
  apply guarded_accounting; [apply duration_filter_accounting | exact H].
Qed.

End Accounting.

Section Whereabouts.

Variable mean : list float -> float.
Variable std : list float -> float.
Variable percentile : list float -> float -> result float.
Variable cfg : settings.
Variable files : string -> result (list string * list (list float)).

(** X4: every track of the file with a numeric duration is, when the stages
    of [do_file] are through, either in the final table or listed in
    [dropped_row_indices]: only the null filtering removes a row without a
    record, also when a guard restored a backup in between. *)
Theorem tracked_rows_are_kept_or_logged (name : string) (d s l : float)
  (sf iqf : option (list bool)) (n : nat) (st : state) :
  do_file_state mean std percentile cfg files name d s l sf iqf = Ok (Some (n, st)) ->
  exists csv0 csv2,
    read_csv files name = Ok csv0 /\
    load_table csv0 = Ok csv2 /\
    forall r dur,
      In r (rows csv2) ->
      cell "TRACK_DURATION" (columns csv2) r = Ok dur ->
      is_nan dur = false ->
      In (fst r) (labels (csv st))
      \/ In (fst r) (map record_label (dropped_row_indices st)).
Proof.
  intros H. apply do_file_state_inv in H.
  destruct H as (csv0 & csv2 & Hread & Hload & Hnd & Hn & Hf).
  exists csv0, csv2. split; [assumption|]. split; [assumption|].
  unfold filter_stages, duration_part in Hf.
  destruct (null_filtering (mkState csv2 csv2 [])) as [st1|e st1] eqn:En;
    cbn [and_then] in Hf; [|discriminate].
  destruct (null_filtering_normal (mkState csv2 csv2 []) st1 Hnd En) as (_ & Hr1 & Hd1 & Hb1).
  cbn [csv backup dropped_row_indices] in Hr1, Hd1, Hb1.
  assert (Hacc : accounted (labels (csv st1)) st1).
  { intros lb Hl. split; [now left|]. left. rewrite Hb1.
    unfold labels in *. rewrite Hr1 in Hl. revert Hl. apply labels_filter_incl. }
  pose proof (after_null_filtering_accounting mean std percentile cfg
                (labels (csv st1)) d s l sf iqf st1 Hacc) as Hfin.
  cbv beta in Hfin. rewrite Hf in Hfin. cbn [final] in Hfin.
  intros r dur Hr Hcell Hnan.
  apply Hfin. unfold labels. rewrite Hr1. apply in_map. apply filter_In.
  split; [assumption|]. now rewrite (marked_null_duration _ _ _ Hcell), Hnan.
Qed.

End Whereabouts.

Lemma tracked_rows_are_kept_or_logged_witness :
  exists n st,
    do_file_state np_mean np_std np_percentile default_settings two_speed_folder
      "1khz.csv" 1%float 0%float 0%float None None = Ok (Some (n, st))
    /\ exists csv0 csv2,
         read_csv two_speed_folder "1khz.csv" = Ok csv0 /\
         load_table csv0 = Ok csv2 /\
         forall r dur,
           In r (rows csv2) ->
           cell "TRACK_DURATION" (columns csv2) r = Ok dur ->
           is_nan dur = false ->
           In (fst r) (labels (csv st))
           \/ In (fst r) (map record_label (dropped_row_indices st)).
Proof.
  eexists. eexists. split; [vm_compute; reflexivity|].
  apply (tracked_rows_are_kept_or_logged np_mean np_std np_percentile default_settings
           two_speed_folder "1khz.csv" 1%float 0%float 0%float None None 2).
  vm_compute. reflexivity.
Defined.

(** ** The drop log after a revert *)




(** ** Exceptions that leave [do_file] *)

Lemma py_index_raises_index {A : Type} (l : list A) (i : nat) (e : exn) :
  py_index l i = Raise e -> e = IndexError.
Proof. unfold py_index. destruct (nth_error l i); congruence. Qed.

Lemma check_column_order_raises (items : list string) :
  forall i e, check_column_order items i = Raise e -> e <> RuntimeError.
Proof.
  induction items as [|item rest IH]; simpl; intros i e H; [discriminate|].
  destruct (String.eqb item "TRACK_DURATION"); [now apply IH in H|].
  destruct (py_index col_names i) as [c|e'] eqn:Ei; cbn [bind] in H.
  - destruct (String.eqb item c); [now apply IH in H|]. inversion H. discriminate.
  - inversion H; subst. apply py_index_raises_index in Ei. subst. discriminate.
Qed.

Lemma recheck_column_order_raises (items : list string) :
  forall i e, recheck_column_order items i = Raise e -> e <> RuntimeError.
Proof.
  induction items as [|item rest IH]; simpl; intros i e H; [discriminate|].
  destruct (py_index col_names i) as [c|e'] eqn:Ei; cbn [bind] in H.
  - destruct (String.eqb item c); [now apply IH in H|]. inversion H. discriminate.
  - inversion H; subst. apply py_index_raises_index in Ei. subst. discriminate.
Qed.

Lemma drop_labels_raises_key (ls : list nat) (df : DataFrame) (e : exn) :
  drop_labels ls df = Raise e -> e = KeyError.
Proof. unfold drop_labels. destruct (forallb _ _); congruence. Qed.

Lemma load_table_raises (csv0 : DataFrame) (e : exn) :
  load_table csv0 = Raise e -> e <> RuntimeError.
Proof.
  unfold load_table. intros H.
  destruct (check_column_order _ 0) as [u|e'] eqn:Ec; cbn [bind] in H.
  - apply drop_labels_raises_key in H. subst. discriminate.
  - inversion H; subst. now apply check_column_order_raises in Ec.
Qed.

Lemma map_result_raises {A B : Type} (f : A -> result B) (l : list A) (e : exn) :
  map_result f l = Raise e -> exists a, In a l /\ f a = Raise e.
Proof.
  induction l as [|a l IH]; simpl; intros H; [discriminate|].
  destruct (f a) as [b|e'] eqn:Ef; cbn [bind] in H.
  - destruct (map_result f l) as [bs|e'] eqn:Em; cbn [bind] in H; [discriminate|].
    inversion H; subst. destruct (IH eq_refl) as [x [Hx Hfx]]. eauto.
  - inversion H; subst. eauto.
Qed.

Lemma df_column_raises_key (df : DataFrame) (name : string) (e : exn) :
  df_column df name = Raise e -> e = KeyError.
Proof.
  unfold df_column. destruct (index_of name (columns df)); [|congruence].
  intros H. apply map_result_raises in H. destruct H as [r [_ Hr]].
  now apply series_get_raises_key in Hr.
Qed.

Lemma and_then_no_runtime_error (f g : state -> outcome) :
  no_runtime_error f -> no_runtime_error g ->
  no_runtime_error (fun st => and_then (f st) g).
Proof.
  intros Hf Hg st e st' H. destruct (f st) as [s1|e1 s1] eqn:Ef; cbn [and_then] in H.
  - eapply Hg; eauto.
  - inversion H; subst. eapply Hf; eauto.
Qed.

(** Whatever its block raises, a [try ... except RuntimeError] lets no
    [RuntimeError] out. *)
Lemma try_revert_no_runtime_error (block : state -> outcome) :
  no_runtime_error (try_revert block).
Proof.
  intros st e st' H. unfold try_revert in H.
  destruct (block st) as [s1|e1 s1]; [discriminate|].
  destruct e1; inversion H; discriminate.
Qed.

Lemma drop_row_raises_key (label : nat) (st st' : state) (e : exn) :
  drop_row label st = Raised e st' -> e = KeyError.
Proof.
  unfold drop_row. destruct (drop_labels [label] (csv st)) as [df|e'] eqn:Ed;
    intros H; inversion H; subst. now apply drop_labels_raises_key in Ed.
Qed.

Section Quiet.

Variable mean : list float -> float.
Variable std : list float -> float.
Variable percentile : list float -> float -> result float.
Variable cfg : settings.
Variable files : string -> result (list string * list (list float)).

Lemma null_filtering_no_runtime_error : no_runtime_error null_filtering.
Proof.
  intros st e st'. unfold null_filtering, drop_where.
  generalize (columns (csv st)) as cols. generalize st at 2 as s0.
  induction (rows (csv st)) as [|r rs IH]; simpl; intros s0 cols H; [discriminate|].
  destruct (drop_body is_null_duration None cols r s0) as [s1|e1 s1] eqn:Eb;
    cbn [and_then] in H; [now apply IH in H|].
  inversion H; subst. unfold drop_body in Eb.
  destruct (is_null_duration cols r) as [[|]|e'] eqn:Et.
  - apply drop_row_raises_key in Eb. subst. discriminate.
  - discriminate.
  - inversion Eb; subst. unfold is_null_duration, cell in Et.
    destruct (series_get cols (snd r) "TRACK_DURATION") as [v|e''] eqn:Es;
      cbn [bind] in Et; [discriminate|].
    inversion Et; subst. apply series_get_raises_key in Es. subst. discriminate.
Qed.

Lemma drop_duration_column_no_runtime_error : no_runtime_error drop_duration_column.
Proof.
  intros st e st'. unfold drop_duration_column, drop_columns.
  destruct (forallb _ _); cbn [lift]; [|intros H; inversion H; discriminate].
  destruct (list_string_eqb _ _); [|intros H; inversion H; discriminate].
  destruct (recheck_column_order _ 0) as [u|e'] eqn:Ec; cbn [lift]; [discriminate|].
  intros H. inversion H; subst. now apply recheck_column_order_raises in Ec.
Qed.

Lemma filter_stages_no_runtime_error (d s l : float) (sf iqf : option (list bool)) :
  no_runtime_error (filter_stages mean std percentile cfg d s l sf iqf).
Proof.
  unfold filter_stages, duration_part, later_stages.
  repeat first
    [ apply null_filtering_no_runtime_error
    | apply drop_duration_column_no_runtime_error
    | apply try_revert_no_runtime_error
    | apply and_then_no_runtime_error ].
Qed.

Lemma do_file_state_no_runtime_error (name : string) (d s l : float)
  (sf iqf : option (list bool)) :
  do_file_state mean std percentile cfg files name d s l sf iqf <> Raise RuntimeError.
Proof.
  unfold do_file_state.
  destruct (read_csv files name) as [csv0|e]; [|destruct e; discriminate].
  destruct (load_table csv0) as [csv2|e] eqn:El; cbn [bind].
  - destruct (filter_stages _ _ _ _ _ _ _ _ _ _) as [st|e st] eqn:Ef; [discriminate|].
    apply filter_stages_no_runtime_error in Ef. congruence.
  - apply load_table_raises in El. congruence.
Qed.

Lemma summarize_raises_key (n : nat) (df : DataFrame) (e : exn) :
  summarize mean std cfg n df = Raise e -> e = KeyError.
Proof.
  unfold summarize. intros H.
  destruct (map_result _ col_names) as [stats|e'] eqn:Em; cbn [bind] in H; [discriminate|].
  inversion H; subst. apply map_result_raises in Em. destruct Em as [item [_ Hi]].
  destruct (df_column df item) as [xs|e'] eqn:Ed; cbn [bind] in Hi; [discriminate|].
  inversion Hi; subst. now apply df_column_raises_key in Ed.
Qed.

Lemma do_file_raises (name : string) (d s l : float) (sf iqf : option (list bool)) :
  do_file mean std percentile cfg files name d s l sf iqf <> Raise RuntimeError.
Proof.
  unfold do_file.
  pose proof (do_file_state_no_runtime_error name d s l sf iqf) as Hs.
  destruct (do_file_state _ _ _ _ _ _ _ _ _ _ _) as [[[n st]|]|e]; cbn [bind];
    [|discriminate|congruence].
  intros H. apply summarize_raises_key in H. discriminate.
Qed.

Lemma store_raises (r : result (list pyvalue * list pyvalue)) :
  store r = Raise RuntimeError -> r = Raise RuntimeError.
Proof.
  unfold store, assign_row. destruct r as [out|e]; cbn [bind];
    [|intros H; now inversion H].
  destruct (Nat.eqb (List.length (fst out)) array_width); cbn [bind]; [|discriminate].
  destruct (Nat.eqb (List.length (snd out)) std_array_width); discriminate.
Qed.

Lemma control_rows_store (name : string) :
  control_rows mean std percentile cfg files name
  = store (do_file mean std percentile cfg files name 0%float 0%float 0%float
             (do_std_filter_flags cfg) (do_iqr_filter_flags cfg)).
Proof.
  unfold control_rows.
  destruct (store _) as [row|e] eqn:Es; [reflexivity|].
  destruct e; try reflexivity.
  apply store_raises in Es. now apply do_file_raises in Es.
Qed.

(** X6: no [RuntimeError] leaves the reading, filtering and summarizing
    steps of [do_file], whatever the file, thresholds, flags and settings
    and whatever numpy's percentile raises: the one raised by [pd.read_csv]
    and the overfiltering errors are caught inside, and whatever the steps
    outside a [try] raise is not a [RuntimeError].  So in the control
    branch of the file loop the [except RuntimeError] handler is never
    entered for these steps, and the branch stores what [do_file]
    returned. *)
Theorem no_runtime_error_leaves_do_file (name : string) (d s l : float)
  (sf iqf : option (list bool)) :
  do_file mean std percentile cfg files name d s l sf iqf <> Raise RuntimeError
  /\ control_rows mean std percentile cfg files name
     = store (do_file mean std percentile cfg files name 0%float 0%float 0%float
                (do_std_filter_flags cfg) (do_iqr_filter_flags cfg)).
Proof.
  split; [apply do_file_raises | apply control_rows_store].
Qed.

(** *** A completed file loop *)

Lemma store_ok (r : result (list pyvalue * list pyvalue)) (row : list float * list float) :
  store r = Ok row ->
  exists out,
    r = Ok out /\
    List.length (fst out) = array_width /\
    List.length (fst row) = array_width /\
    List.length (snd row) = std_array_width.
Proof.
  unfold store, assign_row. destruct r as [out|e]; cbn [bind]; [|discriminate].
  destruct (Nat.eqb (List.length (fst out)) array_width) eqn:E1; cbn [bind];
    [|discriminate].
  destruct (Nat.eqb (List.length (snd out)) std_array_width) eqn:E2; cbn [bind];
    [|discriminate].
  intros H. inversion H; subst. cbn [fst snd]. rewrite !length_map.
  apply Nat.eqb_eq in E1, E2. eauto.
Qed.

Lemma stored_file_was_read (name : string) (d s l : float) (sf iqf : option (list bool))
  (row : list float * list float) :
  store (do_file mean std percentile cfg files name d s l sf iqf) = Ok row ->
  (exists hb, files name = Ok hb) /\
  List.length (fst row) = array_width /\
  List.length (snd row) = std_array_width.
Proof.
  intros H. apply store_ok in H. destruct H as (out & Hd & Hw & Ha & Hs).
  split; [|auto]. apply do_file_inv in Hd.
  destruct Hd as [[_ Ho]|(n & st & Hst & _)].
  - subst out. discriminate Hw.
  - apply do_file_state_inv in Hst. destruct Hst as (csv0 & _ & Hread & _).
    unfold read_csv in Hread. destruct (files name) as [hb|e]; [eauto | discriminate].
Qed.

Lemma analyze_files_ok (has_control : bool) (names : list string) :
  forall i g table,
    analyze_files mean std percentile cfg files has_control i names g = Ok table ->
    List.length table = List.length names /\
    (forall row, In row table ->
       List.length (fst row) = array_width /\ List.length (snd row) = std_array_width) /\
    (forall name, In name names -> exists hb, files name = Ok hb).
Proof.
  induction names as [|name rest IH]; intros i g table H.
  - inversion H. split; [reflexivity|]. split; intros x [].
  - cbn [analyze_files] in H.
    destruct (Nat.eqb i 0 && has_control).
    + destruct (control_rows mean std percentile cfg files name) as [row0|e] eqn:Ec;
        cbn [bind] in H; [|discriminate].
      destruct (analyze_files _ _ _ _ _ _ _ rest _) as [more|e] eqn:Em;
        cbn [bind] in H; [|discriminate].
      inversion H; subst. apply IH in Em. destruct Em as (Hl & Hw & Hr).
      rewrite control_rows_store in Ec.
      apply stored_file_was_read in Ec. destruct Ec as (Hread & Ha & Hs).
      split; [simpl; congruence|]. split.
      * intros row [<-|Hin]; auto.
      * intros x [<-|Hin]; auto.
    + destruct (store _) as [row|e] eqn:Es; cbn [bind] in H; [|discriminate].
      destruct (analyze_files _ _ _ _ _ _ _ rest _) as [more|e] eqn:Em;
        cbn [bind] in H; [|discriminate].
      inversion H; subst. apply IH in Em. destruct Em as (Hl & Hw & Hr).
      apply stored_file_was_read in Es. destruct Es as (Hread & Ha & Hs).
      split; [simpl; congruence|]. split.
      * intros row0 [<-|Hin]; auto.
      * intros x [<-|Hin]; auto.
Qed.

(** X7: when the file loop of [main] runs to its end, every file of
    [names] was read by [pd.read_csv], [array] and [std_array] hold one row
    per file, and every row of [array] has ten entries and every row of
    [std_array] seven: a file [do_file] could not read never leaves a row of
    missing values behind, the loop stops at it. *)
Theorem completed_loop_read_every_file (has_control : bool) (names : list string)
  (table : list (list float * list float)) :
  main_loop mean std percentile cfg files has_control names = Ok table ->
  List.length table = List.length names /\
  (forall row, In row table ->
     List.length (fst row) = 10 /\ List.length (snd row) = 7) /\
  (forall name, In name names -> exists hb, files name = Ok hb).
Proof. unfold main_loop. apply analyze_files_ok. Qed.

(** X8: without a control file the first file is analysed with the three
    thresholds at 0, and every later file with displacement and linearity
    thresholds 0 and with the speed threshold
    [brownian_speed_threshold_fallback] when [do_speed_thresh_fallback] is
    set, 0 otherwise: the fallback never applies to the first file. *)
Theorem thresholds_without_control (first : string) (others : list string) :
  main_loop mean std percentile cfg files false (first :: others)
  = (row <- store (do_file mean std percentile cfg files first
                     0%float 0%float 0%float
                     (do_std_filter_flags cfg) (do_iqr_filter_flags cfg)) ;;
     more <- map_result
               (fun name =>
                  store (do_file mean std percentile cfg files name
                           0%float
                           (if do_speed_thresh_fallback cfg
                            then brownian_speed_threshold_fallback cfg
                            else 0%float)
                           0%float
                           (do_std_filter_flags cfg) (do_iqr_filter_flags cfg)))
               others ;;
     Ok (row :: more)).
Proof.
  unfold main_loop. cbn [analyze_files Nat.eqb andb].
  destruct (store _) as [row|e]; cbn [bind]; [|reflexivity].
  rewrite analyze_files_after_first.
  destruct (do_speed_thresh_fallback cfg); reflexivity.
Qed.

End Quiet.

Lemma completed_loop_read_every_file_witness :
  exists table,
    main_loop np_mean np_std np_percentile default_settings two_speed_folder false
      ["1khz.csv"] = Ok table
    /\ List.length table = 1
    /\ (forall row, In row table ->
          List.length (fst row) = 10 /\ List.length (snd row) = 7)
    /\ (forall name, In name ["1khz.csv"] -> exists hb, two_speed_folder name = Ok hb).
Proof.
  eexists. split; [vm_compute; reflexivity|].
  apply (completed_loop_read_every_file np_mean np_std np_percentile default_settings
           two_speed_folder false ["1khz.csv"]).
  vm_compute. reflexivity.
Defined.

(** ** The files [main] analyses *)

Section Names.

Variable fix_names : list string -> list (option string).

Lemma found_files_ok (found : list (option string)) (r : bool * list string) :
  found_files found = Ok r ->
  exists first rest,
    found = first :: rest /\ r = (is_some first, drop_none (first :: rest)).
Proof.
  unfold found_files, py_index. destruct found as [|first rest]; simpl; [discriminate|].
  intros H. inversion H. eauto.
Qed.

(** X9: when the name selection of [main] succeeds, the names are the
    matches of [patterns], or of [fallback_patterns] when [patterns]
    matched no file, with the missing ones left out; there is at least one
    name; [has_control] tells whether the first pattern (the control
    pattern) had a match, and when it had, that match is the first name. *)
Theorem selected_names (has_control : bool) (names : list string) :
  select_names fix_names = Ok (has_control, names) ->
  exists pats first rest,
    (pats = patterns
     \/ (pats = fallback_patterns /\ drop_none (fix_names patterns) = [])) /\
    fix_names pats = first :: rest /\
    names = drop_none (first :: rest) /\
    names <> [] /\
    has_control = is_some first /\
    (has_control = true -> hd_error names = first).
Proof.
  unfold select_names. intros H.
  destruct (found_files (fix_names patterns)) as [r1|e] eqn:E1; cbn [bind] in H;
    [|discriminate].
  apply found_files_ok in E1. destruct E1 as (f1 & rest1 & Hf1 & ->).
  cbn [snd] in H.
  assert (Hend : forall pats first rest,
            fix_names pats = first :: rest ->
            (if Nat.eqb (List.length (drop_none (first :: rest))) 0
             then Raise RuntimeError
             else Ok (is_some first, drop_none (first :: rest)))
            = Ok (has_control, names) ->
            fix_names pats = first :: rest /\
            names = drop_none (first :: rest) /\
            names <> [] /\
            has_control = is_some first /\
            (has_control = true -> hd_error names = first)).
  { clear. intros pats first rest Hf H.
    destruct (drop_none (first :: rest)) as [|n ns] eqn:Ed; cbn in H; [discriminate|].
    inversion H; subst. repeat split; auto; [discriminate|].
    destruct first as [c|]; cbn; [|discriminate].
    intros _. cbn in Ed. now inversion Ed. }
  destruct (Nat.eqb (List.length (drop_none (f1 :: rest1))) 0) eqn:En.
  - destruct (found_files (fix_names fallback_patterns)) as [r2|e] eqn:E2;
      cbn [bind] in H; [|discriminate].
    apply found_files_ok in E2. destruct E2 as (f2 & rest2 & Hf2 & ->).
    cbn [snd] in H. exists fallback_patterns, f2, rest2. split; [|now apply Hend].
    right. split; [reflexivity|]. rewrite Hf1. apply Nat.eqb_eq in En.
    now destruct (drop_none (f1 :: rest1)).
  - cbn [bind snd] in H. rewrite En in H.
    exists patterns, f1, rest1. split; [now left|]. apply (Hend patterns); [assumption|].
    now rewrite En.
Qed.

End Names.

Lemma selected_names_witness :
  exists pats first rest,
    (pats = patterns
     \/ (pats = fallback_patterns /\ drop_none (two_matches patterns) = [])) /\
    two_matches pats = first :: rest /\
    ["0khz.csv"; "1khz.csv"] = drop_none (first :: rest) /\
    ["0khz.csv"; "1khz.csv"] <> [] /\
    true = is_some first /\
    (true = true -> hd_error ["0khz.csv"; "1khz.csv"] = first).
Proof.
  apply (selected_names two_matches true ["0khz.csv"; "1khz.csv"]).
  vm_compute. reflexivity.
Defined.

(** ** The label of a file *)

Lemma prefix_contains (sub s : string) : String.prefix sub s = true -> contains sub s = true.
Proof. intros H. destruct s; simpl in *; now rewrite H. Qed.

Lemma contains_tail (c : Ascii.ascii) (sub s : string) :
  contains (String c sub) s = true -> contains sub s = true.
Proof.
  induction s as [|a s IH]; intros H.
  - simpl in H. discriminate.
  - cbn [contains] in H. apply orb_true_iff in H. destruct H as [H|H].
    + cbn [String.prefix] in H.
      destruct (Ascii.ascii_dec c a); [|discriminate].
      cbn [contains]. apply orb_true_iff. right. now apply prefix_contains.
    + cbn [contains]. apply orb_true_iff. right. now apply IH.
Qed.

(** X10: the label chain of [do_file] tests substrings in a fixed order
    and has no case for 75, 150 and 300 kHz, which [patterns] selects.  A
    name with none of [800hz], [0.8khz], [1khz], [25khz] in it gets, when it
    contains [75khz], the label of 5 kHz; when it contains [150khz] and no
    [5khz] or [10khz], the label of 50 kHz; when it contains [300khz] and
    none of the frequencies tested before the control, the label 0.0 of
    the control. *)
Theorem unlisted_frequencies_take_another_label (name : string) :
  contains "800hz" name = false ->
  contains "0.8khz" name = false ->
  contains "1khz" name = false ->
  contains "25khz" name = false ->
  (contains "75khz" name = true -> label_of name = "5000.0") /\
  (contains "150khz" name = true ->
   contains "5khz" name = false ->
   contains "10khz" name = false ->
   label_of name = "50000.0") /\
  (contains "300khz" name = true ->
   contains "5khz" name = false ->
   contains "10khz" name = false ->
   contains "50khz" name = false ->
   contains "100khz" name = false ->
   contains "200khz" name = false ->
   label_of name = "0.0").
Proof.
  intros H800 H08 H1 H25. unfold label_of. rewrite H800, H08, H1, H25. cbn [orb].
  split; [|split].
  - intros H. apply contains_tail in H. now rewrite H.
  - intros H H5 H10. apply contains_tail in H. now rewrite H5, H10, H.
  - intros H H5 H10 H50 H100 H200. do 2 apply contains_tail in H.
    now rewrite H5, H10, H50, H100, H200, H.
Qed.

Lemma unlisted_frequencies_take_another_label_witness :
  label_of "t75khz_tracks.csv" = "5000.0".
Proof.
  apply (unlisted_frequencies_take_another_label "t75khz_tracks.csv");
    vm_compute; reflexivity.
Defined.

(** ** The std and IQR stages with every flag off *)

Lemma unflagged_index (flags : list bool) (i : nat) :
  Forall (fun b => b = false) flags -> i < List.length flags ->
  py_index flags i = Ok false.
Proof.
  intros Hall Hi. unfold py_index.
  destruct (nth_error flags i) as [b|] eqn:E.
  - apply nth_error_In in E. rewrite Forall_forall in Hall. now rewrite (Hall b E).
  - apply nth_error_None in E. lia.
Qed.

Lemma zeros_index (n i : nat) : i < n -> py_index (repeat 0%float n) i = Ok 0%float.
Proof. intros H. unfold py_index. now rewrite nth_error_repeat. Qed.

Lemma flagged_values_unflagged (stat : list float -> float) (flags : list bool)
  (df : DataFrame) (cols : list string) : forall i,
  Forall (fun b => b = false) flags ->
  i + List.length cols <= List.length flags ->
  flagged_values stat flags df i cols = Ok (repeat 0%float (List.length cols)).
Proof.
  induction cols as [|c cols IH]; intros i Hall Hlen; [reflexivity|].
  cbn [flagged_values List.length repeat]. cbn [List.length] in Hlen.
  rewrite unflagged_index by (auto; lia). cbn [bind].
  rewrite IH by (auto; lia). reflexivity.
Qed.

Lemma iqr_values_from_unflagged (percentile : list float -> float -> result float)
  (flags : list bool) (df : DataFrame) (cols : list string) : forall i,
  Forall (fun b => b = false) flags ->
  i + List.length cols <= List.length flags ->
  iqr_values_from percentile flags df i cols = Ok (repeat 0%float (List.length cols)).
Proof.
  induction cols as [|c cols IH]; intros i Hall Hlen; [reflexivity|].
  cbn [iqr_values_from List.length repeat]. cbn [List.length] in Hlen.
  rewrite unflagged_index by (auto; lia). cbn [bind].
  rewrite IH by (auto; lia). reflexivity.
Qed.

Lemma iqr_mean_values_unflagged (mean : list float -> float) (flags : list bool)
  (df : DataFrame) :
  Forall (fun b => b = false) flags ->
  List.length flags = List.length (columns df) ->
  iqr_mean_values mean flags df = Ok (repeat 0%float (List.length (columns df))).
Proof.
  intros Hall Hlen. unfold iqr_mean_values.
  assert (Hi : columns df = []
               \/ py_index flags (List.length (columns df) - 1) = Ok false).
  { destruct (columns df) as [|c cols]; [now left | right].
    apply unflagged_index; [assumption|]. rewrite Hlen. simpl. lia. }
  destruct Hi as [E|Hi]; [now rewrite E|].
  cbv zeta. rewrite Hi. cbn [bind].
  generalize (columns df) as l. induction l as [|x l IH]; [reflexivity|].
  cbn [map_result List.length repeat bind]. now rewrite IH.
Qed.

Lemma scan_row_zeros (k t : float) (flags : list bool) (n : nat) (raw_list : list float) :
  (0 - k * 0)%float = 0%float ->
  Forall (fun b => b = false) flags ->
  n <= List.length flags ->
  forall i, i + List.length raw_list <= n ->
  exists v,
    scan_row k t flags (repeat 0%float n) (repeat 0%float n) i raw_list = Ok v /\
    is_drop v = existsb (fun x => (x <? 0)%float) raw_list.
Proof.
  intros Hk Hall Hn. induction raw_list as [|x rest IH]; intros i Hi.
  - exists Keep. split; reflexivity.
  - cbn [List.length] in Hi. cbn [scan_row existsb].
    rewrite zeros_index by lia. cbn [bind]. rewrite Hk.
    destruct (x <? 0)%float.
    + eexists. split; reflexivity.
    + destruct (IH (S i)) as (v & Hv & Hd); [lia|].
      exists v. cbn [orb]. split; [|assumption].
      destruct (t =? 0)%float; [|assumption].
      rewrite unflagged_index by (auto; lia). cbn [bind andb]. assumption.
Qed.

Lemma scan_test_zeros (k t : float) (flags : list bool) (n : nat) (cols : list string)
  (r : Row) :
  (0 - k * 0)%float = 0%float ->
  Forall (fun b => b = false) flags ->
  n <= List.length flags ->
  List.length (snd r) <= n ->
  scan_test k t flags (repeat 0%float n) (repeat 0%float n) cols r = has_negative cols r.
Proof.
  intros Hk Hall Hn Hr. unfold scan_test, has_negative.
  destruct (scan_row_zeros k t flags n (snd r) Hk Hall Hn 0) as (v & Hv & Hd); [lia|].
  rewrite Hv. cbn [bind]. now rewrite Hd.
Qed.

(** A row loop depends on its test through the rows of the table only. *)
Lemma for_rows_ext (test test' : list string -> Row -> result bool)
  (reason : option string) (cols : list string) (entry : list Row) :
  (forall r, In r entry -> test cols r = test' cols r) ->
  forall s0,
    for_rows (drop_body test reason cols) entry s0
    = for_rows (drop_body test' reason cols) entry s0.
Proof.
  induction entry as [|r rs IH]; intros H s0; [reflexivity|].
  cbn [for_rows].
  assert (Hb : drop_body test reason cols r s0 = drop_body test' reason cols r s0).
  { unfold drop_body. now rewrite (H r (or_introl eq_refl)). }
  rewrite Hb. destruct (drop_body test' reason cols r s0); cbn [and_then]; [|reflexivity].
  apply IH. intros x Hx. apply H. now right.
Qed.

Lemma drop_where_ext (test test' : list string -> Row -> result bool)
  (reason : option string) (st : state) :
  (forall r, In r (rows (csv st)) -> test (columns (csv st)) r = test' (columns (csv st)) r) ->
  drop_where test reason st = drop_where test' reason st.
Proof. intros H. unfold drop_where. now apply for_rows_ext. Qed.

Lemma guard_rows_ext (f g : Row -> bool) (l : list Row) :
  (forall r, f r = g r) -> guard_rows f l = guard_rows g l.
Proof. intros H. unfold guard_rows. now rewrite (filter_ext f g H). Qed.

Lemma has_negative_raises_only_key : raises_only_key has_negative.
Proof. intros cols r e H. discriminate H. Qed.

Section Unflagged.

Variable mean : list float -> float.
Variable std : list float -> float.
Variable percentile : list float -> float -> result float.

Lemma std_filter_unflagged (t : float) (flags : list bool) (st : state) :
  Forall (fun b => b = false) flags ->
  List.length flags = List.length (columns (csv st)) ->
  rectangular (csv st) ->
  std_filter mean std t (Some flags) st
  = drop_where has_negative (Some "INTERNAL_STD_FILTERING") st.
Proof.
  intros Hall Hlen Hrect. unfold std_filter.
  rewrite !flagged_values_unflagged by (auto; simpl; lia). cbn [lift].
  apply drop_where_ext. intros r Hr.
  apply scan_test_zeros; [reflexivity | assumption | lia | rewrite (Hrect r Hr); lia].
Qed.

Lemma iqr_filter_unflagged (t : float) (flags : list bool) (st : state) :
  Forall (fun b => b = false) flags ->
  List.length flags = List.length (columns (csv st)) ->
  rectangular (csv st) ->
  iqr_filter mean percentile t (Some flags) st
  = drop_where has_negative (Some "INTERNAL_IQR_FILTERING") st.
Proof.
  intros Hall Hlen Hrect. unfold iqr_filter. rewrite Hlen, Nat.eqb_refl.
  rewrite iqr_values_from_unflagged by (auto; simpl; lia). cbn [lift].
  rewrite iqr_mean_values_unflagged by auto. cbn [lift].
  apply drop_where_ext. intros r Hr.
  apply scan_test_zeros; [reflexivity | assumption | lia | rewrite (Hrect r Hr); lia].
Qed.

(** X11: with every flag [False], the std stage and the IQR stage are not
    switched off: on a table with one flag per column they drop every row
    that has a negative cell in any column, and nothing else (the guard
    restores the table when every row has one).  The thresholds they
    compare against are [0.0 - 2 * 0.0] and [0.0 - 1.5 * 0.0]. *)
Theorem unflagged_stages_drop_negative_rows (stage : state -> outcome) (t : float)
  (flags : list bool) (st st' : state) :
  In stage [std_filter mean std t (Some flags);
            iqr_filter mean percentile t (Some flags)] ->
  Forall (fun b => b = false) flags ->
  List.length flags = List.length (columns (csv st)) ->
  rectangular (csv st) ->
  NoDup (labels (csv st)) ->
  guarded stage st = Normal st' ->
  csv st'
  = mkDataFrame (columns (csv st))
      (guard_rows (fun r => negb (existsb (fun x => (x <? 0)%float) (snd r)))
         (rows (csv st))).
Proof.
  intros Hin Hall Hlen Hrect Hnd H.
  assert (Hs : exists rsn,
             stage (take_backup st) = drop_where has_negative (Some rsn) (take_backup st)).
  { destruct Hin as [<-|[<-|[]]].
    - eexists. now apply std_filter_unflagged.
    - eexists. now apply iqr_filter_unflagged. }
  destruct Hs as [rsn Hs].
  assert (H' : guarded (drop_where has_negative (Some rsn)) st = Normal st').
  { unfold guarded, try_revert in *. now rewrite <- Hs. }
  destruct (guarded_threshold_normal has_negative rsn has_negative_raises_only_key
              true (drop_where has_negative (Some rsn)) (fun _ => eq_refl) st st' Hnd H')
    as (Hc & _).
  rewrite Hc. f_equal. apply guard_rows_ext. intros r.
  unfold kept_by, marked, has_negative. cbn [andb].
  now destruct (existsb _ (snd r)).
Qed.

End Unflagged.

Lemma unflagged_stages_drop_negative_rows_witness :
  exists st',
    guarded (std_filter np_mean np_std 1%float (Some (repeat false 7)))
      negative_displacement_state = Normal st'
    /\ csv st'
       = mkDataFrame col_names [(4, [1; 1; 1; 1; 1; 7; 1]%float)].
Proof.
  eexists. split; [vm_compute; reflexivity|].
  rewrite (unflagged_stages_drop_negative_rows np_mean np_std np_percentile
             (std_filter np_mean np_std 1%float (Some (repeat false 7))) 1%float
             (repeat false 7) negative_displacement_state _).
  - vm_compute. reflexivity.
  - simpl. tauto.
  - repeat constructor.
  - reflexivity.
  - intros r Hr. vm_compute in Hr. destruct Hr as [<-|[<-|[]]]; reflexivity.
  - vm_compute. repeat constructor; simpl; intuition discriminate.
  - vm_compute. reflexivity.
Defined.

(** ** The summary of a file that was read *)

Section Summary.

Variable mean : list float -> float.
Variable std : list float -> float.
Variable percentile : list float -> float -> result float.
Variable cfg : settings.
Variable files : string -> result (list string * list (list float)).

Lemma summarize_entries (initial_num_rows : nat) (df : DataFrame)
  (output_data output_std : list pyvalue) :
  summarize mean std cfg initial_num_rows df = Ok (output_data, output_std) ->
  (forall v, In v output_std -> exists f, v = PyFloat f) /\
  (nth 8 output_data PyNone = PyInt 0 ->
   forall i, i < 7 \/ i = 9 -> nth i output_data (PyInt 0) = PyNone) /\
  (nth 8 output_data PyNone <> PyInt 0 ->
   (forall i, i < 7 -> exists f, nth i output_data PyNone = PyFloat f) /\
   exists speed,
     nth 5 output_data PyNone = PyFloat speed /\
     nth 9 output_data PyNone = PyFloat (speed * conversion cfg)%float).
Proof.
  intros H. unfold summarize, col_names in H. cbn [map_result] in H.
  destruct (df_column df "TRACK_DISPLACEMENT") as [c0|e]; [|discriminate].
  destruct (df_column df "TRACK_MEAN_SPEED") as [c1|e]; [|discriminate].
  destruct (df_column df "TRACK_MEDIAN_SPEED") as [c2|e]; [|discriminate].
  destruct (df_column df "TRACK_MEAN_QUALITY") as [c3|e]; [|discriminate].
  destruct (df_column df "TOTAL_DISTANCE_TRAVELED") as [c4|e]; [|discriminate].
  destruct (df_column df "MEAN_STRAIGHT_LINE_SPEED") as [c5|e]; [|discriminate].
  destruct (df_column df "LINEARITY_OF_FORWARD_PROGRESSION") as [c6|e]; [|discriminate].
  destruct (rows df) as [|r rest]; cbn in H; inversion H; subst; clear H.
  - split; [|split].
    + intros v Hv. cbn in Hv. repeat (destruct Hv as [<-|Hv]; [eauto|]). contradiction.
    + intros _ i Hi.
      destruct i as [|[|[|[|[|[|[|[|[|[|i]]]]]]]]]]; try reflexivity; lia.
    + intros Hn. now contradiction Hn.
  - split; [|split].
    + intros v Hv. cbn in Hv. repeat (destruct Hv as [<-|Hv]; [eauto|]). contradiction.
    + intros Hn. cbn in Hn. discriminate.
    + intros _. split; [|eexists; split; reflexivity].
      intros i Hi.
      destruct i as [|[|[|[|[|[|[|i]]]]]]]; cbn; eauto; lia.
Qed.

(** X12: once [pd.read_csv] succeeded, the summary [do_file] returns has
    no [None] among the seven standard deviations, whatever is left of the
    table; the seven means and the speed in micrometres are [None] when the
    filtered track count is 0, and otherwise the means are numbers and the
    speed in micrometres is the mean MEAN_STRAIGHT_LINE_SPEED times
    [conversion]. *)
Theorem summary_of_a_read_file (name : string) (d s l : float)
  (sf iqf : option (list bool)) (output_data output_std : list pyvalue) :
  do_file mean std percentile cfg files name d s l sf iqf = Ok (output_data, output_std) ->
  List.length output_data = 10 ->
  (forall v, In v output_std -> exists f, v = PyFloat f) /\
  (nth 8 output_data PyNone = PyInt 0 ->
   forall i, i < 7 \/ i = 9 -> nth i output_data (PyInt 0) = PyNone) /\
  (nth 8 output_data PyNone <> PyInt 0 ->
   (forall i, i < 7 -> exists f, nth i output_data PyNone = PyFloat f) /\
   exists speed,
     nth 5 output_data PyNone = PyFloat speed /\
     nth 9 output_data PyNone = PyFloat (speed * conversion cfg)%float).
Proof.
  intros H Hlen. apply do_file_inv in H.
  destruct H as [[_ Ho]|(n & st & _ & Hsum)].
  - inversion Ho; subst. discriminate Hlen.
  - now apply summarize_entries in Hsum.
Qed.

End Summary.

Lemma summary_of_a_read_file_witness :
  exists output_data output_std,
    do_file np_mean np_std np_percentile default_settings two_speed_folder
      "1khz.csv" 1%float 0%float 0%float None None = Ok (output_data, output_std)
    /\ (forall v, In v output_std -> exists f, v = PyFloat f)
    /\ nth 8 output_data PyNone = PyInt 2
    /\ exists speed,
         nth 5 output_data PyNone = PyFloat speed /\
         nth 9 output_data PyNone
         = PyFloat (speed * conversion default_settings)%float.
Proof.
  eexists. eexists. split; [vm_compute; reflexivity|].
  destruct (summary_of_a_read_file np_mean np_std np_percentile default_settings
              two_speed_folder "1khz.csv" 1%float 0%float 0%float None None
              _ _ eq_refl eq_refl) as (Hstd & _ & Hsome).
  split; [exact Hstd|]. split; [reflexivity|].
  apply Hsome. discriminate.
Defined.

(** ** [do_file] on a well-formed file *)

Lemma index_of_In (name : string) (cols : list string) :
  In name cols -> exists i, index_of name cols = Some i /\ i < List.length cols.
Proof.
  induction cols as [|c cs IH]; intros H; [contradiction|].
  cbn [index_of List.length]. destruct (String.eqb c name) eqn:E.
  - exists 0. split; [reflexivity | lia].
  - destruct H as [H|H]; [subst; now rewrite String.eqb_refl in E|].
    destruct (IH H) as (i & Hi & Hlt). exists (S i). rewrite Hi. split; [reflexivity | lia].
Qed.

Lemma cell_readable (df : DataFrame) (name : string) (r : Row) :
  rectangular df -> In r (rows df) -> In name (columns df) ->
  exists v, cell name (columns df) r = Ok v.
Proof.
  intros Hrect Hr Hn. unfold cell, series_get.
  destruct (index_of_In name (columns df) Hn) as (i & Hi & Hlt). rewrite Hi.
  rewrite <- (Hrect r Hr) in Hlt. apply nth_error_Some in Hlt.
  destruct (nth_error (snd r) i) as [v|]; [eauto | contradiction].
Qed.

Lemma usable_speed_column (df : DataFrame) :
  usable df -> In "MEAN_STRAIGHT_LINE_SPEED" (columns df).
Proof. intros (_ & _ & Hc). apply Hc. unfold col_names. simpl. tauto. Qed.

Lemma below_readable (df : DataFrame) (name : string) (t : float) :
  usable df -> In name (columns df) ->
  readable (below name t) (columns df) (rows df).
Proof.
  intros Hu Hn r Hr. pose proof Hu as (_ & Hrect & _). split.
  - destruct (cell_readable df name r Hrect Hr Hn) as [v Hv].
    unfold below. rewrite Hv. cbn [bind]. eauto.
  - intros _. apply (cell_readable df "MEAN_STRAIGHT_LINE_SPEED" r Hrect Hr).
    now apply usable_speed_column.
Qed.

Lemma fails_duration_readable (cfg : settings) (df : DataFrame) :
  usable df -> In "TRACK_DURATION" (columns df) ->
  readable (fails_duration cfg) (columns df) (rows df).
Proof.
  intros Hu Hn r Hr. pose proof Hu as (_ & Hrect & _). split.
  - destruct (cell_readable df "TRACK_DURATION" r Hrect Hr Hn) as [v Hv].
    unfold fails_duration. rewrite Hv. cbn [bind]. eauto.
  - intros _. apply (cell_readable df "MEAN_STRAIGHT_LINE_SPEED" r Hrect Hr).
    now apply usable_speed_column.
Qed.

Lemma part_of_usable (df' df : DataFrame) : part_of df' df -> usable df -> usable df'.
Proof.
  intros Hp (Hnd & Hrect & Hc).
  destruct (part_of_labels df' df Hp Hnd) as [Hnd' _].
  destruct Hp as (Hcols & keep & Hr). split; [assumption|]. split.
  - intros r Hin. rewrite Hr in Hin. apply filter_In in Hin. rewrite Hcols.
    now apply Hrect.
  - now rewrite Hcols.
Qed.

Lemma select_length {A B : Type} (mask : list bool) : forall (l1 : list A) (l2 : list B),
  List.length l1 = List.length l2 ->
  List.length (select mask l1) = List.length (select mask l2).
Proof.
  induction mask as [|b mask IH]; intros l1 l2 H; [reflexivity|].
  destruct l1 as [|x l1], l2 as [|y l2]; try discriminate; [reflexivity|].
  cbn [select]. injection H as H. destruct b; cbn [List.length]; auto.
Qed.

Lemma keep_columns_rectangular (keep : string -> bool) (df : DataFrame) :
  rectangular df -> rectangular (keep_columns keep df).
Proof.
  intros Hrect r Hr. unfold keep_columns in *. cbn [rows columns] in *.
  apply in_map_iff in Hr. destruct Hr as (r0 & <- & Hr0). cbn [snd].
  apply select_length. now apply Hrect.
Qed.

Lemma skipn_cons_nth {A : Type} (l : list A) : forall i x t,
  skipn i l = x :: t -> nth_error l i = Some x /\ skipn (S i) l = t.
Proof.
  induction l as [|a l IH]; intros i x t H.
  - destruct i; discriminate.
  - destruct i as [|i]; cbn in H.
    + inversion H; subst. split; reflexivity.
    + apply IH in H. exact H.
Qed.

Lemma check_column_order_ok (items : list string) : forall i,
  filter (fun c => negb (String.eqb c "TRACK_DURATION")) items = skipn i col_names ->
  check_column_order items i = Ok tt.
Proof.
  induction items as [|item rest IH]; intros i H; [reflexivity|].
  cbn [check_column_order filter] in *.
  destruct (String.eqb item "TRACK_DURATION"); cbn [negb] in H; [now apply IH|].
  symmetry in H. apply skipn_cons_nth in H. destruct H as [Hn Hs].
  unfold py_index. rewrite Hn. cbn [bind]. rewrite String.eqb_refl.
  apply IH. now symmetry.
Qed.

Lemma series_get_cons_neq (c name : string) (cs : list string) (x : float)
  (xs : list float) :
  String.eqb c name = false ->
  series_get (c :: cs) (x :: xs) name = series_get cs xs name.
Proof.
  intros E. unfold series_get. cbn [index_of]. rewrite E.
  now destruct (index_of name cs).
Qed.

(** Dropping columns does not change what a kept column holds. *)
Lemma series_get_select (keep : string -> bool) (name : string) (cols : list string) :
  keep name = true ->
  forall cells, List.length cells = List.length cols ->
  series_get (select (map keep cols) cols) (select (map keep cols) cells) name
  = series_get cols cells name.
Proof.
  intros Hk. induction cols as [|c cs IH]; intros cells Hlen.
  - destruct cells; reflexivity.
  - destruct cells as [|x xs]; [discriminate|]. injection Hlen as Hlen.
    cbn [map select]. destruct (String.eqb c name) eqn:E.
    + apply String.eqb_eq in E. subst c. rewrite Hk.
      unfold series_get. cbn [index_of]. now rewrite String.eqb_refl.
    + rewrite (series_get_cons_neq c name cs x xs E).
      destruct (keep c); [rewrite series_get_cons_neq by exact E|]; now apply IH.
Qed.

Lemma nth_error_in_combine_seq {A : Type} (l : list A) : forall start i a,
  nth_error l i = Some a -> In (start + i, a) (combine (seq start (List.length l)) l).
Proof.
  induction l as [|x l IH]; intros start i a H; [destruct i; discriminate|].
  cbn [List.length seq combine]. destruct i as [|i]; cbn in H.
  - inversion H; subst. left. f_equal. lia.
  - right. replace (start + S i) with (S start + i) by lia. now apply IH.
Qed.

Lemma kept_without_duration (hdr : list string) :
  filter (fun c => negb (String.eqb c "TRACK_DURATION"))
    (filter (fun c => mem_string c col_names || String.eqb c "TRACK_DURATION") hdr)
  = filter (fun c => mem_string c col_names) hdr.
Proof.
  rewrite filter_twice. apply filter_ext. intros c.
  destruct (String.eqb_spec c "TRACK_DURATION") as [->|_]; [reflexivity|].
  now rewrite orb_false_r, andb_true_r.
Qed.

Lemma map_result_total {A B : Type} (f : A -> result B) (l : list A) :
  (forall a, In a l -> exists b, f a = Ok b) -> exists bs, map_result f l = Ok bs.
Proof.
  induction l as [|a l IH]; intros H; [now exists []|].
  destruct (H a (or_introl eq_refl)) as [b Hb].
  destruct IH as [bs Hbs]; [intros x Hx; apply H; now right|].
  exists (b :: bs). cbn [map_result]. now rewrite Hb, Hbs.
Qed.

Lemma df_column_total (df : DataFrame) (name : string) :
  rectangular df -> In name (columns df) -> exists xs, df_column df name = Ok xs.
Proof.
  intros Hrect Hn. unfold df_column.
  destruct (index_of_In name (columns df) Hn) as (i & Hi & _). rewrite Hi.
  apply map_result_total. intros r Hr. now apply cell_readable.
Qed.

Section Totality.

Variable mean : list float -> float.
Variable std : list float -> float.
Variable percentile : list float -> float -> result float.
Variable cfg : settings.
Variable files : string -> result (list string * list (list float)).

Lemma summarize_total (n : nat) (df : DataFrame) :
  usable df -> exists out, summarize mean std cfg n df = Ok out.
Proof.
  intros (_ & Hrect & Hc). unfold summarize.
  destruct (map_result
              (fun item => xs <- df_column df item ;; Ok (mean xs, std xs)) col_names)
    as [stats|e] eqn:Em; cbn [bind]; [eauto|].
  apply map_result_raises in Em. destruct Em as (item & Hin & Hi).
  destruct (df_column_total df item Hrect (Hc item Hin)) as [xs Hxs].
  rewrite Hxs in Hi. discriminate.
Qed.

Lemma load_table_total (hdr : list string) (body : list (list float)) :
  filter (fun c => mem_string c col_names) hdr = col_names ->
  (forall line, In line body -> List.length line = List.length hdr) ->
  3 <= List.length body ->
  exists csv2,
    load_table (mkDataFrame hdr (combine (seq 0 (List.length body)) body)) = Ok csv2 /\
    usable csv2 /\
    columns csv2
    = filter (fun c => mem_string c col_names || String.eqb c "TRACK_DURATION") hdr /\
    forall i line,
      3 <= i -> nth_error body i = Some line ->
      In (i, select (map (fun c => mem_string c col_names
                                   || String.eqb c "TRACK_DURATION") hdr) line)
        (rows csv2).
Proof.
  intros Hcols Hrect Hlen.
  set (csv0 := mkDataFrame hdr (combine (seq 0 (List.length body)) body)).
  set (keep := fun c => mem_string c col_names || String.eqb c "TRACK_DURATION").
  assert (Hk : columns (keep_columns keep csv0) = filter keep hdr).
  { unfold keep_columns. cbn [columns csv0]. apply select_map_filter. }
  assert (Hrect0 : rectangular csv0).
  { intros r Hr. cbn [csv0 rows columns] in *. destruct r as [i line].
    apply in_combine_r in Hr. now apply Hrect. }
  assert (Hl0 : labels csv0 = seq 0 (List.length body)).
  { unfold labels. cbn [csv0 rows]. apply combine_seq_labels. }
  unfold load_table. fold keep. change (keep_columns keep _) with (keep_columns keep csv0).
  rewrite check_column_order_ok
    by (rewrite Hk; unfold keep; rewrite kept_without_duration; exact Hcols).
  cbn [bind]. unfold drop_labels. rewrite keep_columns_labels, Hl0.
  assert (Hf : forallb (fun l => mem_nat l (seq 0 (List.length body))) [0; 1; 2] = true).
  { cbn [forallb]. rewrite !andb_true_r.
    rewrite !andb_true_iff. repeat split; apply mem_nat_In, in_seq; lia. }
  rewrite Hf. eexists. split; [reflexivity|]. split; [|split; [exact Hk|]].
  2:{ intros i line Hi Hline. cbn [rows]. apply filter_In. split.
      - unfold keep_columns. cbn [rows csv0 columns].
        apply (in_map (fun r : Row => (fst r, select (map keep hdr) (snd r)))
                 _ (i, line)).
        apply (nth_error_in_combine_seq body 0 i line Hline).
      - cbn [fst]. destruct i as [|[|[|i]]]; try lia. reflexivity. }
  apply (part_of_usable _ (keep_columns keep csv0)).
  - split; [reflexivity|]. cbn [rows]. eauto.
  - split; [|split].
    + rewrite keep_columns_labels, Hl0. apply seq_NoDup.
    + now apply keep_columns_rectangular.
    + rewrite Hk. rewrite <- Hcols. intros c Hc. apply filter_In in Hc.
      apply filter_In. unfold keep. destruct Hc as [Hc Hm]. now rewrite Hm.
Qed.

Lemma null_filtering_total (st : state) :
  usable (csv st) -> In "TRACK_DURATION" (columns (csv st)) ->
  exists st1,
    null_filtering st = Normal st1 /\
    usable (csv st1) /\
    columns (csv st1) = columns (csv st) /\
    backup st1 = backup st.
Proof.
  intros Hu Hd. pose proof Hu as (Hnd & Hrect & _).
  destruct (drop_where_total is_null_duration None st Hnd) as [st1 H].
  - intros r Hr. destruct (cell_readable _ _ r Hrect Hr Hd) as [v Hv].
    unfold is_null_duration. rewrite Hv. cbn [bind]. eauto.
  - intros r rsn _ _ Hn. discriminate.
  - exists st1. split; [exact H|].
    destruct (null_filtering_normal st st1 Hnd H) as (Hc & Hr & _ & Hb).
    split; [|auto]. apply (part_of_usable _ (csv st)); [|assumption].
    split; [assumption | eauto].
Qed.

(** A [try] block around a threshold stage completes on a usable table and
    leaves a usable table. *)
Lemma guarded_usable (test : list string -> Row -> result bool) (rsn : string)
  (flag : bool) (stage : state -> outcome) (st : state) :
  (forall s, stage s = if flag then drop_where test (Some rsn) s else Normal s) ->
  usable (csv st) ->
  (flag = true -> readable test (columns (csv st)) (rows (csv st))) ->
  exists st',
    guarded stage st = Normal st' /\
    usable (csv st') /\
    columns (csv st') = columns (csv st) /\
    backup st' = csv st.
Proof.
  intros Heq Hu Hread.
  destruct (guarded_threshold_total test rsn flag stage Heq st (proj1 Hu) Hread)
    as [st' H].
  assert (Hf : framed stage).
  { intros s. rewrite Heq. destruct flag; [apply drop_where_framed | apply same_frame_refl]. }
  destruct (guarded_framed_normal stage st st' Hf H) as (Hb & Hc & Hk & _).
  exists st'. split; [exact H|]. split; [|auto].
  apply (part_of_usable _ (csv st)); [split; assumption | assumption].
Qed.

Lemma guarded_without_backup_usable (test : list string -> Row -> result bool)
  (rsn : string) (flag : bool) (stage : state -> outcome) (st : state) :
  (forall s, stage s = if flag then drop_where test (Some rsn) s else Normal s) ->
  usable (csv st) -> usable (backup st) ->
  (flag = true -> readable test (columns (csv st)) (rows (csv st))) ->
  exists st', guarded_without_backup stage st = Normal st' /\ usable (csv st').
Proof.
  intros Heq Hu Hub Hread.
  destruct (guarded_without_backup_threshold_total test rsn flag stage Heq st
              (proj1 Hu) Hread) as [st' H].
  assert (Hf : framed stage).
  { intros s. rewrite Heq. destruct flag; [apply drop_where_framed | apply same_frame_refl]. }
  destruct (guarded_without_backup_framed_normal stage st st' Hf H)
    as (_ & [(Hc & Hk & _)|Hrev]).
  - exists st'. split; [exact H|].
    apply (part_of_usable _ (csv st)); [split; assumption | assumption].
  - exists st'. split; [exact H|]. now rewrite Hrev.
Qed.

Lemma drop_duration_column_total (st : state) :
  usable (csv st) ->
  In "TRACK_DURATION" (columns (csv st)) ->
  filter (fun c => negb (String.eqb c "TRACK_DURATION")) (columns (csv st)) = col_names ->
  exists st',
    drop_duration_column st = Normal st' /\
    usable (csv st') /\
    backup st' = backup st.
Proof.
  intros (Hnd & Hrect & _) Hd Hcols.
  set (keep := fun c => negb (mem_string c ["TRACK_DURATION"])).
  assert (Hk : columns (keep_columns keep (csv st)) = col_names).
  { unfold keep_columns. cbn [columns]. rewrite select_map_filter, <- Hcols.
    apply filter_ext. intros c. unfold keep, mem_string. cbn [existsb].
    now rewrite orb_false_r. }
  unfold drop_duration_column, drop_columns. cbn [forallb].
  apply mem_string_In in Hd. rewrite Hd. cbn [andb lift]. fold keep.
  rewrite Hk. rewrite (proj2 (list_string_eqb_eq col_names col_names) eq_refl).
  cbn [recheck_column_order lift col_names]. eexists. split; [reflexivity|].
  split; [|reflexivity]. cbn [set_csv csv]. split; [|split].
  - now rewrite keep_columns_labels.
  - now apply keep_columns_rectangular.
  - rewrite Hk. apply incl_refl.
Qed.

Hypothesis quality_off : do_quality_percentile_filter cfg = false.

Lemma later_stages_total (d s l : float) (st : state) :
  usable (csv st) -> usable (backup st) ->
  exists st',
    later_stages mean std percentile cfg d s l None None st = Normal st' /\
    usable (csv st').
Proof.
  intros Hu Hub. unfold later_stages.
  assert (Hc : forall df name, usable df -> In name col_names -> In name (columns df)).
  { intros df name (_ & _ & Hi) Hn. now apply Hi. }
  destruct (guarded_without_backup_usable
              (below "MEAN_STRAIGHT_LINE_SPEED" s) "SPEED_THRESHOLD"
              (do_speed_thresh cfg) (speed_filter cfg s) st (fun _ => eq_refl) Hu Hub)
    as (st1 & E1 & Hu1).
  { intros _. apply below_readable; [assumption|]. apply Hc; [assumption|].
    unfold col_names. simpl. tauto. }
  rewrite E1. cbn [and_then].
  destruct (guarded_usable (below "TRACK_DISPLACEMENT" d) "DISPLACEMENT_THRESHOLD"
              (do_displacement_thresh cfg) (displacement_filter cfg d) st1
              (fun _ => eq_refl) Hu1) as (st2 & E2 & Hu2 & _).
  { intros _. apply below_readable; [assumption|]. apply Hc; [assumption|].
    unfold col_names. simpl. tauto. }
  rewrite E2. cbn [and_then].
  destruct (guarded_usable (below "LINEARITY_OF_FORWARD_PROGRESSION" l)
              "LINEARITY_THRESHOLD"
              (do_linearity_thresh cfg) (linearity_filter cfg l) st2
              (fun _ => eq_refl) Hu2) as (st3 & E3 & Hu3 & _).
  { intros _. apply below_readable; [assumption|]. apply Hc; [assumption|].
    unfold col_names. simpl. tauto. }
  rewrite E3. cbn [and_then].
  destruct (guarded_usable (below "" 0%float) "" false (quality_filter percentile cfg) st3)
    as (st4 & E4 & Hu4 & _);
    [intros s0; now rewrite quality_stage_skipped | assumption | discriminate |].
  rewrite E4. cbn [and_then].
  destruct (guarded_usable (below "" 0%float) "" false (std_filter mean std s None) st4)
    as (st5 & E5 & Hu5 & _); [reflexivity | assumption | discriminate |].
  rewrite E5. cbn [and_then].
  destruct (guarded_usable (below "" 0%float) "" false
              (iqr_filter mean percentile s None) st5)
    as (st6 & E6 & Hu6 & _); [reflexivity | assumption | discriminate |].
  rewrite E6. eauto.
Qed.

(** X13: [do_file] returns on a well-formed file of numbers.  [body]
    gives every cell of the file as a number (NaN where the cell is empty):
    a cell that holds text, on which [float] raises [ValueError], is not in
    the domain of the statement.  If [pd.read_csv] gives such a table with
    distinct column names, among them TRACK_DURATION and the seven columns
    of [col_names] in their order, with one cell per column in every line,
    and some line after the three description lines has a numeric
    duration, then with the quality percentile filter off and no std or IQR
    flags the reading, filtering and summarizing steps of [do_file] raise
    nothing: [do_file] returns ten values and seven standard deviations,
    and the filtered track count is not 0, for any thresholds and any
    choice of the threshold stages. *)
Theorem do_file_returns_on_well_formed_file (name : string) (hdr : list string)
  (body : list (list float)) (d s l : float) (i : nat) (line : list float)
  (dur : float) :
  files name = Ok (hdr, body) ->
  NoDup hdr ->
  In "TRACK_DURATION" hdr ->
  filter (fun c => mem_string c col_names) hdr = col_names ->
  (forall line, In line body -> List.length line = List.length hdr) ->
  3 <= i ->
  nth_error body i = Some line ->
  series_get hdr line "TRACK_DURATION" = Ok dur ->
  is_nan dur = false ->
  exists output_data output_std final_num_rows,
    do_file mean std percentile cfg files name d s l None None
    = Ok (output_data, output_std)
    /\ List.length output_data = 10
    /\ List.length output_std = 7
    /\ nth 8 output_data PyNone = PyInt (S final_num_rows).
Proof.
  intros Hfile _ Hdur Hcols Hrect Hi Hline Hcell Hnan.
  assert (Hlen : 3 <= List.length body).
  { assert (i < List.length body) by (apply nth_error_Some; congruence). lia. }
  destruct (load_table_total hdr body Hcols Hrect Hlen)
    as (csv2 & Hload & Hu2 & Hc2 & Hrows2).
  set (keep := fun c => mem_string c col_names || String.eqb c "TRACK_DURATION") in *.
  assert (Hd2 : In "TRACK_DURATION" (columns csv2)).
  { rewrite Hc2. apply filter_In. split; [assumption|]. unfold keep. now rewrite orb_true_r. }
  destruct (null_filtering_total (mkState csv2 csv2 []) Hu2 Hd2)
    as (st1 & E1 & Hu1 & Hc1 & Hb1).
  cbn [csv backup] in Hc1, Hb1.
  assert (Hne1 : rows (csv st1) <> []).
  { destruct (null_filtering_normal (mkState csv2 csv2 []) st1 (proj1 Hu2) E1)
      as (_ & Hr1 & _).
    cbn [csv] in Hr1. intros Hnil.
    pose proof (Hrows2 i line Hi Hline) as Hin.
    assert (Hin1 : In (i, select (map keep hdr) line) (rows (csv st1))).
    { rewrite Hr1. apply filter_In. split; [exact Hin|].
      rewrite (marked_null_duration _ _ dur); [now rewrite Hnan|].
      unfold cell. cbn [snd]. rewrite Hc2, <- select_map_filter.
      rewrite series_get_select; [exact Hcell | unfold keep; now rewrite orb_true_r |].
      apply Hrect. eapply nth_error_In; eauto. }
    rewrite Hnil in Hin1. contradiction. }
  destruct (guarded_usable (fails_duration cfg) "DURATION_THRESHOLD"
              (do_duration_thresh cfg) (duration_filter cfg) st1 (fun _ => eq_refl) Hu1)
    as (st2 & E2 & Hu2' & Hc2' & Hb2).
  { intros _. apply fails_duration_readable; [assumption|]. now rewrite Hc1. }
  destruct (drop_duration_column_total st2 Hu2') as (st3 & E3 & Hu3 & Hb3).
  { now rewrite Hc2', Hc1. }
  { rewrite Hc2', Hc1, Hc2. unfold keep. rewrite kept_without_duration. exact Hcols. }
  destruct (later_stages_total d s l st3 Hu3) as (st4 & E4 & Hu4).
  { now rewrite Hb3, Hb2. }
  assert (Hstages : filter_stages mean std percentile cfg d s l None None
                      (mkState csv2 csv2 []) = Normal st4).
  { unfold filter_stages, duration_part. rewrite E1. cbn [and_then].
    rewrite E2. cbn [and_then]. rewrite E3. cbn [and_then]. exact E4. }
  assert (Hne4 : rows (csv st4) <> []).
  { destruct (filter_stages_shape mean std percentile cfg d s l None None
                (mkState csv2 csv2 []) st4 (proj1 Hu2) Hstages)
      as (st1' & E1' & _ & _ & Hne & _).
    rewrite E1 in E1'. inversion E1'; subst st1'. now apply Hne. }
  destruct (summarize_total (List.length (rows csv2)) (csv st4) Hu4) as [[data stds] Hsum].
  destruct (rows (csv st4)) as [|r4 rest4] eqn:Er4; [contradiction|].
  exists data, stds, (List.length rest4). split.
  - unfold do_file, do_file_state, read_csv. rewrite Hfile. cbn [bind fst snd].
    rewrite Hload. cbn [bind]. rewrite Hstages. cbn [bind]. exact Hsum.
  - apply summarize_shape in Hsum. rewrite Er4 in Hsum. cbn [List.length] in Hsum. tauto.
Qed.

End Totality.

Lemma do_file_returns_on_well_formed_file_witness :
  exists output_data output_std final_num_rows,
    do_file np_mean np_std np_percentile default_settings two_speed_folder
      "1khz.csv" 0%float 1%float 0%float None None = Ok (output_data, output_std)
    /\ List.length output_data = 10
    /\ List.length output_std = 7
    /\ nth 8 output_data PyNone = PyInt (S final_num_rows).
Proof.
  apply (do_file_returns_on_well_formed_file np_mean np_std np_percentile
           default_settings two_speed_folder eq_refl "1khz.csv" header two_speed_file
           0%float 1%float 0%float 3 (track 100 1 1 5 1) 100%float).
  - reflexivity.
  - unfold header, col_names. repeat constructor; simpl; intuition discriminate.
  - simpl. tauto.
  - reflexivity.
  - intros line Hl. vm_compute in Hl.
    repeat (destruct Hl as [<-|Hl]; [reflexivity|]). contradiction.
  - lia.
  - reflexivity.
  - reflexivity.
  - reflexivity.
Defined.

(** ** Thresholds that are not numbers *)

Lemma ltb_nan (v : float) : (v <? nan)%float = false.
Proof.
  rewrite ltb_spec. change (Prim2SF nan) with S754_nan.
  unfold SFltb, SFcompare. now destruct (Prim2SF v).
Qed.

Lemma for_rows_nothing (body : Row -> state -> outcome) (entry : list Row) (st : state) :
  (forall r, In r entry -> body r st = Normal st) ->
  for_rows body entry st = Normal st.
Proof.
  induction entry as [|r rs IH]; intros H; [reflexivity|].
  cbn [for_rows]. rewrite (H r (or_introl eq_refl)). cbn [and_then].
  apply IH. intros x Hx. apply H. now right.
Qed.

Lemma drop_where_nothing (test : list string -> Row -> result bool)
  (reason : option string) (st : state) :
  (forall r, In r (rows (csv st)) -> test (columns (csv st)) r = Ok false) ->
  drop_where test reason st = Normal st.
Proof.
  intros H. unfold drop_where. apply for_rows_nothing. intros r Hr.
  unfold drop_body. now rewrite (H r Hr).
Qed.

Lemma below_nan_nothing (name rsn : string) (st : state) :
  usable (csv st) -> In name col_names ->
  drop_where (below name nan) (Some rsn) st = Normal st.
Proof.
  intros (_ & Hrect & Hc) Hn. apply drop_where_nothing. intros r Hr.
  destruct (cell_readable (csv st) name r Hrect Hr (Hc name Hn)) as [v Hv].
  unfold below. rewrite Hv. cbn [bind]. now rewrite ltb_nan.
Qed.

Section NotANumber.

Variable cfg : settings.

(** X14: a speed, displacement or linearity stage whose threshold is NaN
    drops no row and logs nothing, whatever the table holds and whether the
    stage is switched on or not: [x < nan] is false for every cell. *)
Theorem nan_threshold_drops_nothing (stage : state -> outcome) (st : state) :
  In stage [speed_filter cfg nan; displacement_filter cfg nan;
            linearity_filter cfg nan] ->
  usable (csv st) ->
  stage st = Normal st.
Proof.
  intros Hin Hu.
  destruct Hin as [<-|[<-|[<-|[]]]].
  - unfold speed_filter. destruct (do_speed_thresh cfg); [|reflexivity].
    apply below_nan_nothing; [assumption|]. unfold col_names. simpl. tauto.
  - unfold displacement_filter. destruct (do_displacement_thresh cfg); [|reflexivity].
    apply below_nan_nothing; [assumption|]. unfold col_names. simpl. tauto.
  - unfold linearity_filter. destruct (do_linearity_thresh cfg); [|reflexivity].
    apply below_nan_nothing; [assumption|]. unfold col_names. simpl. tauto.
Qed.

End NotANumber.

Lemma nan_threshold_drops_nothing_witness :
  displacement_filter settings_with_displacement_thresh nan low_displacement_state
  = Normal low_displacement_state.
Proof.
  apply (nan_threshold_drops_nothing settings_with_displacement_thresh
           (displacement_filter settings_with_displacement_thresh nan)).
  - simpl. tauto.
  - split; [|split].
    + vm_compute. repeat constructor; simpl; intuition discriminate.
    + intros r Hr. vm_compute in Hr. destruct Hr as [<-|[<-|[]]]; reflexivity.
    + apply incl_refl.
Defined.

(** ** The columns of the final table *)

Lemma load_table_columns (csv0 csv2 : DataFrame) :
  load_table csv0 = Ok csv2 ->
  columns csv2
  = filter (fun c => mem_string c col_names || String.eqb c "TRACK_DURATION")
      (columns csv0).
Proof.
  unfold load_table. intros H.
  destruct (check_column_order _ 0); cbn [bind] in H; [|discriminate].
  apply drop_labels_ok in H. destruct H as [Hc _]. rewrite Hc.
  unfold keep_columns. cbn [columns]. apply select_map_filter.
Qed.

Section Columns.

Variable mean : list float -> float.
Variable std : list float -> float.
Variable percentile : list float -> float -> result float.
Variable cfg : settings.
Variable files : string -> result (list string * list (list float)).

(** X15: the table [do_file] summarizes has exactly the seven columns of
    [col_names], in their order, or else, when the speed stage fell back on
    the backup taken before the duration stage, the columns of the file
    that are in [col_names] or are TRACK_DURATION, with TRACK_DURATION
    still among them.  No other column set reaches the summary. *)
Theorem final_table_columns (name : string) (d s l : float)
  (sf iqf : option (list bool)) (n : nat) (st : state) :
  do_file_state mean std percentile cfg files name d s l sf iqf = Ok (Some (n, st)) ->
  exists csv0,
    read_csv files name = Ok csv0 /\
    (columns (csv st) = col_names
     \/ (columns (csv st)
         = filter (fun c => mem_string c col_names || String.eqb c "TRACK_DURATION")
             (columns csv0)
         /\ In "TRACK_DURATION" (columns (csv st)))).
Proof.
  intros H. apply final_labels in H.
  destruct H as (csv0 & csv2 & st1 & Hread & Hload & _ & _ & _ & _ & _ & _ & _ & _ & Hc).
  exists csv0. split; [assumption|].
  destruct Hc as [Hc|[Hc Hd]]; [now left | right].
  split; [|assumption]. rewrite Hc. now apply load_table_columns.
Qed.

(** X16: the NaN test in the condition of the duration stage never
    decides anything.  On the table the null filtering leaves, the
    condition [duration < duration_threshold or duration != duration] has,
    for every row, the value of [duration < duration_threshold] alone. *)
Theorem duration_stage_nan_test_is_dead (st0 st1 : state) :
  NoDup (labels (csv st0)) ->
  null_filtering st0 = Normal st1 ->
  forall r, In r (rows (csv st1)) ->
    fails_duration cfg (columns (csv st1)) r
    = below "TRACK_DURATION" (duration_threshold cfg) (columns (csv st1)) r.
Proof.
  intros Hnd H r Hr.
  destruct (null_filtering_normal st0 st1 Hnd H) as (Hc & Hrows & _).
  rewrite Hrows in Hr. apply filter_In in Hr. destruct Hr as [_ Hm].
  rewrite Hc. unfold fails_duration, below.
  unfold marked, is_null_duration in Hm.
  destruct (cell "TRACK_DURATION" (columns (csv st0)) r) as [dur|e]; cbn [bind] in *;
    [|reflexivity].
  destruct (negb (dur =? dur)%float); [discriminate|]. now rewrite orb_false_r.
Qed.

End Columns.

Lemma final_table_columns_witness :
  exists n st,
    do_file_state np_mean np_std np_percentile default_settings
      (folder_with "1khz.csv" header short_fast_long_slow_file FileNotFoundError)
      "1khz.csv" 0%float 1%float 0%float None None = Ok (Some (n, st))
    /\ columns (csv st) = header.
Proof.
  eexists. eexists. split; [vm_compute; reflexivity|].
  destruct (final_table_columns np_mean np_std np_percentile default_settings
              (folder_with "1khz.csv" header short_fast_long_slow_file FileNotFoundError)
              "1khz.csv" 0%float 1%float 0%float None None 2 _ eq_refl)
    as (csv0 & Hread & Hc).
  vm_compute in Hread. inversion Hread; subst csv0; clear Hread.
  destruct Hc as [Hc|[Hc _]]; [discriminate Hc | exact Hc].
Defined.

Lemma duration_stage_nan_test_is_dead_witness :
  exists st1,
    null_filtering mixed_duration_state = Normal st1
    /\ forall r, In r (rows (csv st1)) ->
         fails_duration default_settings (columns (csv st1)) r
         = below "TRACK_DURATION" (duration_threshold default_settings)
             (columns (csv st1)) r.
Proof.
  eexists. split; [vm_compute; reflexivity|].
  apply (duration_stage_nan_test_is_dead default_settings mixed_duration_state).
  - vm_compute. repeat constructor; simpl; intuition discriminate.
  - vm_compute. reflexivity.
Defined.

(** ** The control's statistics as thresholds *)

Lemma stored_entry (values : list pyvalue) (i : nat) (f : float) :
  i < List.length values ->
  nth i values PyNone = PyFloat f ->
  nth i (map to_float values) 0%float = f.
Proof.
  intros Hi Hn.
  rewrite (nth_indep _ 0%float (to_float PyNone)) by (now rewrite length_map).
  now rewrite map_nth, Hn.
Qed.

Section ControlThresholds.

Variable mean : list float -> float.
Variable std : list float -> float.
Variable percentile : list float -> float -> result float.
Variable cfg : settings.
Variable files : string -> result (list string * list (list float)).

(** C4: the control file is analysed with displacement, speed and linearity
    thresholds 0, and every later file with the displacement threshold
    array[0][0], the speed threshold
    array[0][5] + brownian_multiplier * std_array[0][5] and the linearity
    threshold array[0][6].  When [do_file] returned on the control file with
    a table that has rows, these are the mean of the TRACK_DISPLACEMENT
    column of the control's final table, the mean of its
    MEAN_STRAIGHT_LINE_SPEED column plus [brownian_multiplier] times the
    standard deviation of that column, and the mean of its
    LINEARITY_OF_FORWARD_PROGRESSION column. *)
Theorem control_first_thresholds (control : string) (others : list string) :
  main_loop mean std percentile cfg files true (control :: others)
  = (row0 <- match store (do_file mean std percentile cfg files control
                            0%float 0%float 0%float
                            (do_std_filter_flags cfg) (do_iqr_filter_flags cfg)) with
             | Raise RuntimeError => Ok (repeat nan 10, repeat nan 7)
             | r => r
             end ;;
     more <- map_result
               (fun name =>
                  store (do_file mean std percentile cfg files name
                           (nth 0 (fst row0) 0%float)
                           (nth 5 (fst row0) 0 + brownian_multiplier cfg * nth 5 (snd row0) 0)%float
                           (nth 6 (fst row0) 0%float)
                           (do_std_filter_flags cfg) (do_iqr_filter_flags cfg)))
               others ;;
     Ok (row0 :: more))
  /\ forall n st output_data output_std,
       do_file_state mean std percentile cfg files control 0%float 0%float 0%float
         (do_std_filter_flags cfg) (do_iqr_filter_flags cfg) = Ok (Some (n, st)) ->
       rows (csv st) <> [] ->
       do_file mean std percentile cfg files control 0%float 0%float 0%float
         (do_std_filter_flags cfg) (do_iqr_filter_flags cfg)
       = Ok (output_data, output_std) ->
       exists displacements speeds linearities,
         df_column (csv st) "TRACK_DISPLACEMENT" = Ok displacements /\
         df_column (csv st) "MEAN_STRAIGHT_LINE_SPEED" = Ok speeds /\
         df_column (csv st) "LINEARITY_OF_FORWARD_PROGRESSION" = Ok linearities /\
         main_loop mean std percentile cfg files true (control :: others)
         = (more <- map_result
                      (fun name =>
                         store (do_file mean std percentile cfg files name
                                  (mean displacements)
                                  (mean speeds + brownian_multiplier cfg * std speeds)%float
                                  (mean linearities)
                                  (do_std_filter_flags cfg) (do_iqr_filter_flags cfg)))
                      others ;;
            Ok ((map to_float output_data, map to_float output_std) :: more)).
Proof.
  assert (Hloop :
    main_loop mean std percentile cfg files true (control :: others)
    = (row0 <- match store (do_file mean std percentile cfg files control
                              0%float 0%float 0%float
                              (do_std_filter_flags cfg) (do_iqr_filter_flags cfg)) with
               | Raise RuntimeError => Ok (repeat nan 10, repeat nan 7)
               | r => r
               end ;;
       more <- map_result
                 (fun name =>
                    store (do_file mean std percentile cfg files name
                             (nth 0 (fst row0) 0%float)
                             (nth 5 (fst row0) 0
                              + brownian_multiplier cfg * nth 5 (snd row0) 0)%float
                             (nth 6 (fst row0) 0%float)
                             (do_std_filter_flags cfg) (do_iqr_filter_flags cfg)))
                 others ;;
       Ok (row0 :: more))).
  { unfold main_loop. simpl analyze_files. unfold control_rows.
    destruct (store _) as [row0|e]; [|destruct e]; simpl bind; try reflexivity;
      rewrite analyze_files_after_first; reflexivity. }
  split; [exact Hloop|].
  intros n st output_data output_std Hst Hrows Hdo.
  assert (Hsum : summarize mean std cfg n (csv st) = Ok (output_data, output_std)).
  { unfold do_file in Hdo. rewrite Hst in Hdo. exact Hdo. }
  destruct (summarize_threshold_entries mean std cfg n (csv st) output_data output_std
              Hsum Hrows)
    as (displacements & speeds & linearities & Hd & Hs & Hl & H0 & H5 & H6 & H5s).
  destruct (summarize_shape mean std cfg n (csv st) output_data output_std Hsum)
    as (Hlen & Hlens & _).
  exists displacements, speeds, linearities.
  split; [exact Hd|]. split; [exact Hs|]. split; [exact Hl|].
  rewrite Hloop, Hdo. unfold store, assign_row. cbn [bind fst snd].
  rewrite Hlen, Hlens. change array_width with 10. change std_array_width with 7.
  cbn [Nat.eqb bind fst snd].
  rewrite (stored_entry output_data 0 (mean displacements)) by (auto; lia).
  rewrite (stored_entry output_data 5 (mean speeds)) by (auto; lia).
  rewrite (stored_entry output_data 6 (mean linearities)) by (auto; lia).
  rewrite (stored_entry output_std 5 (std speeds)) by (auto; lia).
  reflexivity.
Qed.

End ControlThresholds.

Lemma control_first_thresholds_witness :
  exists n st output_data output_std,
    do_file_state np_mean np_std np_percentile default_settings control_folder
      "0khz.csv" 0%float 0%float 0%float None None = Ok (Some (n, st))
    /\ rows (csv st) <> []
    /\ do_file np_mean np_std np_percentile default_settings control_folder
         "0khz.csv" 0%float 0%float 0%float None None = Ok (output_data, output_std)
    /\ exists displacements speeds linearities,
         df_column (csv st) "TRACK_DISPLACEMENT" = Ok displacements /\
         df_column (csv st) "MEAN_STRAIGHT_LINE_SPEED" = Ok speeds /\
         df_column (csv st) "LINEARITY_OF_FORWARD_PROGRESSION" = Ok linearities /\
         main_loop np_mean np_std np_percentile default_settings control_folder true
           ["0khz.csv"; "1khz.csv"]
         = (more <- map_result
                      (fun name =>
                         store (do_file np_mean np_std np_percentile default_settings
                                  control_folder name
                                  (np_mean displacements)
                                  (np_mean speeds
                                   + brownian_multiplier default_settings
                                     * np_std speeds)%float
                                  (np_mean linearities) None None))
                      ["1khz.csv"] ;;
            Ok ((map to_float output_data, map to_float output_std) :: more)).
Proof.
  eexists. eexists. eexists. eexists.
  split; [vm_compute; reflexivity|].
  split; [vm_compute; discriminate|].
  split; [vm_compute; reflexivity|].
  apply (proj2 (control_first_thresholds np_mean np_std np_percentile default_settings
                  control_folder "0khz.csv" ["1khz.csv"]) 2).
  - vm_compute. reflexivity.
  - vm_compute. discriminate.
  - vm_compute. reflexivity.
Defined.
